(** * FlightCal: flight lookup, date shifting and calendar events

    A shallow embedding of [core.py] and of the manual-entry route of
    [app.py], with the properties of the specification stated over it.

    Conventions.
    - A Python [str] is a sequence of Unicode code points: [list N].
      String literals of the source are written [py "..."] (ASCII only).
    - A Python [dict] with string keys is a [gmap string _].
    - Exceptions are values of [exn]; a computation that may raise
      returns [exn + A]. *)

From Stdlib Require Import ZArith NArith List Lia String Ascii Bool Sorted.
From stdpp Require Import gmap strings list fin_maps.

Local Open Scope N_scope.

(** ** Text *)

Abbreviation pystr := (list N).

(** A literal of the source, as code points. *)
Definition py (s : string) : pystr :=
  List.map N_of_ascii (list_ascii_of_string s).

Definition is_upper (c : N) : bool := (65 <=? c) && (c <=? 90).
Definition is_lower (c : N) : bool := (97 <=? c) && (c <=? 122).
Definition is_digit (c : N) : bool := (48 <=? c) && (c <=? 57).
Definition is_ascii (c : N) : bool := c <? 128.

(** The character class [[A-Za-z0-9]]. *)
Definition is_alnum (c : N) : bool := is_upper c || is_lower c || is_digit c.

(** [str.upper()], character by character. On ASCII only [a-z] change.
    For the other code points Python follows the Unicode database, which
    may map one character to several ([unicode_upper]). *)
Definition upper_char (unicode_upper : N -> pystr) (c : N) : pystr :=
  if is_ascii c then [if is_lower c then c - 32 else c] else unicode_upper c.

Definition upper (unicode_upper : N -> pystr) (s : pystr) : pystr :=
  flat_map (upper_char unicode_upper) s.

(** One row of the Unicode special casing table: U+00DF (sharp s)
    uppercases to "SS". Every other code point above ASCII is left as it
    is by this table; it is used for concrete runs only. *)
Definition sharp_s_upper (c : N) : pystr :=
  if c =? 223 then [83; 83] else [c].

(** [re.sub(r"[^A-Za-z0-9]", "", s)] *)
Definition strip_non_alnum (s : pystr) : pystr := List.filter is_alnum s.

(** The longest prefix of [s] in a character class, and the rest. *)
Fixpoint span (p : N -> bool) (s : pystr) : pystr * pystr :=
  match s with
  | [] => ([], [])
  | c :: r => if p c then let '(a, b) := span p r in (c :: a, b) else ([], s)
  end.

(** [re.match(r"([A-Z]+)([0-9]+)", s)]: anchored at the start only; both
    groups are greedy, and giving back letters never helps the digits, so
    the groups are the two maximal runs. *)
Definition match_letters_digits (s : pystr) : option (pystr * pystr) :=
  let '(letters, r) := span is_upper s in
  let '(numbers, _) := span is_digit r in
  match letters, numbers with
  | _ :: _, _ :: _ => Some (letters, numbers)
  | _, _ => None
  end.

(** [s.lstrip("0")] *)
Fixpoint lstrip_zeros (s : pystr) : pystr :=
  match s with
  | c :: r => if c =? 48 then lstrip_zeros r else s
  | [] => []
  end.

Section FlightNumber.
Variable unicode_upper : N -> pystr.

Definition parse_flight_number (flight_number : pystr) : pystr :=
  let cleaned_flight_number :=
    upper unicode_upper (strip_non_alnum flight_number) in
  match match_letters_digits cleaned_flight_number with
  | Some (letters, numbers) => letters ++ lstrip_zeros numbers
  | None => upper unicode_upper flight_number
  end.
End FlightNumber.


(** ** Exceptions

    The exceptions the modelled code raises or lets through. A provider
    client may raise anything; [ProviderFailure] stands for the exceptions
    of its own (network, parsing). [StrptimeError] is the [ValueError]
    that [datetime.strptime] raises; the text of its message is not
    modelled. *)
Inductive exn :=
| ValueError (msg : pystr)
| StrptimeError (data : pystr)
| KeyError (key : string)
| TypeError
| IndexError
| OverflowError
| UnknownTimeZoneError (name : pystr)
| UnicodeEncodeError
| ProviderFailure (what : pystr).

Definition bind_exn {A B} (x : exn + A) (f : A -> exn + B) : exn + B :=
  match x with
  | inl e => inl e
  | inr a => f a
  end.

Notation "'try!' x <- c 'in' k" := (bind_exn c (fun x => k))
  (at level 10, x pattern, c at level 100, k at level 200,
   format "'[v' 'try!'  x  <-  c  'in' '/' k ']'").

Definition raise {A} (e : exn) : exn + A := inl e.
Definition ret {A} (a : A) : exn + A := inr a.

(** [for x in l: ...] collecting results, stopping at the first raise. *)
Fixpoint map_exn {A B} (f : A -> exn + B) (l : list A) : exn + list B :=
  match l with
  | [] => ret []
  | a :: r => try! b <- f a in try! bs <- map_exn f r in ret (b :: bs)
  end.

(** ** Calendar dates ([datetime.date], [datetime.datetime])

    Proleptic Gregorian calendar, years 1 to 9999, as in Python. Times
    carry hours and minutes; the formats used never read seconds. *)

Local Open Scope Z_scope.

Record date := mkdate { year : Z; month : Z; day : Z }.
Record time := mktime { hour : Z; minute : Z }.
Record datetime := mkdatetime { dt_date : date; dt_time : time }.

Definition is_leap (y : Z) : bool :=
  ((y mod 4 =? 0) && negb (y mod 100 =? 0)) || (y mod 400 =? 0).

Definition days_in_month (y m : Z) : Z :=
  match m with
  | 1 => 31 | 2 => if is_leap y then 29 else 28 | 3 => 31 | 4 => 30
  | 5 => 31 | 6 => 30 | 7 => 31 | 8 => 31 | 9 => 30 | 10 => 31
  | 11 => 30 | 12 => 31
  | _ => 0
  end.

Definition days_in_year (y : Z) : Z := if is_leap y then 366 else 365.

Definition valid_date (d : date) : bool :=
  (1 <=? year d) && (year d <=? 9999) &&
  (1 <=? month d) && (month d <=? 12) &&
  (1 <=? day d) && (day d <=? days_in_month (year d) (month d)).

Definition valid_time (t : time) : bool :=
  (0 <=? hour t) && (hour t <=? 23) && (0 <=? minute t) && (minute t <=? 59).

Definition valid_datetime (x : datetime) : bool :=
  valid_date (dt_date x) && valid_time (dt_time x).

(** Days before January 1st of year [y]. *)
Definition days_before_year (y : Z) : Z :=
  let p := y - 1 in 365 * p + p / 4 - p / 100 + p / 400.

(** Days of year [y] before the first of month [m]. *)
Fixpoint days_before_month_upto (y : Z) (k : nat) : Z :=
  match k with
  | O => 0
  | S j => days_before_month_upto y j + days_in_month y (Z.of_nat k)
  end.

Definition days_before_month (y m : Z) : Z :=
  days_before_month_upto y (Z.to_nat (m - 1)).

(** [date.toordinal()]: 0001-01-01 is day 1. *)
Definition toordinal (d : date) : Z :=
  days_before_year (year d) + days_before_month (year d) (month d) + day d.

Definition max_ordinal : Z := 3652059.

(** Walk forward year by year, then month by month, until the day
    number fits. *)
Fixpoint year_of_ordinal (fuel : nat) (y n : Z) : Z * Z :=
  match fuel with
  | O => (y, n)
  | S f =>
      if n <=? days_in_year y then (y, n)
      else year_of_ordinal f (y + 1) (n - days_in_year y)
  end.

Fixpoint month_of_yearday (fuel : nat) (y m n : Z) : Z * Z :=
  match fuel with
  | O => (m, n)
  | S f =>
      if n <=? days_in_month y m then (m, n)
      else month_of_yearday f y (m + 1) (n - days_in_month y m)
  end.

(** [date.fromordinal(n)] for [1 <= n <= max_ordinal]. *)
Definition fromordinal (n : Z) : date :=
  let '(y, k) := year_of_ordinal (Z.to_nat 9998) 1 n in
  let '(m, d) := month_of_yearday 11 y 1 k in
  mkdate y m d.

(** [x + timedelta(days=k)]: the time of day is kept; leaving the years
    1..9999 raises [OverflowError]. *)
Definition add_days (x : datetime) (k : Z) : exn + datetime :=
  let n := toordinal (dt_date x) + k in
  if (1 <=? n) && (n <=? max_ordinal)
  then ret (mkdatetime (fromordinal n) (dt_time x))
  else raise OverflowError.

(** Minutes since the start of day 0, and back. *)
Definition to_minutes (x : datetime) : Z :=
  toordinal (dt_date x) * 1440 + hour (dt_time x) * 60 + minute (dt_time x).

Definition of_minutes (t : Z) : exn + datetime :=
  let n := t / 1440 in
  let r := t mod 1440 in
  if (1 <=? n) && (n <=? max_ordinal)
  then ret (mkdatetime (fromordinal n) (mktime (r / 60) (r mod 60)))
  else raise OverflowError.

(** ** [datetime.strptime] and [strftime]

    [strptime] compiles the format to a regular expression, takes the
    first match the backtracking engine finds at the start of the text
    and then refuses text left over. A matcher below returns every way to
    match, in the order the engine tries them; the head is the engine's
    match. *)

Abbreviation matcher A := (pystr -> list (A * pystr)).

(** The class [\s] of a text pattern. *)
Definition is_space (c : N) : bool :=
  let c := Z.of_N c in
  ((9 <=? c) && (c <=? 13)) || ((28 <=? c) && (c <=? 32)) ||
  (c =? 133) || (c =? 160) || (c =? 5760) ||
  ((8192 <=? c) && (c <=? 8202)) || (c =? 8232) || (c =? 8233) ||
  (c =? 8239) || (c =? 8287) || (c =? 12288).

(** [\s+], greedy: the remainders, longest run first. *)
Fixpoint re_spaces (s : pystr) : list pystr :=
  match s with
  | c :: r => if is_space c then re_spaces r ++ [r] else []
  | [] => []
  end.

Inductive directive := DY | Dm | Dd | DH | DM | Lit (c : N) | Space.

(** The fields [strptime] collects, with its defaults. *)
Record fields := mkfields { fY : Z; fm : Z; fd : Z; fH : Z; fM : Z }.
Definition default_fields : fields := mkfields 1900 1 1 0 0.

Section Strptime.
(** The decimal value of a code point above ASCII that [\d] accepts
    (Unicode category Nd), if it is one. *)
Variable unicode_decimal : N -> option Z.

Definition decimal_value (c : N) : option Z :=
  if is_digit c then Some (Z.of_N c - 48)
  else if is_ascii c then None else unicode_decimal c.

(** [\d] *)
Definition re_d : matcher Z := fun s =>
  match s with
  | c :: r => match decimal_value c with Some v => [(v, r)] | None => [] end
  | [] => []
  end.

(** [[lo-hi]] for ASCII digits [lo], [hi] *)
Definition re_range (lo hi : Z) : matcher Z := fun s =>
  match s with
  | c :: r =>
      let v := Z.of_N c - 48 in
      if is_digit c && (lo <=? v) && (v <=? hi) then [(v, r)] else []
  | [] => []
  end.

Definition re_lit (c0 : N) : matcher unit := fun s =>
  match s with
  | c :: r => if N.eqb c c0 then [(tt, r)] else []
  | [] => []
  end.

(** Two digit matchers in a row, read as a number. *)
Definition re_two (a b : matcher Z) : matcher Z := fun s =>
  flat_map (fun '(x, r) => List.map (fun '(y, r') => (10 * x + y, r')) (b r))
           (a s).

Definition re_alt {A} (ms : list (matcher A)) : matcher A := fun s =>
  flat_map (fun m => m s) ms.

(** [%Y]: [\d\d\d\d] *)
Definition re_Y : matcher Z := fun s =>
  flat_map (fun '(x, r) => List.map (fun '(y, r') => (100 * x + y, r'))
                             (re_two re_d re_d r))
           (re_two re_d re_d s).

(** [%m]: [1[0-2]|0[1-9]|[1-9]] *)
Definition re_m : matcher Z :=
  re_alt [re_two (re_range 1 1) (re_range 0 2);
          re_two (re_range 0 0) (re_range 1 9);
          re_range 1 9].

(** [%d]: [3[0-1]|[1-2]\d|0[1-9]|[1-9]| [1-9]] *)
Definition re_dd : matcher Z :=
  re_alt [re_two (re_range 3 3) (re_range 0 1);
          re_two (re_range 1 2) re_d;
          re_two (re_range 0 0) (re_range 1 9);
          re_range 1 9;
          fun s => flat_map (fun '(_, r) => re_range 1 9 r) (re_lit 32 s)].

(** [%H]: [2[0-3]|[0-1]\d|\d] *)
Definition re_H : matcher Z :=
  re_alt [re_two (re_range 2 2) (re_range 0 3);
          re_two (re_range 0 1) re_d;
          re_d].

(** [%M]: [[0-5]\d|\d] *)
Definition re_M : matcher Z :=
  re_alt [re_two (re_range 0 5) re_d; re_d].

Definition with_field {A} (m : matcher A) (upd : A -> fields) : matcher fields :=
  fun s => List.map (fun '(v, r) => (upd v, r)) (m s).

Definition match_directive (d : directive) (f : fields) : matcher fields :=
  match d with
  | DY => with_field re_Y (fun v => mkfields v (fm f) (fd f) (fH f) (fM f))
  | Dm => with_field re_m (fun v => mkfields (fY f) v (fd f) (fH f) (fM f))
  | Dd => with_field re_dd (fun v => mkfields (fY f) (fm f) v (fH f) (fM f))
  | DH => with_field re_H (fun v => mkfields (fY f) (fm f) (fd f) v (fM f))
  | DM => with_field re_M (fun v => mkfields (fY f) (fm f) (fd f) (fH f) v)
  | Lit c => with_field (re_lit c) (fun _ => f)
  | Space => fun s => List.map (fun r => (f, r)) (re_spaces s)
  end.

Fixpoint match_format (fmt : list directive) (f : fields) : matcher fields :=
  match fmt with
  | [] => fun s => [(f, s)]
  | d :: ds => fun s =>
      flat_map (fun '(f', r) => match_format ds f' r) (match_directive d f s)
  end.

Definition strptime (data : pystr) (fmt : list directive) : exn + datetime :=
  match match_format fmt default_fields data with
  | [] => raise (StrptimeError data)
  | (f, rest) :: _ =>
      match rest with
      | _ :: _ => raise (StrptimeError data)
      | [] =>
          let x := mkdatetime (mkdate (fY f) (fm f) (fd f))
                              (mktime (fH f) (fM f)) in
          if valid_date (dt_date x) then ret x
          else raise (StrptimeError data)
      end
  end.
End Strptime.

Definition digit_char (v : Z) : N := Z.to_N (48 + v).

Definition two_digits (v : Z) : pystr :=
  [digit_char (v / 10); digit_char (v mod 10)].

(** [%Y] of the C library the interpreter calls: no padding below 1000. *)
Definition year_digits (y : Z) : pystr :=
  (if 1000 <=? y then [digit_char (y / 1000)] else []) ++
  (if 100 <=? y then [digit_char (y / 100 mod 10)] else []) ++
  (if 10 <=? y then [digit_char (y / 10 mod 10)] else []) ++
  [digit_char (y mod 10)].

Definition format_directive (x : datetime) (d : directive) : pystr :=
  match d with
  | DY => year_digits (year (dt_date x))
  | Dm => two_digits (month (dt_date x))
  | Dd => two_digits (day (dt_date x))
  | DH => two_digits (hour (dt_time x))
  | DM => two_digits (minute (dt_time x))
  | Lit c => [c]
  | Space => [32%N]
  end.

Definition strftime (x : datetime) (fmt : list directive) : pystr :=
  flat_map (format_directive x) fmt.

(** ["%Y%m%d %H%M"], ["%Y%m%d"], ["%Y-%m-%d"], ["%Y-%m-%d %H:%M"] *)
Definition fmt_compact : list directive := [DY; Dm; Dd; Space; DH; DM].
Definition fmt_compact_date : list directive := [DY; Dm; Dd].
Definition fmt_dashed_date : list directive := [DY; Lit 45; Dm; Lit 45; Dd].
Definition fmt_dashed : list directive :=
  [DY; Lit 45; Dm; Lit 45; Dd; Space; DH; Lit 58; DM].

(** ** Provider records and rows

    A raw record of the provider, with the entries the code reads.
    Records that lack one of them make the source raise [KeyError]; the
    type leaves them out. [raw_airline] is [None] when the ["airline"]
    entry is missing or not a dict, [Some None] when it is a dict without
    a ["name"], [Some (Some n)] when it has the name [n]. *)
Record raw_record := mkraw {
  raw_number : pystr;
  raw_departure_date : pystr;
  raw_departure_time : pystr;
  raw_arrival_date : pystr;
  raw_arrival_time : pystr;
  raw_airline : option (option pystr);
  raw_origin_name : pystr;
  raw_destination_name : pystr;
  raw_origin_timezone : pystr;
  raw_destination_timezone : pystr;
  raw_origin_iata : pystr;
  raw_destination_iata : pystr
}.

(** What a provider query returns: a list, or a dict whose values are the
    records (in insertion order). *)
Inductive response :=
| RespList (l : list raw_record)
| RespDict (d : list (pystr * raw_record)).

Definition response_values (r : response) : list raw_record :=
  match r with
  | RespList l => l
  | RespDict d => List.map snd d
  end.

(** A cell of a row: text, or the boolean of the [is_guess] column. *)
Inductive value := VStr (s : pystr) | VBool (b : bool).

(** A canonical record: a dict, or a row of the data frame. *)
Abbreviation row := (gmap string value).

(** [r[k]] read as text *)
Definition get_str (r : row) (k : string) : exn + pystr :=
  match r !! k with
  | Some (VStr s) => ret s
  | Some (VBool _) => raise TypeError
  | None => raise (KeyError k)
  end.

Definition airline_map : list (string * string) :=
  [ ("BA", "British Airways"); ("AA", "American Airlines");
    ("UA", "United Airlines"); ("LH", "Lufthansa"); ("AF", "Air France");
    ("KL", "KLM"); ("IB", "Iberia"); ("AS", "Alaska Airlines");
    ("DL", "Delta Air Lines"); ("SW", "Southwest Airlines");
    ("EK", "Emirates"); ("QF", "Qantas"); ("SQ", "Singapore Airlines");
    ("NH", "All Nippon Airways"); ("CX", "Cathay Pacific");
    ("AC", "Air Canada"); ("OS", "Austrian Airlines"); ("AZ", "Alitalia");
    ("BE", "Brussels Airlines"); ("CA", "Air China");
    ("CI", "China Airlines"); ("CM", "China Eastern Airlines");
    ("CZ", "China Southern Airlines"); ("EY", "Etihad Airways");
    ("FI", "Icelandair"); ("GA", "Garuda Indonesia"); ("G3", "GOL");
    ("HA", "Hawaiian Airlines"); ("JL", "Japan Airlines");
    ("LA", "LATAM Airlines"); ("LX", "Swiss International Air Lines");
    ("MH", "Malaysia Airlines"); ("NZ", "Air New Zealand");
    ("PR", "Philippine Airlines"); ("QR", "Qatar Airways");
    ("RJ", "Royal Jordanian"); ("SK", "SAS"); ("SN", "Brussels Airlines");
    ("TG", "Thai Airways"); ("TK", "Turkish Airlines");
    ("TP", "TAP Air Portugal"); ("VN", "Vietnam Airlines");
    ("VX", "Virgin America"); ("WN", "Southwest Airlines") ]%string.

Definition pystr_eqb (a b : pystr) : bool := bool_decide (a = b).

Fixpoint airline_map_get (m : list (string * string)) (code : pystr)
  : option pystr :=
  match m with
  | [] => None
  | (k, v) :: r =>
      if pystr_eqb (py k) code then Some (py v) else airline_map_get r code
  end.

Definition parse_flight_info (flight_info : list raw_record)
    (chosen_flight_index : nat) : exn + row :=
  match flight_info !! chosen_flight_index with
  | None => raise IndexError
  | Some raw =>
      let flight_number := raw_number raw in
      let scheduled_departure :=
        raw_departure_date raw ++ py " " ++ raw_departure_time raw in
      let scheduled_arrival :=
        raw_arrival_date raw ++ py " " ++ raw_arrival_time raw in
      let airline_name :=
        match raw_airline raw with
        | Some (Some (c :: n)) => c :: n
        | _ =>
            match fst (span is_upper flight_number) with
            | c :: r =>
                let airline_code := c :: r in
                match airline_map_get airline_map airline_code with
                | Some name => name
                | None => py "Airline (" ++ airline_code ++ py ")"
                end
            | [] => py "Unknown Airline"
            end
        end in
      ret (<["destination_airport_code" := VStr (raw_destination_iata raw)]>
          (<["origin_airport_code" := VStr (raw_origin_iata raw)]>
          (<["destination_timezone" := VStr (raw_destination_timezone raw)]>
          (<["origin_timezone" := VStr (raw_origin_timezone raw)]>
          (<["destination_airport" := VStr (raw_destination_name raw)]>
          (<["origin_airport" := VStr (raw_origin_name raw)]>
          (<["airline_name" := VStr airline_name]>
          (<["scheduled_arrival" := VStr scheduled_arrival]>
          (<["scheduled_departure" := VStr scheduled_departure]>
          (<["flight_number" := VStr flight_number]> (∅ : row)))))))))))
  end.

(** The loop of [drop_ununique_flights]: the set of departure times seen
    and the flights kept so far. *)
Definition drop_step (st : gset pystr * list raw_record) (flight : raw_record)
  : gset pystr * list raw_record :=
  let '(unique_departure_times, unique_flights) := st in
  let departure_time := raw_departure_time flight in
  if decide (departure_time ∈ unique_departure_times) then st
  else ({[departure_time]} ∪ unique_departure_times,
        unique_flights ++ [flight]).

Definition drop_ununique_flights (flight_info : response) : list raw_record :=
  let flights_list := response_values flight_info in
  snd (fold_left drop_step flights_list (∅, [])).

(** ** The [icalendar] package

    The part of the third-party package the code uses: components with
    properties added by [add], and [to_ical], which writes one content
    line per property, escapes text values, folds long lines and joins
    them with CRLF. *)

Fixpoint is_prefix (p s : pystr) : bool :=
  match p, s with
  | [], _ => true
  | a :: p', b :: s' => N.eqb a b && is_prefix p' s'
  | _ :: _, [] => false
  end.

(** [s.replace(old, new)] for a non-empty [old]: occurrences are replaced
    from the left, without overlap. [skip] counts the characters of an
    occurrence still to pass over. *)
Fixpoint replace_from (old new : pystr) (skip : nat) (s : pystr) : pystr :=
  match s with
  | [] => []
  | c :: r =>
      match skip with
      | S k => replace_from old new k r
      | O =>
          if is_prefix old s
          then new ++ replace_from old new (length old - 1) r
          else c :: replace_from old new 0 r
      end
  end.

Definition replace (old new s : pystr) : pystr := replace_from old new 0 s.

Definition backslash : N := 92%N.
Definition newline : N := 10%N.
Definition carriage_return : N := 13%N.

(** [escape_char] of [icalendar.parser] *)
Definition escape_char (text : pystr) : pystr :=
  replace [newline] [backslash; 110%N]
    (replace [carriage_return; newline] [backslash; 110%N]
      (replace [44%N] [backslash; 44%N]
        (replace [59%N] [backslash; 59%N]
          (replace [backslash] [backslash; backslash]
            (replace [backslash; 78%N] [newline] text))))).

(** UTF-8 *)
Definition utf8_char (c : N) : list N :=
  (if c <? 128 then [c]
   else if c <? 2048 then [192 + c / 64; 128 + c mod 64]
   else if c <? 65536 then
     [224 + c / 4096; 128 + (c / 64) mod 64; 128 + c mod 64]
   else [240 + c / 262144; 128 + (c / 4096) mod 64;
         128 + (c / 64) mod 64; 128 + c mod 64])%N.

Definition utf8 (s : pystr) : list N := flat_map utf8_char s.

(** Surrogates have no UTF-8 encoding. *)
Definition encodable (c : N) : bool :=
  ((c <? 55296) || ((57343 <? c) && (c <? 1114112)))%N.

Definition encode (s : pystr) : exn + list N :=
  if forallb encodable s then ret (utf8 s) else raise UnicodeEncodeError.

Definition fold_sep : pystr := [carriage_return; newline; 32%N].

(** [foldline] on an ASCII line: pieces of 74 characters. [k] counts the
    characters of the current piece. *)
Fixpoint fold_ascii (line : pystr) (k : nat) : pystr :=
  match line with
  | [] => []
  | c :: r =>
      if (74 <=? k)%nat then fold_sep ++ c :: fold_ascii r 1
      else c :: fold_ascii r (S k)
  end.

(** [foldline] otherwise: a new piece before the character that brings
    the piece to 75 octets. *)
Fixpoint fold_octets (line : pystr) (byte_count : nat) : pystr :=
  match line with
  | [] => []
  | c :: r =>
      let char_byte_len := length (utf8_char c) in
      if (75 <=? byte_count + char_byte_len)%nat
      then fold_sep ++ c :: fold_octets r char_byte_len
      else c :: fold_octets r (byte_count + char_byte_len)
  end.

Definition foldline (line : pystr) : pystr :=
  if forallb is_ascii line then fold_ascii line 0 else fold_octets line 0.

(** A property value: text ([vText]), or a date and time with its zone
    ([vDDDTypes] of an aware [datetime]; [second] is 0 unless the value is
    the current time). *)
Inductive prop_value :=
| PText (s : pystr)
| PDateTime (x : datetime) (second : Z) (zone : pystr).

Record component := mkcomponent {
  comp_name : string;
  comp_canonical_order : list string;
  comp_props : list (string * prop_value);
  comp_subcomponents : list (string * list string * list (string * prop_value))
}.

(** [component.add(name, value)]; every name is added once here. *)
Definition add_prop (name : string) (v : prop_value)
    (props : list (string * prop_value)) : list (string * prop_value) :=
  props ++ [(name, v)].

Definition calendar_canonical_order : list string :=
  ["VERSION"; "PRODID"; "CALSCALE"; "METHOD"]%string.

Definition event_canonical_order : list string :=
  ["SUMMARY"; "DTSTART"; "DTEND"; "DURATION"; "DTSTAMP"; "UID";
   "RECURRENCE-ID"; "SEQUENCE"; "RRULE"; "RDATE"; "EXDATE"]%string.

Fixpoint insert_sorted (p : string * prop_value)
    (l : list (string * prop_value)) : list (string * prop_value) :=
  match l with
  | [] => [p]
  | q :: r =>
      if String.leb (fst p) (fst q) then p :: l else q :: insert_sorted p r
  end.

(** [sorted_keys]: the names of the canonical order first, in that order,
    then the others in alphabetical order. *)
Definition sorted_props (canonical : list string)
    (props : list (string * prop_value)) : list (string * prop_value) :=
  flat_map (fun k => List.filter (fun p => String.eqb (fst p) k) props)
           canonical
  ++ fold_right insert_sorted []
       (List.filter
          (fun p => negb (existsb (String.eqb (fst p)) canonical)) props).

Definition four_digits (v : Z) : pystr :=
  [digit_char (v / 1000); digit_char (v / 100 mod 10);
   digit_char (v / 10 mod 10); digit_char (v mod 10)].

(** One content line [NAME;params:value], before folding. The zone
    [UTC] is written with a final [Z], every other zone as a [TZID]
    parameter. *)
Definition content_line (name : string) (v : prop_value) : pystr :=
  match v with
  | PText s => py name ++ py ":" ++ escape_char s
  | PDateTime x sec zone =>
      let stamp :=
        four_digits (year (dt_date x)) ++ two_digits (month (dt_date x))
          ++ two_digits (day (dt_date x)) ++ py "T"
          ++ two_digits (hour (dt_time x)) ++ two_digits (minute (dt_time x))
          ++ two_digits sec in
      if pystr_eqb zone (py "UTC")
      then py name ++ py ":" ++ stamp ++ py "Z"
      else py name ++ py ";TZID=" ++ zone ++ py ":" ++ stamp
  end.

Definition property_lines (name : string) (canonical : list string)
    (props : list (string * prop_value)) (inner : list pystr) : list pystr :=
  [py "BEGIN:" ++ py name]
  ++ List.map (fun p => content_line (fst p) (snd p))
       (sorted_props canonical props)
  ++ inner
  ++ [py "END:" ++ py name].

Definition content_lines (c : component) : list pystr :=
  property_lines (comp_name c) (comp_canonical_order c) (comp_props c)
    (flat_map (fun '(n, o, ps) => property_lines n o ps [])
       (comp_subcomponents c)).

(** [component.to_ical()]: the folded lines, each ended by CRLF, as
    UTF-8. *)
Definition to_ical (c : component) : exn + list N :=
  encode (flat_map (fun l => foldline l ++ [carriage_return; newline])
            (content_lines c)).

(** A zone of the timezone database: its canonical name, and its offset
    from UTC in minutes at an instant given in UTC minutes. *)
Record tzinfo := mktz { tz_zone : pystr; tz_utcoffset : Z -> Z }.

Section Core.
Variable unicode_upper : N -> pystr.
Variable unicode_decimal : N -> option Z.

(** The timezone database ([pytz]): the zone of a name it knows. *)
Variable tz_database : pystr -> option tzinfo.

(** The provider client [f]. *)
Variable get_flight_for_date : pystr -> pystr -> exn + response.
Variable get_history_by_flight_number : pystr -> exn + response.

Definition timezone (name : pystr) : exn + tzinfo :=
  match tz_database name with
  | Some tz => ret tz
  | None => raise (UnknownTimeZoneError name)
  end.

(** [utc.localize(x).astimezone(tz)], as civil time in [tz] *)
Definition utc_astimezone (x : datetime) (tz : tzinfo) : exn + datetime :=
  of_minutes (to_minutes x + tz_utcoffset tz (to_minutes x)).

Definition parse_date (date : pystr) : exn + pystr :=
  try! d <- strptime unicode_decimal date fmt_dashed_date in
  ret (strftime d fmt_compact_date).

Definition move_flight_date (flight_info : row) (date : pystr) : exn + row :=
  try! dep_s <- get_str flight_info "scheduled_departure" in
  try! scheduled_departure <- strptime unicode_decimal dep_s fmt_compact in
  try! arr_s <- get_str flight_info "scheduled_arrival" in
  try! scheduled_arrival <- strptime unicode_decimal arr_s fmt_compact in
  try! date_t <- strptime unicode_decimal date fmt_compact_date in
  let date := dt_date date_t in
  let day_difference :=
    toordinal date - toordinal (dt_date scheduled_departure) in
  try! (scheduled_departure, scheduled_arrival) <-
    (if negb (day_difference =? 0) then
       try! d <- add_days scheduled_departure day_difference in
       try! a <- add_days scheduled_arrival day_difference in
       ret (d, a)
     else
       ret (mkdatetime date (dt_time scheduled_departure),
            mkdatetime date (dt_time scheduled_arrival))) in
  ret (<["scheduled_arrival" :=
           VStr (strftime scheduled_arrival fmt_compact)]>
      (<["scheduled_departure" :=
           VStr (strftime scheduled_departure fmt_compact)]> flight_info)).

Definition update_row_timezones (r : row) : exn + row :=
  try! o <- get_str r "origin_timezone" in
  try! origin_tz <- timezone o in
  try! d <- get_str r "destination_timezone" in
  try! destination_tz <- timezone d in
  try! dep_s <- get_str r "scheduled_departure" in
  try! scheduled_departure_utc <- strptime unicode_decimal dep_s fmt_compact in
  try! arr_s <- get_str r "scheduled_arrival" in
  try! scheduled_arrival_utc <- strptime unicode_decimal arr_s fmt_compact in
  try! dep <- utc_astimezone scheduled_departure_utc origin_tz in
  try! arr <- utc_astimezone scheduled_arrival_utc destination_tz in
  ret (<["scheduled_arrival" := VStr (strftime arr fmt_compact)]>
      (<["scheduled_departure" := VStr (strftime dep fmt_compact)]> r)).

Definition update_df_timezones (df : list row) : exn + list row :=
  map_exn update_row_timezones df.

(** [strptime(x, "%Y%m%d %H%M").strftime("%Y-%m-%d %H:%M")] of a column *)
Definition nice_column (col : string) (df : list row) : exn + list pystr :=
  map_exn (fun r =>
    try! x <- get_str r col in
    try! t <- strptime unicode_decimal x fmt_compact in
    ret (strftime t fmt_dashed)) df.

Definition set_column (col : string) (vals : list value) (df : list row)
  : list row :=
  List.map (fun '(r, v) => <[col := v]> r) (combine df vals).

Definition parse_nice_datetime (df : list row) : exn + list row :=
  try! deps <- nice_column "scheduled_departure" df in
  let df := set_column "nice_departure_date" (List.map VStr deps) df in
  try! arrs <- nice_column "scheduled_arrival" df in
  ret (set_column "nice_arrival_date" (List.map VStr arrs) df).

(** [df["is_guess"] = b] *)
Definition set_is_guess (b : bool) (df : list row) : list row :=
  List.map (fun r => <["is_guess" := VBool b]> r) df.

(** The calls made to the provider, in order. *)
Inductive provider_call :=
| CallForDate (flight_number date : pystr)
| CallHistory (flight_number : pystr).

Definition find_flights_with_date (flight_number date : pystr)
  : exn + response :=
  get_flight_for_date flight_number date.

Definition find_flight_no_date (flight_number : pystr) : exn + response :=
  try! flight_info <- get_history_by_flight_number flight_number in
  match response_values flight_info with
  | [] => raise (ValueError
             (py "No flight information found for the given flight number."))
  | _ :: _ => ret flight_info
  end.

Definition not_found_message (flight_number : pystr) : pystr :=
  py "No flight information found for flight number " ++ flight_number
    ++ py ".".

(** [[parse_flight_info(flight_info, i) for i in range(len(flight_info))]] *)
Definition parse_all (flight_info : list raw_record) : exn + list row :=
  map_exn (parse_flight_info flight_info) (seq 0 (length flight_info)).

(** [get_flight], with the provider calls it made. *)
Definition get_flight (flight_number date : pystr)
  : (exn + list row) * list provider_call :=
  let flight_number := parse_flight_number unicode_upper flight_number in
  match parse_date date with
  | inl e => (inl e, [])
  | inr date =>
      match find_flights_with_date flight_number date with
      | inl e => (inl e, [CallForDate flight_number date])
      | inr flight_info =>
          let flight_info := response_values flight_info in
          match flight_info with
          | [] =>
              ( match find_flight_no_date flight_number with
                | inl _ =>
                    raise (ValueError (not_found_message flight_number))
                | inr flight_info =>
                    let flight_info := drop_ununique_flights flight_info in
                    try! df <- parse_all flight_info in
                    let df := set_is_guess true df in
                    try! df <- map_exn (fun r => move_flight_date r date) df in
                    try! df <- update_df_timezones df in
                    parse_nice_datetime df
                end,
                [CallForDate flight_number date; CallHistory flight_number] )
          | _ :: _ =>
              ( if (1 <? length flight_info)%nat then
                  try! df <- parse_all flight_info in
                  let df := set_is_guess false df in
                  try! df <- update_df_timezones df in
                  parse_nice_datetime df
                else
                  try! r <- parse_flight_info flight_info 0 in
                  let df := set_is_guess false [r] in
                  try! df <- update_df_timezones df in
                  parse_nice_datetime df,
                [CallForDate flight_number date] )
          end
      end
  end.

(** [datetime.now(timezone.utc)], with its seconds. *)
Variable now : datetime * Z.

(** A cell inside an f-string. *)
Definition get_fmt (r : row) (k : string) : exn + pystr :=
  match r !! k with
  | Some (VStr s) => ret s
  | Some (VBool true) => ret (py "True")
  | Some (VBool false) => ret (py "False")
  | None => raise (KeyError k)
  end.

(** The two pictographs of the summary, as the source file has them. *)
Definition summary_mark_departure : pystr :=
  [63743; 252; 245; 180]%N.
Definition summary_mark_arrow : pystr :=
  [8218; 251; 176; 212; 8719; 232]%N.

(** The calendar both builders set up, for a [strptime] format. *)
Definition build_calendar (fmt : list directive) (data : row)
  : exn + component :=
  let cal_props :=
    add_prop "METHOD" (PText (py "REQUEST"))
      (add_prop "CALSCALE" (PText (py "GREGORIAN"))
        (add_prop "VERSION" (PText (py "2.0"))
          (add_prop "PRODID" (PText (py "-//eluceo/ical//2.0/EN")) []))) in
  try! airline_name <- get_fmt data "airline_name" in
  try! origin_airport_code <- get_fmt data "origin_airport_code" in
  try! destination_airport_code <- get_fmt data "destination_airport_code" in
  try! flight_number <- get_fmt data "flight_number" in
  let summary :=
    summary_mark_departure ++ py " " ++ airline_name ++ py " "
      ++ origin_airport_code ++ py " " ++ summary_mark_arrow ++ py " "
      ++ destination_airport_code ++ py " " ++ flight_number in
  try! o <- get_str data "origin_timezone" in
  try! origin_tz <- timezone o in
  try! d <- get_str data "destination_timezone" in
  try! destination_tz <- timezone d in
  try! dep_s <- get_str data "scheduled_departure" in
  try! dtstart <- strptime unicode_decimal dep_s fmt in
  try! arr_s <- get_str data "scheduled_arrival" in
  try! dtend <- strptime unicode_decimal arr_s fmt in
  try! origin_airport <- get_fmt data "origin_airport" in
  let description :=
    airline_name ++ py " flight " ++ flight_number ++ py " / Departs "
      ++ origin_airport ++ py ", " ++ origin_airport_code in
  let event_props :=
    add_prop "STATUS" (PText (py "CONFIRMED"))
      (add_prop "DTSTAMP" (PDateTime (fst now) (snd now) (py "UTC"))
        (add_prop "DESCRIPTION" (PText description)
          (add_prop "LOCATION" (PText origin_airport)
            (add_prop "DTEND" (PDateTime dtend 0 (tz_zone destination_tz))
              (add_prop "DTSTART" (PDateTime dtstart 0 (tz_zone origin_tz))
                (add_prop "SUMMARY" (PText summary) [])))))) in
  ret (mkcomponent "VCALENDAR" calendar_canonical_order cal_props
         [("VEVENT"%string, event_canonical_order, event_props)]).

Definition make_ical_event (data : row) : exn + list N :=
  try! cal <- build_calendar fmt_compact data in
  to_ical cal.

Definition make_ics_from_manual_data (data : row) : exn + list N :=
  try! cal <- build_calendar fmt_dashed data in
  to_ical cal.

(** [df.iloc[index]]: a negative position counts from the end; a
    position outside the frame raises [IndexError]. *)
Definition iloc (df : list row) (index : Z) : exn + row :=
  let n := Z.of_nat (length df) in
  let i := if index <? 0 then n + index else index in
  if (0 <=? i) && (i <? n) then
    match df !! Z.to_nat i with
    | Some r => ret r
    | None => raise IndexError
    end
  else raise IndexError.

Definition make_ics_from_selected_df_index (df : list row) (index : Z)
  : exn + list N :=
  try! data <- iloc df index in
  make_ical_event data.

(** *** The manual-entry route of [app.py] *)

Definition required_fields : list string :=
  ["flight_number"; "airline_name"; "origin_airport";
   "origin_airport_code"; "destination_airport";
   "destination_airport_code"; "scheduled_departure";
   "scheduled_arrival"; "origin_timezone"; "destination_timezone"]%string.

(** The dict [flight_data] read from the form; an entry that
    [request.form.get] gives as [None] is left out. *)
Definition manual_flight_data (form : gmap string pystr)
  : gmap string pystr :=
  fold_right
    (fun k m => match form !! k with Some v => <[k := v]> m | None => m end)
    ∅ required_fields.

(** The first field for which [not flight_data.get(field)] holds. *)
Fixpoint first_missing (flight_data : gmap string pystr)
    (fields : list string) : option string :=
  match fields with
  | [] => None
  | field :: r =>
      match flight_data !! field with
      | Some (_ :: _) => first_missing flight_data r
      | _ => Some field
      end
  end.

(** [re.match(r"^[A-Z]{3}$", code)]: [$] also matches before a final
    newline. *)
Definition match_airport_code (code : pystr) : bool :=
  match code with
  | [a; b; c] => is_upper a && is_upper b && is_upper c
  | [a; b; c; n] => is_upper a && is_upper b && is_upper c && N.eqb n newline
  | _ => false
  end.

Definition entry (flight_data : gmap string pystr) (k : string)
  : exn + pystr :=
  match flight_data !! k with
  | Some v => ret v
  | None => raise (KeyError k)
  end.

(** [if "T" in d[k]: d[k] = d[k].replace("T", " ")] *)
Definition normalize_T (k : string) (flight_data : gmap string pystr)
  : exn + gmap string pystr :=
  try! v <- entry flight_data k in
  if existsb (N.eqb 84) v
  then ret (<[k := replace (py "T") (py " ") v]> flight_data)
  else ret flight_data.

(** What [except ValueError] catches. *)
Definition is_value_error (e : exn) : bool :=
  match e with
  | ValueError _ | StrptimeError _ | UnicodeEncodeError => true
  | _ => false
  end.

(** The response of the route: the form again with [error = str(e)],
    or the file to download. *)
Inductive http_response :=
| RenderManualEntry (error : exn)
| SendFile (data : list N) (download_name : pystr).

(** The body of the outer [try] up to the call of the builder: the
    checked and normalised [flight_data]. *)
Definition validate_manual_entry (form : gmap string pystr)
  : exn + gmap string pystr :=
  let flight_data := manual_flight_data form in
  match first_missing flight_data required_fields with
  | Some field =>
      raise (ValueError (py "Missing required field: " ++ py field))
  | None =>
      try! o <- entry flight_data "origin_airport_code" in
      if negb (match_airport_code o) then
        raise (ValueError
                 (py "Origin airport code must be 3 uppercase letters"))
      else
      try! d <- entry flight_data "destination_airport_code" in
      if negb (match_airport_code d) then
        raise (ValueError
                 (py "Destination airport code must be 3 uppercase letters"))
      else
      match
        (try! flight_data <- normalize_T "scheduled_departure" flight_data in
         try! flight_data <- normalize_T "scheduled_arrival" flight_data in
         try! dep <- entry flight_data "scheduled_departure" in
         try! _ <- strptime unicode_decimal dep fmt_dashed in
         try! arr <- entry flight_data "scheduled_arrival" in
         try! _ <- strptime unicode_decimal arr fmt_dashed in
         ret flight_data)
      with
      | inl e =>
          if is_value_error e then
            raise (ValueError
                     (py "Invalid datetime format. Use: yyyy-mm-dd hh:mm"))
          else raise e
      | inr flight_data => ret flight_data
      end
  end.

Definition create_manual_event (form : gmap string pystr) : http_response :=
  match
    (try! flight_data <- validate_manual_entry form in
     try! ics_data <- make_ics_from_manual_data (VStr <$> flight_data) in
     try! flight <- entry flight_data "flight_number" in
     ret (ics_data, flight ++ py ".ics"))
  with
  | inl e => RenderManualEntry e
  | inr (ics_data, name) => SendFile ics_data name
  end.
End Core.

(** ** The list of time zones ([get_timezones_with_offsets]) *)

(** The decimal digits of [n >= 0]. *)
Fixpoint decimal_digits (fuel : nat) (n : Z) : pystr :=
  match fuel with
  | O => []
  | S f =>
      (if n <? 10 then [] else decimal_digits f (n / 10))
      ++ [digit_char (n mod 10)]
  end.

Definition decimal (n : Z) : pystr :=
  decimal_digits (S (Z.to_nat (Z.log2 n))) n.

(** [format(v, "0Nd")], and [format(v, "+0Nd")] when [plus]: the sign,
    zeros up to the width [N], the digits. *)
Definition format_d (plus : bool) (width : nat) (v : Z) : pystr :=
  let sign := if v <? 0 then [45%N] else if plus then [43%N] else [] in
  let digits := decimal (Z.abs v) in
  sign ++ repeat 48%N (width - length sign - length digits) ++ digits.

(** [a < b] on [str]: by code points, a proper prefix first. *)
Fixpoint str_lt (a b : pystr) : bool :=
  match a, b with
  | _, [] => false
  | [], _ :: _ => true
  | x :: a', y :: b' => if N.eqb x y then str_lt a' b' else N.ltb x y
  end.

(** [d[k] = v] on a dict kept in insertion order: a key already there
    keeps its place. *)
Fixpoint dict_set (k v : pystr) (d : list (pystr * pystr))
  : list (pystr * pystr) :=
  match d with
  | [] => [(k, v)]
  | (k', v') :: r =>
      if pystr_eqb k' k then (k', v) :: r else (k', v') :: dict_set k v r
  end.

(** The text shown for a zone whose offset is [seconds]
    ([int(offset.total_seconds())]); [divmod] and [//] round down. *)
Definition offset_label (tz_name : pystr) (seconds : Z) : pystr :=
  let hours := seconds / 3600 in
  let remainder := seconds mod 3600 in
  let minutes := remainder / 60 in
  let offset_str :=
    if negb (minutes =? 0)
    then py "UTC" ++ format_d true 3 hours ++ py ":" ++ format_d false 2 minutes
    else py "UTC" ++ format_d true 3 hours ++ py ":00" in
  tz_name ++ py " (" ++ offset_str ++ py ")".

(** The sort key [(offset, name)] and [<] on two keys: the first
    components that differ decide; [None] is ordered with nothing. *)
Abbreviation sort_key := (option Z * pystr)%type.

Definition key_lt (a b : sort_key) : exn + bool :=
  match fst a, fst b with
  | Some x, Some y =>
      if x =? y then ret (str_lt (snd a) (snd b)) else ret (x <? y)
  | None, None => ret (str_lt (snd a) (snd b))
  | _, _ => raise TypeError
  end.

(** [sorted(items, key=...)], a stable sort that uses [<] only: the
    keys are computed first, then an item goes after the items that are
    smaller. When no comparison raises, every stable sort gives this
    list. *)
Fixpoint insert_by_key {A} (x : sort_key * A) (l : list (sort_key * A))
  : exn + list (sort_key * A) :=
  match l with
  | [] => ret [x]
  | y :: r =>
      try! lt <- key_lt (fst y) (fst x) in
      if lt then try! r' <- insert_by_key x r in ret (y :: r')
      else ret (x :: l)
  end.

Fixpoint sort_by_key {A} (l : list (sort_key * A))
  : exn + list (sort_key * A) :=
  match l with
  | [] => ret []
  | x :: r => try! s <- sort_by_key r in insert_by_key x s
  end.

Section Timezones.
(** [pytz.all_timezones] *)
Variable all_timezones : list pystr.

(** [timezone(tz_name).utcoffset(now)] for the [now] of the call: the
    lookup or the zone may raise, the offset may be [None], otherwise it
    is a [timedelta], given here in whole seconds. *)
Variable utcoffset_now : pystr -> exn + option Z.

(** One turn of the loop over [all_timezones]. *)
Definition timezones_step (timezones_dict : list (pystr * pystr))
    (tz_name : pystr) : list (pystr * pystr) :=
  match utcoffset_now tz_name with
  | inr (Some offset) =>
      dict_set tz_name (offset_label tz_name offset) timezones_dict
  | inr None => timezones_dict
  | inl _ => timezones_dict
  end.

Definition get_timezones_with_offsets : exn + list (pystr * pystr) :=
  let timezones_dict := fold_left timezones_step all_timezones [] in
  try! keyed <-
    map_exn (fun x => try! offset <- utcoffset_now (fst x) in
                      ret ((offset, fst x), x)) timezones_dict in
  try! sorted_timezones <- sort_by_key keyed in
  ret (List.map snd sorted_timezones).
End Timezones.

(** ** Decidable equality

    Equality of the values above is decidable, so that a run of the
    code on given data can be compared with its expected result by
    evaluation. *)

#[global] Instance exn_eq_dec : EqDecision exn.
Proof. solve_decision. Defined.

#[global] Instance value_eq_dec : EqDecision value.
Proof. solve_decision. Defined.

#[global] Instance date_eq_dec : EqDecision date.
Proof. solve_decision. Defined.

#[global] Instance time_eq_dec : EqDecision time.
Proof. solve_decision. Defined.

#[global] Instance datetime_eq_dec : EqDecision datetime.
Proof. solve_decision. Defined.

#[global] Instance raw_record_eq_dec : EqDecision raw_record.
Proof. solve_decision. Defined.

#[global] Instance provider_call_eq_dec : EqDecision provider_call.
Proof. solve_decision. Defined.

#[global] Instance http_response_eq_dec : EqDecision http_response.
Proof. solve_decision. Defined.

(** * Sample data

    Concrete collaborators and the records of the tests, for the runs
    below. *)

(** No code point above ASCII is read as a digit. *)
Definition no_unicode_decimal : N -> option Z := fun _ => None.

(** Two zones with their offsets in October 2024: Singapore is at
    UTC+8 all year, Los Angeles at UTC-7 until November. *)
Definition sample_tz_database (name : pystr) : option tzinfo :=
  if pystr_eqb name (py "Asia/Singapore")
  then Some (mktz (py "Asia/Singapore") (fun _ => 480))
  else if pystr_eqb name (py "America/Los_Angeles")
  then Some (mktz (py "America/Los_Angeles") (fun _ => -420))
  else None.

Definition sample_now : datetime * Z :=
  (mkdatetime (mkdate 2024 10 1) (mktime 12 0), 0).

(** [MOCK_FLIGHT_DATA] of the tests. *)
Definition mock_flight_data : raw_record :=
  mkraw (py "SQ327") (py "20241023") (py "1430") (py "20241024") (py "0615")
        (Some (Some (py "Singapore Airlines")))
        (py "Singapore Changi Airport")
        (py "San Francisco International Airport")
        (py "Asia/Singapore") (py "America/Los_Angeles")
        (py "SIN") (py "SFO").

Definition with_departure_time (t : pystr) (r : raw_record) : raw_record :=
  mkraw (raw_number r) (raw_departure_date r) t (raw_arrival_date r)
        (raw_arrival_time r) (raw_airline r) (raw_origin_name r)
        (raw_destination_name r) (raw_origin_timezone r)
        (raw_destination_timezone r) (raw_origin_iata r)
        (raw_destination_iata r).

(** A record with the two schedule entries only, as in the tests of
    [move_flight_date]. *)
Definition schedule (departure arrival : string) : row :=
  <["scheduled_arrival" := VStr (py arrival)]>
    (<["scheduled_departure" := VStr (py departure)]> ∅).

(** * Properties *)

(** ** Text *)

Definition ascii_upper (c : N) : N := if is_lower c then (c - 32)%N else c.

Lemma upper_ascii up (s : pystr) :
  forallb is_ascii s = true -> upper up s = List.map ascii_upper s.
Proof.
  unfold upper. induction s as [|c s IH]; simpl; [reflexivity|].
  intros [Hc Hs]%andb_true_iff. rewrite (IH Hs).
  unfold upper_char. now rewrite Hc.
Qed.

Lemma is_alnum_ascii c : is_alnum c = true -> is_ascii c = true.
Proof.
  unfold is_alnum, is_upper, is_lower, is_digit, is_ascii. intros H.
  apply N.ltb_lt.
  repeat match type of H with
         | (_ || _) = true => apply orb_true_iff in H; destruct H as [H|H]
         end;
    apply andb_true_iff in H; destruct H as [_ H%N.leb_le]; lia.
Qed.

Lemma strip_non_alnum_ascii s : forallb is_ascii (strip_non_alnum s) = true.
Proof.
  apply forallb_forall. intros c Hc. apply filter_In in Hc as [_ Hc].
  now apply is_alnum_ascii.
Qed.

(** The cleaned flight number does not depend on the uppercase table. *)
Lemma upper_strip up s :
  upper up (strip_non_alnum s) = List.map ascii_upper (strip_non_alnum s).
Proof. apply upper_ascii, strip_non_alnum_ascii. Qed.

Lemma span_app p s : fst (span p s) ++ snd (span p s) = s.
Proof.
  induction s as [|c s IH]; simpl; [reflexivity|].
  destruct (p c); [|reflexivity]. destruct (span p s). simpl in *. now f_equal.
Qed.

Lemma span_fst_all p s : forallb p (fst (span p s)) = true.
Proof.
  induction s as [|c s IH]; simpl; [reflexivity|].
  destruct (p c) eqn:E; [|reflexivity]. destruct (span p s). simpl in *.
  now rewrite E.
Qed.

Lemma span_snd_head p s c r : snd (span p s) = c :: r -> p c = false.
Proof.
  induction s as [|a s IH]; simpl; [discriminate|].
  destruct (p a) eqn:E.
  - destruct (span p s). simpl in *. exact IH.
  - simpl. intros [= <- _]. exact E.
Qed.

(** [span] finds a given decomposition: a prefix in the class followed by
    nothing or by a character outside it. *)
Lemma span_decompose p a b :
  forallb p a = true -> (forall c r, b = c :: r -> p c = false) ->
  span p (a ++ b) = (a, b).
Proof.
  intros Ha Hb. induction a as [|x a IH]; simpl.
  - destruct b as [|c r]; [reflexivity|]. simpl. now rewrite (Hb c r eq_refl).
  - simpl in Ha. apply andb_true_iff in Ha as [Hx Ha]. rewrite Hx.
    now rewrite (IH Ha).
Qed.

Lemma lstrip_zeros_spec s :
  exists k, s = repeat 48%N k ++ lstrip_zeros s /\
            forall r, lstrip_zeros s <> 48%N :: r.
Proof.
  induction s as [|c s [k [IH1 IH2]]]; simpl.
  - exists 0%nat. split; [reflexivity | discriminate].
  - destruct (N.eqb_spec c 48) as [->|Hc].
    + exists (S k). simpl. split; [now f_equal | exact IH2].
    + exists 0%nat. split; [reflexivity|]. intros r [= E _]. contradiction.
Qed.

Lemma lstrip_zeros_idem s : lstrip_zeros (lstrip_zeros s) = lstrip_zeros s.
Proof.
  induction s as [|c s IH]; simpl; [reflexivity|].
  destruct (N.eqb_spec c 48) as [->|Hc]; [exact IH|].
  simpl. now destruct (N.eqb_spec c 48).
Qed.

Lemma lstrip_zeros_digits s :
  forallb is_digit s = true -> forallb is_digit (lstrip_zeros s) = true.
Proof.
  induction s as [|c s IH]; simpl; [reflexivity|].
  intros H. destruct (c =? 48)%N; [|exact H].
  apply andb_true_iff in H as [_ H]. auto.
Qed.

Lemma match_letters_digits_Some s letters numbers :
  match_letters_digits s = Some (letters, numbers) ->
  letters <> [] /\ numbers <> [] /\
  forallb is_upper letters = true /\ forallb is_digit numbers = true /\
  exists rest, s = letters ++ numbers ++ rest /\
               forall c r, rest = c :: r -> is_digit c = false.
Proof.
  unfold match_letters_digits.
  pose proof (span_app is_upper s) as Happ.
  pose proof (span_fst_all is_upper s) as Hup.
  destruct (span is_upper s) as [l r] eqn:E1. simpl in *.
  pose proof (span_app is_digit r) as Happ2.
  pose proof (span_fst_all is_digit r) as Hdig.
  pose proof (span_snd_head is_digit r) as Hhead.
  destruct (span is_digit r) as [n t] eqn:E2. simpl in *.
  destruct l as [|l0 l']; [discriminate|].
  destruct n as [|n0 n']; [discriminate|].
  intros [= <- <-]. repeat split; try discriminate; try assumption.
  exists t. split; [|exact Hhead]. now rewrite Happ2.
Qed.

Lemma is_digit_not_upper c : is_digit c = true -> is_upper c = false.
Proof.
  unfold is_digit, is_upper. intros [H1%N.leb_le H2%N.leb_le]%andb_true_iff.
  apply andb_false_iff. left. apply N.leb_gt. lia.
Qed.

Lemma match_letters_digits_decompose letters numbers rest :
  letters <> [] -> forallb is_upper letters = true ->
  numbers <> [] -> forallb is_digit numbers = true ->
  (forall c r, rest = c :: r -> is_digit c = false) ->
  match_letters_digits (letters ++ numbers ++ rest) = Some (letters, numbers).
Proof.
  intros Hl Hup Hn Hdig Hrest. unfold match_letters_digits.
  rewrite (span_decompose is_upper letters (numbers ++ rest) Hup).
  - rewrite (span_decompose is_digit numbers rest Hdig Hrest).
    destruct letters; [contradiction|]. destruct numbers; [contradiction|].
    reflexivity.
  - intros c r E. destruct numbers as [|n0 n']; [contradiction|].
    simpl in *. injection E as <- _. apply andb_true_iff in Hdig as [Hd _].
    now apply is_digit_not_upper.
Qed.

Lemma ascii_upper_idem c : ascii_upper (ascii_upper c) = ascii_upper c.
Proof.
  unfold ascii_upper. destruct (is_lower c) eqn:E; [|now rewrite E].
  unfold is_lower in *. apply andb_true_iff in E as [H1%N.leb_le H2%N.leb_le].
  replace ((97 <=? c - 32)%N) with false; [reflexivity|].
  symmetry. apply N.leb_gt. lia.
Qed.

Lemma ascii_upper_alnum c : is_alnum (ascii_upper c) = is_alnum c.
Proof.
  unfold ascii_upper. destruct (is_lower c) eqn:E; [|reflexivity].
  unfold is_alnum. rewrite E. rewrite orb_true_r. simpl.
  unfold is_lower in E. apply andb_true_iff in E as [H1%N.leb_le H2%N.leb_le].
  unfold is_upper. replace ((65 <=? c - 32)%N) with true
    by (symmetry; apply N.leb_le; lia).
  replace ((c - 32 <=? 90)%N) with true by (symmetry; apply N.leb_le; lia).
  reflexivity.
Qed.

Lemma ascii_upper_ascii c : is_ascii c = true -> is_ascii (ascii_upper c) = true.
Proof.
  unfold ascii_upper, is_ascii. intros H%N.ltb_lt.
  destruct (is_lower c); apply N.ltb_lt; lia.
Qed.

Lemma strip_map_upper s :
  strip_non_alnum (List.map ascii_upper s)
  = List.map ascii_upper (strip_non_alnum s).
Proof.
  unfold strip_non_alnum. induction s as [|c s IH]; simpl; [reflexivity|].
  rewrite ascii_upper_alnum. destruct (is_alnum c); simpl; now rewrite IH.
Qed.

(** Text made of capital letters and digits is left alone by the cleaning
    steps. *)
Lemma clean_fixed up (y : pystr) :
  forallb (fun c => is_upper c || is_digit c) y = true ->
  upper up (strip_non_alnum y) = y.
Proof.
  intros Hy. rewrite upper_strip. unfold strip_non_alnum.
  induction y as [|c y IH]; simpl; [reflexivity|].
  simpl in Hy. apply andb_true_iff in Hy as [Hc Hy].
  assert (Hal : is_alnum c = true).
  { unfold is_alnum. apply orb_true_iff in Hc as [->| ->]; simpl;
      [reflexivity | now rewrite !orb_true_r]. }
  rewrite Hal. simpl. rewrite (IH Hy). f_equal.
  unfold ascii_upper. destruct (is_lower c) eqn:El; [|reflexivity].
  exfalso. unfold is_upper, is_digit, is_lower in *.
  apply andb_true_iff in El as [H1%N.leb_le H2%N.leb_le].
  apply orb_true_iff in Hc as [Hc|Hc];
    apply andb_true_iff in Hc as [H3%N.leb_le H4%N.leb_le]; lia.
Qed.

Lemma forallb_upper_or_digit l n :
  forallb is_upper l = true -> forallb is_digit n = true ->
  forallb (fun c => is_upper c || is_digit c) (l ++ n) = true.
Proof.
  intros Hl Hn. rewrite forallb_app. apply andb_true_iff. split.
  - apply forallb_forall. intros c Hc.
    rewrite forallb_forall in Hl. now rewrite (Hl c Hc).
  - apply forallb_forall. intros c Hc.
    rewrite forallb_forall in Hn. rewrite (Hn c Hc). apply orb_true_r.
Qed.

Lemma upper_fixed up (y : pystr) :
  forallb (fun c => is_upper c || is_digit c) y = true -> upper up y = y.
Proof.
  intros Hy. unfold upper. induction y as [|c y IH]; simpl; [reflexivity|].
  simpl in Hy. apply andb_true_iff in Hy as [Hc Hy]. rewrite (IH Hy).
  unfold upper_char, is_ascii, is_upper, is_digit, is_lower in *.
  assert (c < 128 /\ (c < 97 \/ 122 < c))%N as [Ha Hl].
  { apply orb_true_iff in Hc as [Hc|Hc];
      apply andb_true_iff in Hc as [H3%N.leb_le H4%N.leb_le]; lia. }
  apply N.ltb_lt in Ha. rewrite Ha.
  replace ((97 <=? c)%N && (c <=? 122)%N) with false; [reflexivity|].
  symmetry. apply andb_false_iff.
  destruct Hl; [left; apply N.leb_gt | right; apply N.leb_gt]; lia.
Qed.

(** A result of the matching branch is a fixed point. *)
Lemma parse_flight_number_fixed up letters numbers :
  letters <> [] -> forallb is_upper letters = true ->
  forallb is_digit numbers = true ->
  parse_flight_number up (letters ++ lstrip_zeros numbers)
  = letters ++ lstrip_zeros numbers.
Proof.
  intros Hl Hup Hdig. unfold parse_flight_number.
  pose proof (lstrip_zeros_digits numbers Hdig) as Hd'.
  pose proof (forallb_upper_or_digit _ _ Hup Hd') as Hall.
  rewrite (clean_fixed up _ Hall).
  destruct (lstrip_zeros numbers) as [|d ds] eqn:E.
  - unfold match_letters_digits.
    rewrite (span_decompose is_upper letters [] Hup) by discriminate.
    simpl. destruct letters; [contradiction|]. now apply upper_fixed.
  - replace (letters ++ d :: ds) with (letters ++ (d :: ds) ++ [])
      by now rewrite app_nil_r.
    rewrite match_letters_digits_decompose; try assumption; try discriminate.
    rewrite <- E, lstrip_zeros_idem. now rewrite app_nil_r.
Qed.

(** ** Flight numbers *)

(** C6, as stated, fails: a digit run of zeros only is removed whole, no
    digit is kept. The flight number "SQ000" becomes "SQ", not "SQ0". *)
Lemma parse_flight_number_all_zeros_counterexample :
  parse_flight_number sharp_s_upper (py "SQ000") = py "SQ" /\
  parse_flight_number sharp_s_upper (py "SQ000") <> py "SQ0".
Proof. split; [reflexivity | discriminate]. Qed.

(** C6 (amended). Let [cleaned] be the letters and digits of the input,
    in upper case. If [cleaned] starts with a non-empty run of letters
    followed by a non-empty maximal run of digits, the result is the
    letters followed by the digits without their leading zeros (all of
    them: a run of zeros leaves no digit), and what follows the digits is
    dropped. Otherwise the result is the upper-cased input, not cleaned.
    "SQ0327", "sq 327" and "SQ-327" all give "SQ327". *)
Theorem parse_flight_number_spec up (s : pystr) :
  let cleaned := List.map ascii_upper (strip_non_alnum s) in
  (forall letters numbers rest,
      cleaned = letters ++ numbers ++ rest ->
      letters <> [] -> forallb is_upper letters = true ->
      numbers <> [] -> forallb is_digit numbers = true ->
      (forall c r, rest = c :: r -> is_digit c = false) ->
      parse_flight_number up s = letters ++ lstrip_zeros numbers /\
      exists k, numbers = repeat 48%N k ++ lstrip_zeros numbers /\
                forall r, lstrip_zeros numbers <> 48%N :: r) /\
  ((forall letters numbers rest,
       cleaned = letters ++ numbers ++ rest ->
       forallb is_upper letters = true -> forallb is_digit numbers = true ->
       letters = [] \/ numbers = []) ->
   parse_flight_number up s = upper up s) /\
  parse_flight_number up (py "SQ0327") = py "SQ327" /\
  parse_flight_number up (py "sq 327") = py "SQ327" /\
  parse_flight_number up (py "SQ-327") = py "SQ327".
Proof.
  intros cleaned. split; [|split; [|repeat split; reflexivity]].
  - intros letters numbers rest Heq Hl Hup Hn Hdig Hrest. split.
    + unfold parse_flight_number. rewrite upper_strip. fold cleaned.
      rewrite Heq. now rewrite match_letters_digits_decompose.
    + apply lstrip_zeros_spec.
  - intros Hno. unfold parse_flight_number. rewrite upper_strip. fold cleaned.
    destruct (match_letters_digits cleaned) as [[l n]|] eqn:E; [|reflexivity].
    apply match_letters_digits_Some in E
      as (Hl & Hn & Hup & Hdig & rest & Heq & _).
    destruct (Hno l n rest Heq Hup Hdig); contradiction.
Qed.

Lemma parse_flight_number_spec_witness :
  parse_flight_number sharp_s_upper (py "SQ000A7") = py "SQ" /\
  parse_flight_number sharp_s_upper (py "12 ab") = py "12 AB".
Proof.
  pose proof (parse_flight_number_spec sharp_s_upper (py "SQ000A7"))
    as [H1 _].
  pose proof (parse_flight_number_spec sharp_s_upper (py "12 ab"))
    as [_ [H2 _]].
  split.
  - refine (proj1 (H1 (py "SQ") (py "000") (py "A7") eq_refl _ eq_refl _
                      eq_refl _)); try discriminate.
    intros c r [= <- _]. reflexivity.
  - rewrite H2; [reflexivity|].
    intros letters numbers rest Heq Hup _.
    destruct letters as [|l0 l']; [now left|].
    simpl in Heq. injection Heq as <- _. discriminate Hup.
Defined.

(** C7, as stated, fails: when the cleaned input does not match, the
    result is the upper-cased input with its other characters kept, and
    upper-casing can produce letters: U+00DF upper-cases to "SS". With
    [x] = U+00DF "01" the first pass gives "SS01" and the second
    "SS1". *)
Lemma parse_flight_number_idempotent_counterexample :
  let x := (223 :: py "01")%N in
  parse_flight_number sharp_s_upper x = py "SS01" /\
  parse_flight_number sharp_s_upper (parse_flight_number sharp_s_upper x)
  = py "SS1" /\
  parse_flight_number sharp_s_upper (parse_flight_number sharp_s_upper x)
  <> parse_flight_number sharp_s_upper x.
Proof. repeat split; discriminate. Qed.

(** C7 (amended). [parse_flight_number] is idempotent on every input made
    of ASCII characters, and on every input, ASCII or not, whose cleaned
    form starts with letters followed by a digit. *)
Theorem parse_flight_number_idempotent up (x : pystr) :
  forallb is_ascii x = true \/
  match_letters_digits (upper up (strip_non_alnum x)) <> None ->
  parse_flight_number up (parse_flight_number up x)
  = parse_flight_number up x.
Proof.
  intros Hx. unfold parse_flight_number at 2 3.
  destruct (match_letters_digits (upper up (strip_non_alnum x)))
    as [[l n]|] eqn:E.
  - apply match_letters_digits_Some in E as (Hl & _ & Hup & Hdig & _).
    now apply parse_flight_number_fixed.
  - destruct Hx as [Hx|Hx]; [|contradiction].
    rewrite (upper_ascii up x Hx). unfold parse_flight_number.
    rewrite upper_strip, strip_map_upper, map_map.
    rewrite (map_ext _ _ ascii_upper_idem).
    rewrite upper_strip in E. rewrite E.
    rewrite upper_ascii.
    + rewrite map_map. apply map_ext, ascii_upper_idem.
    + apply forallb_forall. intros c [a [<- Ha]]%in_map_iff.
      rewrite forallb_forall in Hx. now apply ascii_upper_ascii, Hx.
Qed.

Lemma parse_flight_number_idempotent_witness :
  parse_flight_number sharp_s_upper
    (parse_flight_number sharp_s_upper (py "sq-0327"))
  = parse_flight_number sharp_s_upper (py "sq-0327").
Proof.
  apply parse_flight_number_idempotent. left. reflexivity.
Defined.

(** ** Deduplication *)

(** The specification's reading of [dedupe]: walking the input in order,
    a record is kept when no earlier record of the input has its
    departure time. *)
Fixpoint keep_first_per_time (earlier l : list raw_record) : list raw_record :=
  match l with
  | [] => []
  | x :: r =>
      (if existsb (fun y => pystr_eqb (raw_departure_time y)
                                      (raw_departure_time x)) earlier
       then [] else [x])
      ++ keep_first_per_time (earlier ++ [x]) r
  end.

Lemma pystr_eqb_eq a b : pystr_eqb a b = true <-> a = b.
Proof. unfold pystr_eqb. apply bool_decide_eq_true. Qed.

Lemma existsb_time_In earlier t :
  existsb (fun y => pystr_eqb (raw_departure_time y) t) earlier = true
  <-> In t (List.map raw_departure_time earlier).
Proof.
  rewrite existsb_exists, in_map_iff. split.
  - intros [y [Hy E%pystr_eqb_eq]]. eauto.
  - intros [y [E Hy]]. exists y. split; [assumption|]. now apply pystr_eqb_eq.
Qed.

Lemma drop_loop_spec l : forall (seen : gset pystr) acc earlier,
  (forall t, t ∈ seen <-> In t (List.map raw_departure_time earlier)) ->
  snd (fold_left drop_step l (seen, acc))
  = acc ++ keep_first_per_time earlier l.
Proof.
  induction l as [|x r IH]; intros seen acc earlier Hseen; simpl.
  - now rewrite app_nil_r.
  - remember (drop_step (seen, acc) x) as st eqn:Est.
    unfold drop_step in Est.
    destruct (decide (raw_departure_time x ∈ seen)) as [Hin|Hnin]; subst st.
    + rewrite (IH seen acc (earlier ++ [x])).
      * apply Hseen in Hin. apply existsb_time_In in Hin. now rewrite Hin.
      * intros t. rewrite map_app, in_app_iff, <- Hseen. simpl.
        split; [tauto|]. intros [H|[<-|[]]]; assumption.
    + rewrite (IH _ (acc ++ [x]) (earlier ++ [x])).
      * destruct (existsb _ earlier) eqn:E.
        -- apply existsb_time_In, Hseen in E. contradiction.
        -- now rewrite <- app_assoc.
      * intros t. rewrite map_app, in_app_iff, <- Hseen. simpl.
        rewrite elem_of_union, elem_of_singleton. split.
        -- intros [->|H]; [right; now left | now left].
        -- intros [H|[<-|[]]]; [now right | now left].
Qed.

Lemma keep_first_sublist l : forall earlier,
  sublist (keep_first_per_time earlier l) l.
Proof.
  induction l as [|x r IH]; intros earlier; simpl; [constructor|].
  destruct (existsb _ earlier); simpl.
  - apply sublist_cons, IH.
  - apply sublist_skip, IH.
Qed.

Lemma keep_first_fresh l : forall earlier x,
  In x (keep_first_per_time earlier l) ->
  ~ In (raw_departure_time x) (List.map raw_departure_time earlier).
Proof.
  induction l as [|y r IH]; intros earlier x; simpl; [tauto|].
  rewrite in_app_iff. intros [H|H].
  - destruct (existsb _ earlier) eqn:E; [destruct H|].
    destruct H as [<-|[]]. rewrite <- existsb_time_In. now rewrite E.
  - apply IH in H. rewrite map_app, in_app_iff in H. tauto.
Qed.

Lemma keep_first_NoDup l : forall earlier,
  List.NoDup (List.map raw_departure_time (keep_first_per_time earlier l)).
Proof.
  induction l as [|y r IH]; intros earlier; simpl; [constructor|].
  destruct (existsb _ earlier); simpl; [apply IH|].
  constructor; [|apply IH].
  intros [z [E Hz]]%in_map_iff. apply keep_first_fresh in Hz.
  apply Hz. rewrite map_app, in_app_iff. right. left. now symmetry.
Qed.

Lemma drop_ununique_flights_keep_first flight_info :
  drop_ununique_flights flight_info
  = keep_first_per_time [] (response_values flight_info).
Proof.
  unfold drop_ununique_flights.
  rewrite (drop_loop_spec _ ∅ [] []); [reflexivity|].
  intros t. simpl. split; [intros H%not_elem_of_empty | ]; tauto.
Qed.

(** C5. [drop_ununique_flights] returns the subsequence of its input that
    keeps, in the order of the input, the first record of each departure
    time and drops every later record with a time already seen. Two
    records with the same time give the first alone; two records with
    different times are both kept, in order. *)
Theorem drop_ununique_flights_spec (flight_info : response) :
  drop_ununique_flights flight_info
  = keep_first_per_time [] (response_values flight_info) /\
  sublist (drop_ununique_flights flight_info) (response_values flight_info) /\
  List.NoDup (List.map raw_departure_time (drop_ununique_flights flight_info)) /\
  (forall x, In x (response_values flight_info) ->
     exists y, In y (drop_ununique_flights flight_info) /\
               raw_departure_time y = raw_departure_time x) /\
  (forall a b, raw_departure_time a = raw_departure_time b ->
     drop_ununique_flights (RespList [a; b]) = [a]) /\
  (forall a b, raw_departure_time a <> raw_departure_time b ->
     drop_ununique_flights (RespList [a; b]) = [a; b]).
Proof.
  rewrite !drop_ununique_flights_keep_first.
  split; [reflexivity|]. split; [apply keep_first_sublist|].
  split; [apply keep_first_NoDup|]. split; [|split].
  - assert (G : forall l earlier x, In x l ->
      In (raw_departure_time x) (List.map raw_departure_time earlier) \/
      exists y, In y (keep_first_per_time earlier l) /\
                raw_departure_time y = raw_departure_time x).
    { induction l as [|z r IH]; intros earlier x; simpl; [tauto|].
      intros [->|Hx].
      - destruct (existsb _ earlier) eqn:E.
        + left. now apply existsb_time_In.
        + right. exists x. split; [now left | reflexivity].
      - destruct (IH (earlier ++ [z]) x Hx) as [H|[y [Hy E]]].
        + rewrite map_app, in_app_iff in H. destruct H as [H|[H|[]]];
            [now left|].
          destruct (existsb _ earlier) eqn:E.
          * left. apply existsb_time_In in E. now rewrite <- H.
          * right. exists z. split; [now left | assumption].
        + right. exists y. split; [|assumption].
          apply in_app_iff. now right. }
    intros x Hx. destruct (G _ [] x Hx) as [[]|H]. exact H.
  - intros a b E. rewrite drop_ununique_flights_keep_first. simpl.
    assert (H : pystr_eqb (raw_departure_time a) (raw_departure_time b) = true)
      by now apply pystr_eqb_eq.
    now rewrite H.
  - intros a b E. rewrite drop_ununique_flights_keep_first. simpl.
    destruct (pystr_eqb _ _) eqn:H; [|reflexivity].
    apply pystr_eqb_eq in H. contradiction.
Qed.

Lemma drop_ununique_flights_spec_witness :
  drop_ununique_flights (RespList [mock_flight_data; mock_flight_data])
  = [mock_flight_data] /\
  drop_ununique_flights
    (RespList [mock_flight_data;
               with_departure_time (py "1630") mock_flight_data])
  = [mock_flight_data; with_departure_time (py "1630") mock_flight_data].
Proof.
  pose proof (drop_ununique_flights_spec (RespList []))
    as (_ & _ & _ & _ & Hsame & Hdiff).
  split.
  - apply Hsame. reflexivity.
  - apply Hdiff. discriminate.
Defined.

(** ** Moving a flight to another date *)

Ltac exn_inv H :=
  repeat match type of H with
         | bind_exn ?c _ = inr _ =>
             let E := fresh "E" in
             destruct c eqn:E; simpl in H; [discriminate H|]
         | ret _ = inr _ => unfold ret in H
         | raise _ = inr _ => discriminate H
         | inl _ = inr _ => discriminate H
         | inr _ = inr _ => injection H as H
         | (let '(_, _) := ?p in _) = inr _ => destruct p
         end.

(** C10. [move_flight_date] changes the entries [scheduled_departure]
    and [scheduled_arrival] only: every other entry of the record it
    returns is the entry of the record it was given. *)
Theorem move_flight_date_frame ud (flight_info : row) (date : pystr) (r : row) :
  move_flight_date ud flight_info date = inr r ->
  forall k : string,
    k <> "scheduled_departure"%string -> k <> "scheduled_arrival"%string ->
    r !! k = flight_info !! k.
Proof.
  unfold move_flight_date. intros H k Hd Ha. exn_inv H. subst r.
  rewrite lookup_insert_ne by congruence.
  now rewrite lookup_insert_ne by congruence.
Qed.

Lemma move_flight_date_frame_witness :
  (<["flight_number" := VStr (py "SQ327")]>
     (schedule "20241025 1430" "20241026 0615")) !! "flight_number"%string
  = (<["flight_number" := VStr (py "SQ327")]>
       (schedule "20241023 1430" "20241024 0615")) !! "flight_number"%string.
Proof.
  apply (move_flight_date_frame no_unicode_decimal _ (py "20241025"));
    [vm_compute; reflexivity | discriminate | discriminate].
Defined.

(** C1, at the input where the code departs from it: an overnight
    flight (departure 2024-10-23 14:30, arrival 2024-10-24 06:15) moved to
    the date it already departs on. The day difference is 0, both dates
    are set to the target date, and the arrival lands on 2024-10-23
    06:15, before the departure; the day between them is lost. *)
Theorem move_flight_date_same_day_overnight :
  move_flight_date no_unicode_decimal
    (schedule "20241023 1430" "20241024 0615") (py "20241023")
  = inr (schedule "20241023 1430" "20241023 0615").
Proof. vm_compute. reflexivity. Qed.

(** The tests of [move_flight_date]: a flight that arrives the same day,
    moved to its own date, and the overnight flight moved by two days. *)
Example move_flight_date_tests :
  move_flight_date no_unicode_decimal
    (schedule "20241023 1430" "20241023 1645") (py "20241023")
  = inr (schedule "20241023 1430" "20241023 1645") /\
  move_flight_date no_unicode_decimal
    (schedule "20241023 1430" "20241024 0615") (py "20241025")
  = inr (schedule "20241025 1430" "20241026 0615").
Proof. split; vm_compute; reflexivity. Qed.

(** ** The calendar *)

Lemma is_leap_spec y :
  is_leap y = true <-> (y mod 4 = 0 /\ y mod 100 <> 0) \/ y mod 400 = 0.
Proof.
  unfold is_leap.
  rewrite orb_true_iff, andb_true_iff, negb_true_iff, !Z.eqb_eq, Z.eqb_neq.
  reflexivity.
Qed.

Lemma div_pred_4 y : y / 4 = (y - 1) / 4 + (if y mod 4 =? 0 then 1 else 0).
Proof. destruct (Z.eqb_spec (y mod 4) 0); Z.div_mod_to_equations; lia. Qed.

Lemma div_pred_100 y :
  y / 100 = (y - 1) / 100 + (if y mod 100 =? 0 then 1 else 0).
Proof. destruct (Z.eqb_spec (y mod 100) 0); Z.div_mod_to_equations; lia. Qed.

Lemma div_pred_400 y :
  y / 400 = (y - 1) / 400 + (if y mod 400 =? 0 then 1 else 0).
Proof. destruct (Z.eqb_spec (y mod 400) 0); Z.div_mod_to_equations; lia. Qed.

Lemma mod_400_100 y : y mod 400 = 0 -> y mod 100 = 0.
Proof. intros H. Z.div_mod_to_equations. lia. Qed.

Lemma mod_100_4 y : y mod 100 = 0 -> y mod 4 = 0.
Proof. intros H. Z.div_mod_to_equations. lia. Qed.

Lemma days_before_year_succ y :
  days_before_year (y + 1) = days_before_year y + days_in_year y.
Proof.
  unfold days_before_year, days_in_year, is_leap.
  replace (y + 1 - 1) with y by lia.
  rewrite (div_pred_4 y), (div_pred_100 y), (div_pred_400 y).
  destruct (Z.eqb_spec (y mod 400) 0) as [H4|H4].
  - rewrite (mod_400_100 y H4), (mod_100_4 y (mod_400_100 y H4)). simpl. lia.
  - destruct (Z.eqb_spec (y mod 100) 0) as [H1|H1].
    + rewrite (mod_100_4 y H1). simpl. lia.
    + destruct (Z.eqb_spec (y mod 4) 0); simpl; lia.
Qed.

Lemma days_in_year_pos y : 365 <= days_in_year y <= 366.
Proof. unfold days_in_year. destruct (is_leap y); lia. Qed.

Lemma days_before_year_mono a (n : nat) :
  days_before_year a + 365 * Z.of_nat n <= days_before_year (a + Z.of_nat n).
Proof.
  induction n as [|n IH];
    [replace (a + Z.of_nat 0) with a by lia; lia|].
  rewrite Nat2Z.inj_succ.
  replace (a + Z.succ (Z.of_nat n)) with (a + Z.of_nat n + 1) by lia.
  rewrite days_before_year_succ.
  pose proof (days_in_year_pos (a + Z.of_nat n)). lia.
Qed.

Lemma year_of_ordinal_spec fuel : forall y0 y k,
  y0 <= y -> y - y0 <= Z.of_nat fuel -> 1 <= k <= days_in_year y ->
  year_of_ordinal fuel y0 (days_before_year y - days_before_year y0 + k)
  = (y, k).
Proof.
  induction fuel as [|f IH]; intros y0 y k Hle Hfuel Hk; simpl.
  - assert (y = y0) by lia. subst. f_equal. lia.
  - destruct (Z.eq_dec y0 y) as [->|Hne].
    + replace (days_before_year y - days_before_year y + k) with k by lia.
      replace (k <=? days_in_year y) with true
        by (symmetry; apply Z.leb_le; lia).
      reflexivity.
    + pose proof (days_before_year_mono (y0 + 1) (Z.to_nat (y - (y0 + 1)))) as Hm.
      rewrite Z2Nat.id in Hm by lia.
      replace (y0 + 1 + (y - (y0 + 1))) with y in Hm by lia.
      rewrite days_before_year_succ in Hm.
      replace (_ <=? days_in_year y0) with false
        by (symmetry; apply Z.leb_gt; lia).
      rewrite <- (IH (y0 + 1) y k) by lia.
      f_equal. rewrite days_before_year_succ. lia.
Qed.

Lemma days_before_month_succ y m :
  1 <= m -> days_before_month y (m + 1)
            = days_before_month y m + days_in_month y m.
Proof.
  intros Hm. unfold days_before_month.
  replace (m + 1 - 1) with (Z.succ (m - 1)) by lia.
  rewrite Z2Nat.inj_succ by lia. cbn [days_before_month_upto].
  f_equal. f_equal. lia.
Qed.

Lemma days_in_month_nonneg y m : 0 <= days_in_month y m.
Proof.
  unfold days_in_month.
  repeat match goal with
         | |- context [match ?x with _ => _ end] => destruct x
         end; lia.
Qed.

Lemma days_before_month_mono y a (n : nat) :
  1 <= a -> days_before_month y a <= days_before_month y (a + Z.of_nat n).
Proof.
  intros Ha. induction n as [|n IH];
    [replace (a + Z.of_nat 0) with a by lia; lia|].
  rewrite Nat2Z.inj_succ.
  replace (a + Z.succ (Z.of_nat n)) with (a + Z.of_nat n + 1) by lia.
  rewrite days_before_month_succ by lia.
  pose proof (days_in_month_nonneg y (a + Z.of_nat n)). lia.
Qed.

Lemma month_of_yearday_spec y fuel : forall m0 m d,
  1 <= m0 -> m0 <= m -> m - m0 <= Z.of_nat fuel ->
  1 <= d <= days_in_month y m ->
  month_of_yearday fuel y m0
    (days_before_month y m - days_before_month y m0 + d) = (m, d).
Proof.
  induction fuel as [|f IH]; intros m0 m d H1 Hle Hfuel Hd; simpl.
  - assert (m = m0) by lia. subst. f_equal. lia.
  - destruct (Z.eq_dec m0 m) as [->|Hne].
    + replace (days_before_month y m - days_before_month y m + d) with d
        by lia.
      replace (d <=? days_in_month y m) with true
        by (symmetry; apply Z.leb_le; lia).
      reflexivity.
    + pose proof (days_before_month_mono y (m0 + 1)
                    (Z.to_nat (m - (m0 + 1)))) as Hm.
      rewrite Z2Nat.id in Hm by lia.
      replace (m0 + 1 + (m - (m0 + 1))) with m in Hm by lia.
      rewrite days_before_month_succ in Hm by lia.
      replace (_ <=? days_in_month y m0) with false
        by (symmetry; apply Z.leb_gt; lia).
      rewrite <- (IH (m0 + 1) m d) by lia.
      f_equal. rewrite days_before_month_succ by lia. lia.
Qed.

Lemma days_before_month_13 y : days_before_month y 13 = days_in_year y.
Proof.
  unfold days_before_month, days_in_year. simpl.
  destruct (is_leap y); reflexivity.
Qed.

Lemma valid_date_bounds d :
  valid_date d = true ->
  1 <= year d <= 9999 /\ 1 <= month d <= 12 /\
  1 <= day d <= days_in_month (year d) (month d).
Proof.
  unfold valid_date. rewrite !andb_true_iff, !Z.leb_le. tauto.
Qed.

Lemma yearday_bounds d :
  valid_date d = true ->
  1 <= days_before_month (year d) (month d) + day d <= days_in_year (year d).
Proof.
  intros (Hy & Hm & Hd)%valid_date_bounds.
  pose proof (days_before_month_mono (year d) 1 (Z.to_nat (month d - 1))) as H1.
  rewrite Z2Nat.id in H1 by lia.
  replace (1 + (month d - 1)) with (month d) in H1 by lia.
  pose proof (days_before_month_mono (year d) (month d + 1)
                (Z.to_nat (13 - (month d + 1)))) as H2.
  rewrite Z2Nat.id in H2 by lia.
  replace (month d + 1 + (13 - (month d + 1))) with 13 in H2 by lia.
  rewrite days_before_month_13, days_before_month_succ in H2 by lia.
  change (days_before_month (year d) 1) with 0 in H1. lia.
Qed.

(** [date.fromordinal(d.toordinal()) == d] *)
Lemma fromordinal_toordinal d :
  valid_date d = true -> fromordinal (toordinal d) = d.
Proof.
  intros Hv. pose proof (yearday_bounds d Hv) as Hk.
  pose proof (valid_date_bounds d Hv) as (Hy & Hm & Hd).
  unfold fromordinal, toordinal.
  pose proof (year_of_ordinal_spec (Z.to_nat 9998) 1 (year d)
                (days_before_month (year d) (month d) + day d)) as E.
  change (days_before_year 1) with 0 in E.
  rewrite Z.sub_0_r, Z.add_assoc in E. rewrite E by lia.
  pose proof (month_of_yearday_spec (year d) 11 1 (month d) (day d)) as E2.
  change (days_before_month (year d) 1) with 0 in E2.
  rewrite Z.sub_0_r in E2. rewrite E2 by (simpl; lia).
  now destruct d.
Qed.

Lemma toordinal_bounds d :
  valid_date d = true -> 1 <= toordinal d <= max_ordinal.
Proof.
  intros Hv. pose proof (yearday_bounds d Hv) as Hk.
  pose proof (valid_date_bounds d Hv) as (Hy & _).
  unfold toordinal.
  pose proof (days_before_year_mono 1 (Z.to_nat (year d - 1))) as H1.
  rewrite Z2Nat.id in H1 by lia.
  replace (1 + (year d - 1)) with (year d) in H1 by lia.
  pose proof (days_before_year_mono (year d + 1)
                (Z.to_nat (10000 - (year d + 1)))) as H2.
  rewrite Z2Nat.id in H2 by lia.
  replace (year d + 1 + (10000 - (year d + 1))) with 10000 in H2 by lia.
  rewrite days_before_year_succ in H2.
  change (days_before_year 1) with 0 in H1.
  change (days_before_year 10000) with 3652059 in H2.
  unfold max_ordinal. lia.
Qed.

(** ** Parsing and printing dates *)

Ltac enum_Z v lo n :=
  lazymatch n with
  | O => exfalso; lia
  | S ?k =>
      let lo' := eval compute in (lo + 1) in
      destruct (Z.eq_dec v lo) as [->|?]; [|enum_Z v lo' k]
  end.

Definition time_ok (f : fields) : Prop :=
  0 <= fH f <= 23 /\ 0 <= fM f <= 59.

Section StrptimeFacts.
Variable ud : N -> option Z.

(** A digit of the Unicode database has a value from 0 to 9. *)
Hypothesis ud_digit : forall c v, ud c = Some v -> 0 <= v <= 9.

Lemma strptime_inl s fmt e : strptime ud s fmt = inl e -> e = StrptimeError s.
Proof.
  unfold strptime. destruct (match_format ud fmt default_fields s)
    as [|[f [|c rest]] l]; simpl; try (intros [= <-]; reflexivity).
  destruct (valid_date _); [discriminate | intros [= <-]; reflexivity].
Qed.

Lemma decimal_value_range c v : decimal_value ud c = Some v -> 0 <= v <= 9.
Proof.
  unfold decimal_value. destruct (is_digit c) eqn:E.
  - intros [= <-]. unfold is_digit in E.
    apply andb_true_iff in E as [H1%N.leb_le H2%N.leb_le]. lia.
  - destruct (is_ascii c); [discriminate | apply ud_digit].
Qed.

Lemma re_d_In v r s : In (v, r) (re_d ud s) -> 0 <= v <= 9.
Proof.
  unfold re_d. destruct s as [|c t]; [intros []|].
  destruct (decimal_value ud c) as [w|] eqn:E; [|intros []].
  intros [[= <- _]|[]]. now apply decimal_value_range in E.
Qed.

Lemma re_range_In lo hi v r s : In (v, r) (re_range lo hi s) -> lo <= v <= hi.
Proof.
  unfold re_range. destruct s as [|c t]; [intros []|].
  destruct (is_digit c && _ && _) eqn:E; [|intros []].
  intros [[= <- _]|[]].
  apply andb_true_iff in E as [[_ H1%Z.leb_le]%andb_true_iff H2%Z.leb_le].
  lia.
Qed.

Lemma re_two_In (a b : matcher Z) v r s :
  In (v, r) (re_two a b s) ->
  exists x y r', In (x, r') (a s) /\ In (y, r) (b r') /\ v = 10 * x + y.
Proof.
  unfold re_two. rewrite in_flat_map. intros [[x r'] [Hx H]].
  apply in_map_iff in H as [[y r''] [[= <- <-] Hy]]. eauto 6.
Qed.

Lemma re_H_In v r s : In (v, r) (re_H ud s) -> 0 <= v <= 23.
Proof.
  unfold re_H, re_alt. simpl. rewrite !in_app_iff.
  intros [H|[H|[H|[]]]].
  - apply re_two_In in H as (x & y & r' & Hx%re_range_In & Hy%re_range_In & ->).
    lia.
  - apply re_two_In in H as (x & y & r' & Hx%re_range_In & Hy%re_d_In & ->).
    lia.
  - apply re_d_In in H. lia.
Qed.

Lemma re_M_In v r s : In (v, r) (re_M ud s) -> 0 <= v <= 59.
Proof.
  unfold re_M, re_alt. simpl. rewrite !in_app_iff.
  intros [H|[H|[]]].
  - apply re_two_In in H as (x & y & r' & Hx%re_range_In & Hy%re_d_In & ->).
    lia.
  - apply re_d_In in H. lia.
Qed.

Lemma match_directive_time_ok d f f' r s :
  time_ok f -> In (f', r) (match_directive ud d f s) -> time_ok f'.
Proof.
  intros [HH HM]. unfold time_ok.
  destruct d; simpl; unfold with_field; rewrite in_map_iff.
  1-6: intros [[v r'] [[= <- _] Hin]]; simpl; try (split; assumption).
  - apply re_H_In in Hin. tauto.
  - apply re_M_In in Hin. tauto.
  - intros [r' [[= <- _] _]]. tauto.
Qed.

Lemma match_format_time_ok fmt : forall f f' r s,
  time_ok f -> In (f', r) (match_format ud fmt f s) -> time_ok f'.
Proof.
  induction fmt as [|d ds IH]; intros f f' r s Hf; simpl.
  - intros [[= <- _]|[]]. assumption.
  - rewrite in_flat_map. intros [[f1 r1] [H1 H2]].
    eapply IH; [|exact H2]. eapply match_directive_time_ok; eauto.
Qed.

(** What [strptime] returns is a date of the calendar and a time of the
    day. *)
Lemma strptime_valid s fmt x :
  strptime ud s fmt = inr x -> valid_datetime x = true.
Proof.
  unfold strptime.
  destruct (match_format ud fmt default_fields s) as [|[f rest] l] eqn:E;
    [discriminate|].
  destruct rest; [|discriminate].
  destruct (valid_date _) eqn:Hv; [|discriminate].
  intros [= <-]. unfold valid_datetime. simpl in *. rewrite Hv. simpl.
  assert (Hok : time_ok f).
  { eapply (match_format_time_ok fmt default_fields f [] s).
    - unfold time_ok. simpl. lia.
    - rewrite E. now left. }
  destruct Hok as [HH HM]. unfold valid_time. simpl.
  rewrite !andb_true_iff, !Z.leb_le. lia.
Qed.

(** The engine's match of a format. *)
Definition first_match (fmt : list directive) (f : fields) (s : pystr)
  : option (fields * pystr) :=
  hd_error (match_format ud fmt f s).

Lemma first_match_cons d ds f s f' r tl res :
  match_directive ud d f s = (f', r) :: tl ->
  first_match ds f' r = Some res ->
  first_match (d :: ds) f s = Some res.
Proof.
  unfold first_match. simpl. intros -> H. simpl.
  destruct (match_format ud ds f' r); [discriminate|]. exact H.
Qed.

Lemma strptime_first_match fmt s f :
  first_match fmt default_fields s = Some (f, []) ->
  valid_date (mkdate (fY f) (fm f) (fd f)) = true ->
  strptime ud s fmt
  = inr (mkdatetime (mkdate (fY f) (fm f) (fd f)) (mktime (fH f) (fM f))).
Proof.
  unfold first_match, strptime.
  destruct (match_format ud fmt default_fields s) as [|p l]; [discriminate|].
  simpl. intros [= ->]. intros Hv. simpl in *. now rewrite Hv.
Qed.

Lemma re_d_digit v r : 0 <= v <= 9 -> re_d ud (digit_char v :: r) = [(v, r)].
Proof. intros Hv. enum_Z v 0 10%nat; reflexivity. Qed.

Lemma re_two_digits a b r :
  0 <= a <= 9 -> 0 <= b <= 9 ->
  re_two (re_d ud) (re_d ud) (digit_char a :: digit_char b :: r)
  = [(10 * a + b, r)].
Proof.
  intros Ha Hb. unfold re_two. rewrite (re_d_digit a) by assumption.
  cbn [flat_map]. rewrite (re_d_digit b) by assumption. reflexivity.
Qed.

Lemma Y_head f y r :
  1000 <= y <= 9999 ->
  match_directive ud DY f (year_digits y ++ r)
  = [(mkfields y (fm f) (fd f) (fH f) (fM f), r)].
Proof.
  intros Hy. unfold year_digits.
  replace (1000 <=? y) with true by (symmetry; apply Z.leb_le; lia).
  replace (100 <=? y) with true by (symmetry; apply Z.leb_le; lia).
  replace (10 <=? y) with true by (symmetry; apply Z.leb_le; lia).
  cbn [app match_directive]. unfold with_field, re_Y.
  rewrite re_two_digits by (Z.div_mod_to_equations; lia).
  cbn [flat_map]. rewrite re_two_digits by (Z.div_mod_to_equations; lia).
  cbn [List.map app]. do 2 f_equal. f_equal. Z.div_mod_to_equations. lia.
Qed.

Lemma m_head f v r :
  1 <= v <= 12 ->
  exists tl, match_directive ud Dm f
               (digit_char (v / 10) :: digit_char (v mod 10) :: r)
             = (mkfields (fY f) v (fd f) (fH f) (fM f), r) :: tl.
Proof. intros Hv. enum_Z v 1 12%nat; eexists; reflexivity. Qed.

Lemma d_head f v r :
  1 <= v <= 31 ->
  exists tl, match_directive ud Dd f
               (digit_char (v / 10) :: digit_char (v mod 10) :: r)
             = (mkfields (fY f) (fm f) v (fH f) (fM f), r) :: tl.
Proof. intros Hv. enum_Z v 1 31%nat; eexists; reflexivity. Qed.

Lemma H_head f v r :
  0 <= v <= 23 ->
  exists tl, match_directive ud DH f
               (digit_char (v / 10) :: digit_char (v mod 10) :: r)
             = (mkfields (fY f) (fm f) (fd f) v (fM f), r) :: tl.
Proof. intros Hv. enum_Z v 0 24%nat; eexists; reflexivity. Qed.

Lemma M_head f v r :
  0 <= v <= 59 ->
  exists tl, match_directive ud DM f
               (digit_char (v / 10) :: digit_char (v mod 10) :: r)
             = (mkfields (fY f) (fm f) (fd f) (fH f) v, r) :: tl.
Proof. intros Hv. enum_Z v 0 60%nat; eexists; reflexivity. Qed.

Lemma Lit_head f c r : match_directive ud (Lit c) f (c :: r) = [(f, r)].
Proof. simpl. unfold with_field, re_lit. now rewrite N.eqb_refl. Qed.

Lemma Space_head f v r :
  0 <= v <= 23 ->
  match_directive ud Space f
    (32%N :: digit_char (v / 10) :: digit_char (v mod 10) :: r)
  = [(f, digit_char (v / 10) :: digit_char (v mod 10) :: r)].
Proof. intros Hv. enum_Z v 0 24%nat; reflexivity. Qed.
End StrptimeFacts.

Lemma days_in_month_le_31 y m : days_in_month y m <= 31.
Proof.
  unfold days_in_month.
  repeat match goal with
         | |- context [match ?x with _ => _ end] => destruct x
         end; lia.
Qed.

Lemma valid_datetime_bounds x :
  valid_datetime x = true ->
  valid_date (dt_date x) = true /\
  1 <= year (dt_date x) <= 9999 /\ 1 <= month (dt_date x) <= 12 /\
  1 <= day (dt_date x) <= 31 /\
  0 <= hour (dt_time x) <= 23 /\ 0 <= minute (dt_time x) <= 59.
Proof.
  unfold valid_datetime, valid_time.
  intros [Hd Ht]%andb_true_iff. split; [assumption|].
  pose proof (valid_date_bounds _ Hd) as (Hy & Hm & Hday).
  pose proof (days_in_month_le_31 (year (dt_date x)) (month (dt_date x))).
  rewrite !andb_true_iff, !Z.leb_le in Ht. lia.
Qed.

Section RoundTrip.
Variable ud : N -> option Z.

Ltac step_head lem :=
  let tl := fresh "tl" in
  let E := fresh "E" in
  match goal with
  | |- first_match _ (_ :: _) ?f
         (digit_char (?v / 10) :: digit_char (?v mod 10) :: ?r) = _ =>
      destruct (lem ud f v r ltac:(lia)) as [tl E];
      eapply first_match_cons; [exact E|]
  end.

(** A date and time printed with ["%Y%m%d %H%M"] is read back by the
    same format, from the year 1000 on. *)
Lemma strptime_strftime_compact x :
  valid_datetime x = true -> 1000 <= year (dt_date x) ->
  strptime ud (strftime x fmt_compact) fmt_compact = inr x.
Proof.
  intros Hv Hy.
  pose proof (valid_datetime_bounds x Hv) as (Hd & Hy' & Hm & Hday & HH & HM).
  destruct x as [[y m d] [h mi]]. simpl in *.
  rewrite (strptime_first_match ud fmt_compact _ (mkfields y m d h mi));
    [reflexivity | | exact Hd].
  change (strftime _ fmt_compact)
    with (year_digits y ++ two_digits m ++ two_digits d
          ++ 32%N :: two_digits h ++ two_digits mi ++ []).
  unfold fmt_compact.
  eapply first_match_cons; [apply Y_head; lia|].
  step_head m_head. step_head d_head.
  eapply first_match_cons; [apply Space_head; lia|].
  step_head H_head. step_head M_head.
  reflexivity.
Qed.

Lemma strptime_strftime_compact_date x :
  valid_date (dt_date x) = true -> 1000 <= year (dt_date x) ->
  strptime ud (strftime x fmt_compact_date) fmt_compact_date
  = inr (mkdatetime (dt_date x) (mktime 0 0)).
Proof.
  intros Hd Hy.
  pose proof (valid_date_bounds _ Hd) as (Hy' & Hm & Hday).
  pose proof (days_in_month_le_31 (year (dt_date x)) (month (dt_date x))).
  destruct x as [[y m d] t]. simpl in *.
  rewrite (strptime_first_match ud fmt_compact_date _ (mkfields y m d 0 0));
    [reflexivity | | exact Hd].
  change (strftime _ fmt_compact_date)
    with (year_digits y ++ two_digits m ++ two_digits d ++ []).
  unfold fmt_compact_date.
  eapply first_match_cons; [apply Y_head; lia|].
  step_head m_head. step_head d_head.
  reflexivity.
Qed.

(** The same for ["%Y-%m-%d %H:%M"]. *)
Lemma strptime_strftime_dashed x :
  valid_datetime x = true -> 1000 <= year (dt_date x) ->
  strptime ud (strftime x fmt_dashed) fmt_dashed = inr x.
Proof.
  intros Hv Hy.
  pose proof (valid_datetime_bounds x Hv) as (Hd & Hy' & Hm & Hday & HH & HM).
  destruct x as [[y m d] [h mi]]. simpl in *.
  rewrite (strptime_first_match ud fmt_dashed _ (mkfields y m d h mi));
    [reflexivity | | exact Hd].
  change (strftime _ fmt_dashed)
    with (year_digits y ++ 45%N :: two_digits m ++ 45%N :: two_digits d
          ++ 32%N :: two_digits h ++ 58%N :: two_digits mi ++ []).
  unfold fmt_dashed.
  eapply first_match_cons; [apply Y_head; lia|].
  eapply first_match_cons; [apply Lit_head|].
  step_head m_head.
  eapply first_match_cons; [apply Lit_head|].
  step_head d_head.
  eapply first_match_cons; [apply Space_head; lia|].
  step_head H_head.
  eapply first_match_cons; [apply Lit_head|].
  step_head M_head.
  reflexivity.
Qed.
End RoundTrip.

(** ** Day numbers *)

Lemma year_of_day (k : nat) : forall n,
  days_before_year 1 < n <= days_before_year (1 + Z.of_nat k) ->
  exists y, 1 <= y < 1 + Z.of_nat k /\
            days_before_year y < n <= days_before_year (y + 1).
Proof.
  induction k as [|k IH]; intros n Hn.
  - replace (1 + Z.of_nat 0) with 1 in Hn by lia. lia.
  - rewrite Nat2Z.inj_succ in *.
    replace (1 + Z.succ (Z.of_nat k)) with (1 + Z.of_nat k + 1) in * by lia.
    destruct (Z_le_gt_dec n (days_before_year (1 + Z.of_nat k))) as [Hle|Hgt].
    + destruct (IH n) as [y [Hy Hd]]; [lia|]. exists y. split; [lia | exact Hd].
    + exists (1 + Z.of_nat k). split; lia.
Qed.

Lemma month_of_day y (k : nat) : forall r,
  0 < r <= days_before_month y (1 + Z.of_nat k) ->
  exists m, 1 <= m < 1 + Z.of_nat k /\
            days_before_month y m < r <= days_before_month y (m + 1).
Proof.
  induction k as [|k IH]; intros r Hr.
  - replace (1 + Z.of_nat 0) with 1 in Hr by lia.
    change (days_before_month y 1) with 0 in Hr. lia.
  - rewrite Nat2Z.inj_succ in *.
    replace (1 + Z.succ (Z.of_nat k)) with (1 + Z.of_nat k + 1) in * by lia.
    destruct (Z_le_gt_dec r (days_before_month y (1 + Z.of_nat k))) as [Hle|Hgt].
    + destruct (IH r) as [m [Hm Hd]]; [lia|]. exists m. split; [lia | exact Hd].
    + exists (1 + Z.of_nat k). split; lia.
Qed.

(** Every day number from 1 to [max_ordinal] is the number of a date. *)
Lemma ordinal_date n :
  1 <= n <= max_ordinal -> exists d, valid_date d = true /\ toordinal d = n.
Proof.
  intros Hn.
  destruct (year_of_day (Z.to_nat 9999) n) as [y [Hy Hd]].
  { rewrite Z2Nat.id by lia. change (days_before_year 1) with 0.
    change (days_before_year (1 + 9999)) with 3652059.
    unfold max_ordinal in Hn. lia. }
  rewrite Z2Nat.id in Hy by lia.
  rewrite days_before_year_succ in Hd.
  destruct (month_of_day y 12 (n - days_before_year y)) as [m [Hm Hr]].
  { change (1 + Z.of_nat 12) with 13. rewrite days_before_month_13. lia. }
  rewrite days_before_month_succ in Hr by lia.
  exists (mkdate y m (n - days_before_year y - days_before_month y m)).
  split.
  - unfold valid_date. simpl. rewrite !andb_true_iff, !Z.leb_le. lia.
  - unfold toordinal. simpl. lia.
Qed.

(** [date.fromordinal(n).toordinal() == n] *)
Lemma toordinal_fromordinal n :
  1 <= n <= max_ordinal ->
  valid_date (fromordinal n) = true /\ toordinal (fromordinal n) = n.
Proof.
  intros [d [Hv <-]]%ordinal_date.
  rewrite (fromordinal_toordinal d Hv). now split.
Qed.

Lemma add_days_spec x k x' :
  add_days x k = inr x' ->
  valid_date (dt_date x') = true /\
  toordinal (dt_date x') = toordinal (dt_date x) + k /\
  dt_time x' = dt_time x.
Proof.
  unfold add_days.
  destruct (_ && _) eqn:E; [|discriminate]. intros [= <-]. simpl.
  apply andb_true_iff in E as [H1%Z.leb_le H2%Z.leb_le].
  destruct (toordinal_fromordinal (toordinal (dt_date x) + k)) as [Hv Ho];
    [lia|]. auto.
Qed.

Lemma to_minutes_of_minutes t x :
  of_minutes t = inr x -> valid_datetime x = true /\ to_minutes x = t.
Proof.
  unfold of_minutes.
  destruct (_ && _) eqn:E; [|discriminate]. intros [= <-].
  apply andb_true_iff in E as [H1%Z.leb_le H2%Z.leb_le].
  destruct (toordinal_fromordinal (t / 1440)) as [Hv Ho]; [lia|].
  unfold valid_datetime, valid_time, to_minutes. simpl. rewrite Hv, Ho.
  split.
  - simpl. rewrite !andb_true_iff, !Z.leb_le.
    Z.div_mod_to_equations. lia.
  - Z.div_mod_to_equations. lia.
Qed.

Lemma of_minutes_to_minutes x :
  valid_datetime x = true -> of_minutes (to_minutes x) = inr x.
Proof.
  intros Hv. pose proof (valid_datetime_bounds x Hv) as (Hd & _ & _ & _ & HH & HM).
  pose proof (toordinal_bounds _ Hd) as Ho.
  unfold of_minutes, to_minutes.
  assert (E1 : (toordinal (dt_date x) * 1440 + hour (dt_time x) * 60
                + minute (dt_time x)) / 1440 = toordinal (dt_date x))
    by (Z.div_mod_to_equations; lia).
  assert (E2 : (toordinal (dt_date x) * 1440 + hour (dt_time x) * 60
                + minute (dt_time x)) mod 1440
               = hour (dt_time x) * 60 + minute (dt_time x))
    by (Z.div_mod_to_equations; lia).
  rewrite E1, E2.
  replace ((1 <=? _) && (_ <=? max_ordinal)) with true
    by (symmetry; rewrite andb_true_iff, !Z.leb_le; lia).
  rewrite (fromordinal_toordinal _ Hd).
  destruct x as [d [h mi]]. simpl in *. unfold ret. do 3 f_equal;
    Z.div_mod_to_equations; lia.
Qed.

(** ** Reading a date *)

Lemma strptime_valid_date ud s fmt x :
  strptime ud s fmt = inr x -> valid_date (dt_date x) = true.
Proof.
  unfold strptime.
  destruct (match_format ud fmt default_fields s) as [|[f [|c rest]] l];
    try discriminate.
  destruct (valid_date _) eqn:Hv; [|discriminate].
  now intros [= <-].
Qed.

Lemma decimal_small v : 0 <= v <= 9 -> decimal v = [digit_char v].
Proof. intros Hv. enum_Z v 0 10%nat; reflexivity. Qed.

Lemma decimal_two v :
  10 <= v <= 99 -> decimal v = [digit_char (v / 10); digit_char (v mod 10)].
Proof. intros Hv. enum_Z v 10 90%nat; reflexivity. Qed.

Section ParseDate.
Variable ud : N -> option Z.

Ltac head2 lem :=
  let tl := fresh "tl" in
  let E := fresh "E" in
  match goal with
  | |- first_match _ (_ :: _) ?f
         (digit_char (?v / 10) :: digit_char (?v mod 10) :: ?r) = _ =>
      destruct (lem ud f v r ltac:(lia)) as [tl E];
      eapply first_match_cons; [exact E|]
  end.

Lemma strptime_strftime_dashed_date x :
  valid_date (dt_date x) = true -> 1000 <= year (dt_date x) ->
  strptime ud (strftime x fmt_dashed_date) fmt_dashed_date
  = inr (mkdatetime (dt_date x) (mktime 0 0)).
Proof.
  intros Hd Hy.
  pose proof (valid_date_bounds _ Hd) as (Hy' & Hm & Hday).
  pose proof (days_in_month_le_31 (year (dt_date x)) (month (dt_date x))).
  destruct x as [[y m d] t]. simpl in *.
  rewrite (strptime_first_match ud fmt_dashed_date _ (mkfields y m d 0 0));
    [reflexivity | | exact Hd].
  change (strftime _ fmt_dashed_date)
    with (year_digits y ++ 45%N :: two_digits m ++ 45%N :: two_digits d ++ []).
  unfold fmt_dashed_date.
  eapply first_match_cons; [apply Y_head; lia|].
  eapply first_match_cons; [apply Lit_head|].
  head2 m_head.
  eapply first_match_cons; [apply Lit_head|].
  head2 d_head.
  reflexivity.
Qed.

(** A month without its leading zero, before a dash. *)
Lemma m_head_unpadded f v r :
  1 <= v <= 12 ->
  exists tl, match_directive ud Dm f (decimal v ++ 45%N :: r)
             = (mkfields (fY f) v (fd f) (fH f) (fM f), 45%N :: r) :: tl.
Proof.
  intros Hv. enum_Z v 1 12%nat;
    (eexists; vm_compute decimal; reflexivity).
Qed.

(** A day without its leading zero, at the end of the text. *)
Lemma d_last_unpadded f v :
  1 <= v <= 31 ->
  exists tl, match_directive ud Dd f (decimal v)
             = (mkfields (fY f) (fm f) v (fH f) (fM f), []) :: tl.
Proof.
  intros Hv. enum_Z v 1 31%nat;
    (eexists; vm_compute decimal; reflexivity).
Qed.

Lemma strptime_unpadded_date d :
  valid_date d = true -> 1000 <= year d ->
  strptime ud (year_digits (year d) ++ 45%N :: decimal (month d)
                 ++ 45%N :: decimal (day d)) fmt_dashed_date
  = inr (mkdatetime d (mktime 0 0)).
Proof.
  intros Hd Hy.
  pose proof (valid_date_bounds _ Hd) as (Hy' & Hm & Hday).
  pose proof (days_in_month_le_31 (year d) (month d)).
  destruct d as [y m d]. simpl in *.
  rewrite (strptime_first_match ud fmt_dashed_date _ (mkfields y m d 0 0));
    [reflexivity | | exact Hd].
  unfold fmt_dashed_date.
  eapply first_match_cons; [apply Y_head; lia|].
  eapply first_match_cons; [apply Lit_head|].
  destruct (m_head_unpadded (mkfields y 1 1 0 0) m (decimal d)) as [tl E];
    [lia|].
  eapply first_match_cons; [exact E|].
  eapply first_match_cons; [apply Lit_head|].
  destruct (d_last_unpadded (mkfields y m 1 0 0) d) as [tl' E']; [lia|].
  eapply first_match_cons; [exact E'|].
  reflexivity.
Qed.

(** [parse_date] turns a date of the calendar written YYYY-MM-DD into
    YYYYMMDD, from the year 1000 on; the month and the day may come
    without their leading zero; and the text it returns is read back by
    ["%Y%m%d"], the format of [move_flight_date], as the same date. *)
Theorem parse_date_canonical (d : date) :
  valid_date d = true -> 1000 <= year d ->
  let x := mkdatetime d (mktime 0 0) in
  parse_date ud (strftime x fmt_dashed_date)
  = inr (strftime x fmt_compact_date) /\
  parse_date ud (year_digits (year d) ++ 45%N :: decimal (month d)
                   ++ 45%N :: decimal (day d))
  = inr (strftime x fmt_compact_date) /\
  strptime ud (strftime x fmt_compact_date) fmt_compact_date = inr x.
Proof.
  intros Hd Hy x. unfold parse_date.
  rewrite (strptime_strftime_dashed_date x Hd Hy).
  rewrite (strptime_unpadded_date d Hd Hy).
  split; [reflexivity|]. split; [reflexivity|].
  apply (strptime_strftime_compact_date ud x Hd Hy).
Qed.
End ParseDate.

Lemma parse_date_canonical_witness :
  parse_date no_unicode_decimal (py "2024-01-05") = inr (py "20240105") /\
  parse_date no_unicode_decimal (py "2024-1-5") = inr (py "20240105") /\
  strptime no_unicode_decimal (py "20240105") fmt_compact_date
  = inr (mkdatetime (mkdate 2024 1 5) (mktime 0 0)).
Proof.
  apply (parse_date_canonical no_unicode_decimal (mkdate 2024 1 5));
    [reflexivity | simpl; lia].
Defined.

(** ** Moving a flight: the dates it gives *)

Lemma get_str_inr (r : row) k s :
  get_str r k = inr s -> r !! k = Some (VStr s).
Proof.
  unfold get_str. destruct (r !! k) as [[s'|b]|]; try discriminate.
  now intros [= ->].
Qed.

(** What [move_flight_date] returns. The departure is on the requested
    date, at its time of day. The arrival keeps its time of day; it is
    as many days after the departure as before when the flight is moved
    to another date, and on the requested date itself when the flight
    already departs on it. *)
Theorem move_flight_date_spec ud (flight_info : row) (date : pystr) (r : row) :
  move_flight_date ud flight_info date = inr r ->
  exists dep_s arr_s dep arr target arr',
    flight_info !! "scheduled_departure" = Some (VStr dep_s) /\
    flight_info !! "scheduled_arrival" = Some (VStr arr_s) /\
    strptime ud dep_s fmt_compact = inr dep /\
    strptime ud arr_s fmt_compact = inr arr /\
    strptime ud date fmt_compact_date = inr target /\
    r !! "scheduled_departure"
    = Some (VStr (strftime (mkdatetime (dt_date target) (dt_time dep))
                           fmt_compact)) /\
    r !! "scheduled_arrival" = Some (VStr (strftime arr' fmt_compact)) /\
    dt_time arr' = dt_time arr /\
    valid_date (dt_date arr') = true /\
    toordinal (dt_date arr') - toordinal (dt_date target)
    = if toordinal (dt_date target) =? toordinal (dt_date dep) then 0
      else toordinal (dt_date arr) - toordinal (dt_date dep).
Proof.
  unfold move_flight_date. intros H.
  destruct (get_str flight_info "scheduled_departure") as [|dep_s] eqn:E1;
    [discriminate|]. simpl in H.
  destruct (strptime ud dep_s fmt_compact) as [|dep] eqn:E2;
    [discriminate|]. simpl in H.
  destruct (get_str flight_info "scheduled_arrival") as [|arr_s] eqn:E3;
    [discriminate|]. simpl in H.
  destruct (strptime ud arr_s fmt_compact) as [|arr] eqn:E4;
    [discriminate|]. simpl in H.
  destruct (strptime ud date fmt_compact_date) as [|target] eqn:E5;
    [discriminate|]. simpl in H.
  apply get_str_inr in E1, E3.
  pose proof (strptime_valid_date _ _ _ _ E5) as Ht.
  exists dep_s, arr_s, dep, arr, target.
  destruct (Z.eqb_spec (toordinal (dt_date target) - toordinal (dt_date dep)) 0)
    as [Hz|Hnz]; simpl in H.
  - injection H as <-. exists (mkdatetime (dt_date target) (dt_time arr)).
    rewrite lookup_insert_ne by discriminate. rewrite !lookup_insert_eq.
    replace (toordinal (dt_date target) =? toordinal (dt_date dep)) with true
      by (symmetry; apply Z.eqb_eq; lia).
    simpl. repeat split; try assumption; try reflexivity. lia.
  - destruct (add_days dep _) as [|d] eqn:Ed; [discriminate|]. simpl in H.
    destruct (add_days arr _) as [|a] eqn:Ea; [discriminate|]. simpl in H.
    injection H as <-. exists a.
    rewrite lookup_insert_ne by discriminate. rewrite !lookup_insert_eq.
    apply add_days_spec in Ea as (Hva & Hoa & Hta).
    replace (toordinal (dt_date target) =? toordinal (dt_date dep)) with false
      by (symmetry; apply Z.eqb_neq; lia).
    assert (d = mkdatetime (dt_date target) (dt_time dep)) as ->.
    { unfold add_days in Ed. destruct (_ && _); [|discriminate].
      injection Ed as <-. f_equal.
      replace (toordinal (dt_date dep)
               + (toordinal (dt_date target) - toordinal (dt_date dep)))
        with (toordinal (dt_date target)) by lia.
      now apply fromordinal_toordinal. }
    repeat split; try assumption; try reflexivity. lia.
Qed.

Lemma move_flight_date_spec_witness :
  exists dep_s arr_s dep arr target arr',
    schedule "20241023 1430" "20241024 0615" !! "scheduled_departure"%string
    = Some (VStr dep_s) /\
    schedule "20241023 1430" "20241024 0615" !! "scheduled_arrival"%string
    = Some (VStr arr_s) /\
    strptime no_unicode_decimal dep_s fmt_compact = inr dep /\
    strptime no_unicode_decimal arr_s fmt_compact = inr arr /\
    strptime no_unicode_decimal (py "20241025") fmt_compact_date
    = inr target /\
    schedule "20241025 1430" "20241026 0615" !! "scheduled_departure"%string
    = Some (VStr (strftime (mkdatetime (dt_date target) (dt_time dep))
                           fmt_compact)) /\
    schedule "20241025 1430" "20241026 0615" !! "scheduled_arrival"%string
    = Some (VStr (strftime arr' fmt_compact)) /\
    dt_time arr' = dt_time arr /\
    valid_date (dt_date arr') = true /\
    toordinal (dt_date arr') - toordinal (dt_date target)
    = if toordinal (dt_date target) =? toordinal (dt_date dep) then 0
      else toordinal (dt_date arr) - toordinal (dt_date dep).
Proof.
  apply (move_flight_date_spec no_unicode_decimal _ (py "20241025")).
  compute_done.
Defined.

(** ** Loops that stop at the first exception *)

Lemma map_exn_inr {A B} (f : A -> exn + B) l l' :
  map_exn f l = inr l' <-> Forall2 (fun a b => f a = inr b) l l'.
Proof.
  revert l'. induction l as [|a l IH]; intros l'; simpl.
  - split.
    + intros [= <-]. constructor.
    + intros H. inversion H. reflexivity.
  - split.
    + destruct (f a) as [|b] eqn:E; [discriminate|]. simpl.
      destruct (map_exn f l) as [|bs] eqn:E'; [discriminate|]. simpl.
      intros [= <-]. constructor; [assumption|]. now apply IH.
    + intros H. inversion H as [|? b ? bs Hab Hl]; subst.
      rewrite Hab. simpl. apply IH in Hl. rewrite Hl. reflexivity.
Qed.

Lemma map_exn_inl {A B} (f : A -> exn + B) l e :
  map_exn f l = inl e -> exists a, In a l /\ f a = inl e.
Proof.
  induction l as [|a l IH]; simpl; [discriminate|].
  destruct (f a) as [e'|b] eqn:E; simpl.
  - intros [= ->]. exists a. auto.
  - destruct (map_exn f l) as [e'|bs]; simpl; [|discriminate].
    intros [= ->]. destruct (IH eq_refl) as [x [Hx Hf]]. exists x. auto.
Qed.

Lemma map_exn_ext {A B} (f g : A -> exn + B) l :
  (forall a, In a l -> f a = g a) -> map_exn f l = map_exn g l.
Proof.
  induction l as [|a l IH]; intros H; simpl; [reflexivity|].
  rewrite (H a) by now left. rewrite IH; [reflexivity|].
  intros x Hx. apply H. now right.
Qed.

Lemma bind_inr {A B} (c : exn + A) (f : A -> exn + B) b :
  bind_exn c f = inr b -> exists a, c = inr a /\ f a = inr b.
Proof. destruct c as [e|a]; [discriminate|]. simpl. eauto. Qed.

Lemma bind_inl {A B} (c : exn + A) (f : A -> exn + B) e :
  bind_exn c f = inl e -> c = inl e \/ exists a, c = inr a /\ f a = inl e.
Proof. destruct c as [e'|a]; simpl; [intros [= ->]; now left | eauto]. Qed.

(** ** Local times *)

Lemma timezone_inr tz name z : timezone tz name = inr z -> tz name = Some z.
Proof. unfold timezone. destruct (tz name); [now intros [= ->] | discriminate]. Qed.

Lemma utc_astimezone_spec x z y :
  utc_astimezone x z = inr y ->
  valid_datetime y = true /\
  to_minutes y = to_minutes x + tz_utcoffset z (to_minutes x).
Proof. unfold utc_astimezone. apply to_minutes_of_minutes. Qed.

Lemma update_row_timezones_inr ud tz (r r' : row) :
  update_row_timezones ud tz r = inr r' ->
  (forall k : string,
      k <> "scheduled_departure"%string ->
      k <> "scheduled_arrival"%string -> r' !! k = r !! k) /\
  exists o d origin_tz destination_tz dep_s arr_s dep_utc arr_utc dep arr,
    r !! "origin_timezone" = Some (VStr o) /\
    tz o = Some origin_tz /\
    r !! "destination_timezone" = Some (VStr d) /\
    tz d = Some destination_tz /\
    r !! "scheduled_departure" = Some (VStr dep_s) /\
    strptime ud dep_s fmt_compact = inr dep_utc /\
    r !! "scheduled_arrival" = Some (VStr arr_s) /\
    strptime ud arr_s fmt_compact = inr arr_utc /\
    utc_astimezone dep_utc origin_tz = inr dep /\
    utc_astimezone arr_utc destination_tz = inr arr /\
    r' = <["scheduled_arrival" := VStr (strftime arr fmt_compact)]>
           (<["scheduled_departure" := VStr (strftime dep fmt_compact)]> r).
Proof.
  intros H. unfold update_row_timezones in H.
  apply bind_inr in H as (o & E1 & H).
  apply bind_inr in H as (origin_tz & E2 & H).
  apply bind_inr in H as (d & E3 & H).
  apply bind_inr in H as (destination_tz & E4 & H).
  apply bind_inr in H as (dep_s & E5 & H).
  apply bind_inr in H as (dep_utc & E6 & H).
  apply bind_inr in H as (arr_s & E7 & H).
  apply bind_inr in H as (arr_utc & E8 & H).
  apply bind_inr in H as (dep & E9 & H).
  apply bind_inr in H as (arr & E10 & H).
  injection H as <-.
  apply get_str_inr in E1, E3, E5, E7. apply timezone_inr in E2, E4.
  split.
  - intros k Hd Ha. now rewrite !lookup_insert_ne by congruence.
  - exists o, d, origin_tz, destination_tz, dep_s, arr_s, dep_utc, arr_utc,
      dep, arr. repeat split; assumption.
Qed.

(** [update_df_timezones] keeps the rows in number and order and, in a
    row, every column but the two schedule columns. A schedule column
    is read in UTC and written back as the same instant on the clock of
    the row's zone, the origin zone for the departure and the
    destination zone for the arrival: its minute count is the UTC count
    plus the offset of the zone at that instant. *)
Theorem update_df_timezones_spec ud tz (df df' : list row) :
  update_df_timezones ud tz df = inr df' ->
  Forall2 (fun r r' : row =>
    (forall k : string,
        k <> "scheduled_departure"%string ->
        k <> "scheduled_arrival"%string -> r' !! k = r !! k) /\
    exists o d origin_tz destination_tz dep_s arr_s dep_utc arr_utc dep arr,
      r !! "origin_timezone" = Some (VStr o) /\
      tz o = Some origin_tz /\
      r !! "destination_timezone" = Some (VStr d) /\
      tz d = Some destination_tz /\
      r !! "scheduled_departure" = Some (VStr dep_s) /\
      strptime ud dep_s fmt_compact = inr dep_utc /\
      r !! "scheduled_arrival" = Some (VStr arr_s) /\
      strptime ud arr_s fmt_compact = inr arr_utc /\
      r' !! "scheduled_departure" = Some (VStr (strftime dep fmt_compact)) /\
      r' !! "scheduled_arrival" = Some (VStr (strftime arr fmt_compact)) /\
      valid_datetime dep = true /\ valid_datetime arr = true /\
      to_minutes dep
      = to_minutes dep_utc + tz_utcoffset origin_tz (to_minutes dep_utc) /\
      to_minutes arr
      = to_minutes arr_utc
        + tz_utcoffset destination_tz (to_minutes arr_utc)) df df'.
Proof.
  unfold update_df_timezones. intros H%map_exn_inr.
  eapply Forall2_impl; [exact H|]. clear. intros r r' H.
  apply update_row_timezones_inr in H
    as (Hframe & o & d & origin_tz & destination_tz & dep_s & arr_s & dep_utc
        & arr_utc & dep & arr & E1 & E2 & E3 & E4 & E5 & E6 & E7 & E8 & E9
        & E10 & ->).
  apply utc_astimezone_spec in E9 as [V9 M9], E10 as [V10 M10].
  split; [exact Hframe|].
  exists o, d, origin_tz, destination_tz, dep_s, arr_s, dep_utc, arr_utc,
    dep, arr.
  rewrite lookup_insert_ne by discriminate. rewrite !lookup_insert_eq.
  repeat split; assumption.
Qed.

Lemma update_df_timezones_spec_witness :
  Forall2 (fun r r' : row =>
    (forall k : string,
        k <> "scheduled_departure"%string ->
        k <> "scheduled_arrival"%string -> r' !! k = r !! k) /\
    exists o d origin_tz destination_tz dep_s arr_s dep_utc arr_utc dep arr,
      r !! "origin_timezone" = Some (VStr o) /\
      sample_tz_database o = Some origin_tz /\
      r !! "destination_timezone" = Some (VStr d) /\
      sample_tz_database d = Some destination_tz /\
      r !! "scheduled_departure" = Some (VStr dep_s) /\
      strptime no_unicode_decimal dep_s fmt_compact = inr dep_utc /\
      r !! "scheduled_arrival" = Some (VStr arr_s) /\
      strptime no_unicode_decimal arr_s fmt_compact = inr arr_utc /\
      r' !! "scheduled_departure" = Some (VStr (strftime dep fmt_compact)) /\
      r' !! "scheduled_arrival" = Some (VStr (strftime arr fmt_compact)) /\
      valid_datetime dep = true /\ valid_datetime arr = true /\
      to_minutes dep
      = to_minutes dep_utc + tz_utcoffset origin_tz (to_minutes dep_utc) /\
      to_minutes arr
      = to_minutes arr_utc
        + tz_utcoffset destination_tz (to_minutes arr_utc))
    [ <["destination_timezone" := VStr (py "America/Los_Angeles")]>
        (<["origin_timezone" := VStr (py "Asia/Singapore")]>
           (schedule "20241023 1430" "20241024 0615")) ]
    [ <["destination_timezone" := VStr (py "America/Los_Angeles")]>
        (<["origin_timezone" := VStr (py "Asia/Singapore")]>
           (schedule "20241023 2230" "20241023 2315")) ].
Proof.
  apply (update_df_timezones_spec no_unicode_decimal sample_tz_database).
  compute_done.
Defined.

(** ** The display columns *)

(** One cell of [parse_nice_datetime]: a schedule column of a row, read
    with ["%Y%m%d %H%M"] and written with ["%Y-%m-%d %H:%M"]. *)
Definition nice_cell ud (col : string) (r : row) : exn + pystr :=
  try! x <- get_str r col in
  try! t <- strptime ud x fmt_compact in
  ret (strftime t fmt_dashed).

(** [parse_nice_datetime], row by row. *)
Definition nice_row ud (r : row) : exn + row :=
  try! d <- nice_cell ud "scheduled_departure" r in
  try! a <- nice_cell ud "scheduled_arrival" r in
  ret (<["nice_arrival_date" := VStr a]>
         (<["nice_departure_date" := VStr d]> r)).

Lemma map_exn_fuse {A B C} (f : A -> exn + B) (g : B -> exn + C) l l'' :
  (exists l', map_exn f l = inr l' /\ map_exn g l' = inr l'')
  <-> map_exn (fun a => try! b <- f a in g b) l = inr l''.
Proof.
  revert l''. induction l as [|a l IH]; intros l''; simpl.
  - split.
    + intros [l' [[= <-] H]]. exact H.
    + intros [= <-]. exists []. split; reflexivity.
  - split.
    + intros [l' [H1 H2]].
      apply bind_inr in H1 as (b & Eb & H1).
      apply bind_inr in H1 as (bs & Ebs & H1). injection H1 as <-.
      simpl in H2.
      apply bind_inr in H2 as (c & Ec & H2).
      apply bind_inr in H2 as (cs & Ecs & H2). injection H2 as <-.
      rewrite Eb. simpl. rewrite Ec. simpl.
      assert (E : map_exn (fun a => try! b <- f a in g b) l = inr cs)
        by (apply IH; eauto).
      rewrite E. reflexivity.
    + intros H.
      apply bind_inr in H as (c & Ec & H).
      apply bind_inr in H as (cs & Ecs & H). injection H as <-.
      apply bind_inr in Ec as (b & Eb & Ec).
      apply IH in Ecs as [bs [H1 H2]].
      exists (b :: bs). rewrite Eb, H1. simpl. rewrite Ec, H2. split; reflexivity.
Qed.

Lemma set_column_cons col v vals (r : row) df :
  set_column col (v :: vals) (r :: df)
  = <[col := v]> r :: set_column col vals df.
Proof. reflexivity. Qed.

Lemma nice_cell_insert ud col k v (r : row) :
  k <> col -> nice_cell ud col (<[k := v]> r) = nice_cell ud col r.
Proof.
  intros Hk. unfold nice_cell, get_str. now rewrite lookup_insert_ne.
Qed.

Lemma parse_nice_datetime_rows ud (df df' : list row) :
  parse_nice_datetime ud df = inr df' <-> map_exn (nice_row ud) df = inr df'.
Proof.
  unfold parse_nice_datetime, nice_column.
  change (fun r : row => try! x <- get_str r ?c in _)
    with (nice_cell ud c).
  revert df'. induction df as [|r df IH]; intros df'.
  - simpl. split; intros [= <-]; reflexivity.
  - split.
    + intros H. apply bind_inr in H as (deps & E1 & H).
      apply bind_inr in H as (arrs & E2 & H). injection H as <-.
      simpl in E1. apply bind_inr in E1 as (d & Ed & E1).
      apply bind_inr in E1 as (ds & Eds & E1). injection E1 as <-.
      cbn [List.map] in E2. rewrite set_column_cons in E2.
      cbn [map_exn] in E2. apply bind_inr in E2 as (a & Ea & E2).
      apply bind_inr in E2 as (as_ & Eas & E2). injection E2 as <-.
      rewrite nice_cell_insert in Ea by discriminate.
      cbn [map_exn List.map]. rewrite !set_column_cons.
      unfold nice_row at 1. rewrite Ed, Ea. cbn [bind_exn].
      assert (E : map_exn (nice_row ud) df
                  = inr (set_column "nice_arrival_date" (List.map VStr as_)
                           (set_column "nice_departure_date"
                              (List.map VStr ds) df))).
      { apply IH. rewrite Eds. cbn [bind_exn]. rewrite Eas. reflexivity. }
      rewrite E. reflexivity.
    + cbn [map_exn]. intros H. apply bind_inr in H as (r' & Er & H).
      apply bind_inr in H as (rs & Ers & H). injection H as <-.
      apply IH in Ers.
      apply bind_inr in Ers as (ds & Eds & Ers).
      apply bind_inr in Ers as (as_ & Eas & Ers). injection Ers as <-.
      unfold nice_row in Er.
      apply bind_inr in Er as (d & Ed & Er).
      apply bind_inr in Er as (a & Ea & Er). injection Er as <-.
      rewrite Ed. cbn [bind_exn]. rewrite Eds. cbn [bind_exn ret List.map].
      rewrite set_column_cons. cbn [map_exn].
      rewrite nice_cell_insert by discriminate. rewrite Ea. cbn [bind_exn].
      rewrite Eas. cbn [bind_exn ret List.map]. rewrite !set_column_cons.
      reflexivity.
Qed.

Lemma nice_cell_inr ud col r s :
  nice_cell ud col r = inr s ->
  exists x t, r !! col = Some (VStr x) /\
              strptime ud x fmt_compact = inr t /\ s = strftime t fmt_dashed.
Proof.
  unfold nice_cell. intros H.
  apply bind_inr in H as (x & Ex%get_str_inr & H).
  apply bind_inr in H as (t & Et & H). injection H as <-. eauto.
Qed.

(** [parse_nice_datetime] works row by row although it is written
    column by column: it keeps the rows in number and order, leaves
    every column it is given as it is, and adds to a row the two
    display columns, its departure and its arrival read with
    ["%Y%m%d %H%M"] and written as ["%Y-%m-%d %H:%M"]. *)
Theorem parse_nice_datetime_spec ud (df df' : list row) :
  parse_nice_datetime ud df = inr df' ->
  Forall2 (fun r r' : row =>
    exists dep_s arr_s dep arr,
      r !! "scheduled_departure" = Some (VStr dep_s) /\
      strptime ud dep_s fmt_compact = inr dep /\
      r !! "scheduled_arrival" = Some (VStr arr_s) /\
      strptime ud arr_s fmt_compact = inr arr /\
      r' = <["nice_arrival_date" := VStr (strftime arr fmt_dashed)]>
             (<["nice_departure_date" := VStr (strftime dep fmt_dashed)]> r))
    df df'.
Proof.
  intros H%parse_nice_datetime_rows%map_exn_inr.
  eapply Forall2_impl; [exact H|]. clear. intros r r' H.
  unfold nice_row in H.
  apply bind_inr in H as (d & (dep_s & dep & E1 & E2 & ->)%nice_cell_inr & H).
  apply bind_inr in H as (a & (arr_s & arr & E3 & E4 & ->)%nice_cell_inr & H).
  injection H as <-. exists dep_s, arr_s, dep, arr. auto.
Qed.

Lemma parse_nice_datetime_spec_witness :
  Forall2 (fun r r' : row =>
    exists dep_s arr_s dep arr,
      r !! "scheduled_departure" = Some (VStr dep_s) /\
      strptime no_unicode_decimal dep_s fmt_compact = inr dep /\
      r !! "scheduled_arrival" = Some (VStr arr_s) /\
      strptime no_unicode_decimal arr_s fmt_compact = inr arr /\
      r' = <["nice_arrival_date" := VStr (strftime arr fmt_dashed)]>
             (<["nice_departure_date" := VStr (strftime dep fmt_dashed)]> r))
    [schedule "20241023 1430" "20241024 0615"]
    [ <["nice_arrival_date" := VStr (py "2024-10-24 06:15")]>
        (<["nice_departure_date" := VStr (py "2024-10-23 14:30")]>
           (schedule "20241023 1430" "20241024 0615")) ].
Proof.
  apply (parse_nice_datetime_spec no_unicode_decimal). compute_done.
Defined.

(** ** Canonical records *)

(** The airline name [parse_flight_info] gives to a record. *)
Definition airline_name_of (raw : raw_record) : pystr :=
  match raw_airline raw with
  | Some (Some (c :: n)) => c :: n
  | _ =>
      match fst (span is_upper (raw_number raw)) with
      | c :: r =>
          match airline_map_get airline_map (c :: r) with
          | Some name => name
          | None => py "Airline (" ++ (c :: r) ++ py ")"
          end
      | [] => py "Unknown Airline"
      end
  end.

(** The canonical record of a provider record. *)
Definition canonical (raw : raw_record) : row :=
  <["destination_airport_code" := VStr (raw_destination_iata raw)]>
  (<["origin_airport_code" := VStr (raw_origin_iata raw)]>
  (<["destination_timezone" := VStr (raw_destination_timezone raw)]>
  (<["origin_timezone" := VStr (raw_origin_timezone raw)]>
  (<["destination_airport" := VStr (raw_destination_name raw)]>
  (<["origin_airport" := VStr (raw_origin_name raw)]>
  (<["airline_name" := VStr (airline_name_of raw)]>
  (<["scheduled_arrival" :=
       VStr (raw_arrival_date raw ++ py " " ++ raw_arrival_time raw)]>
  (<["scheduled_departure" :=
       VStr (raw_departure_date raw ++ py " " ++ raw_departure_time raw)]>
  (<["flight_number" := VStr (raw_number raw)]> (∅ : row)))))))))).

(** [parse_flight_info] fails on a position outside the list only. *)
Lemma parse_flight_info_eq flight_info n :
  parse_flight_info flight_info n
  = match flight_info !! n with
    | Some raw => inr (canonical raw)
    | None => inl IndexError
    end.
Proof.
  unfold parse_flight_info. destruct (flight_info !! n); reflexivity.
Qed.

Lemma parse_flight_info_inr flight_info n r :
  parse_flight_info flight_info n = inr r ->
  exists raw, flight_info !! n = Some raw /\ r = canonical raw.
Proof.
  rewrite parse_flight_info_eq.
  destruct (flight_info !! n) as [raw|]; [|discriminate].
  intros [= <-]. eauto.
Qed.

Lemma airline_map_get_Some m code name :
  airline_map_get m code = Some name ->
  exists k v, In (k, v) m /\ py k = code /\ py v = name.
Proof.
  induction m as [|[k v] m IH]; simpl; [discriminate|].
  destruct (pystr_eqb (py k) code) eqn:E.
  - intros [= <-]. apply pystr_eqb_eq in E. exists k, v. auto.
  - intros H. destruct (IH H) as (k' & v' & Hin & Hk & Hv).
    exists k', v'. auto.
Qed.

Lemma airline_map_names :
  Forall (fun kv : string * string =>
            py (snd kv) <> [] /\
            (py (snd kv) = py "GOL" -> fst kv = "G3"%string)) airline_map.
Proof.
  unfold airline_map.
  repeat (apply Forall_cons; split;
          [split; [discriminate | intros E; first [reflexivity | discriminate E]]|]).
  apply Forall_nil. exact I.
Qed.



(** The table of airlines is looked up with the capital letters a
    flight number starts with, so its entry for the code "G3" is never
    used: a record without an airline name never gets the name "GOL",
    whatever its flight number; "G3 1234" is an ["Airline (G)"]. *)
Theorem parse_flight_info_no_digit_code flight_info n raw r :
  flight_info !! n = Some raw ->
  (forall c s, raw_airline raw <> Some (Some (c :: s))) ->
  parse_flight_info flight_info n = inr r ->
  r !! "airline_name" <> Some (VStr (py "GOL")) /\
  (forall rest, raw_number raw = py "G3" ++ rest ->
     r !! "airline_name" = Some (VStr (py "Airline (G)"))).
Proof.
  intros Hraw Hno (raw' & Hraw' & ->)%parse_flight_info_inr.
  rewrite Hraw in Hraw'. injection Hraw' as <-. unfold canonical.
  do 6 (rewrite lookup_insert_ne by discriminate). rewrite lookup_insert_eq.
  assert (Hname : match raw_airline raw with
                  | Some (Some (c :: n0)) => False
                  | _ => True
                  end).
  { destruct (raw_airline raw) as [[[|c s]|]|] eqn:E; try exact I.
    exact (Hno c s eq_refl). }
  split.
  - intros E. assert (E' : airline_name_of raw = py "GOL").
    { remember (airline_name_of raw) as name. now injection E. }
    clear E. revert E'. unfold airline_name_of.
    destruct (raw_airline raw) as [[[|c0 s0]|]|]; try contradiction.
    all: pose proof (span_fst_all is_upper (raw_number raw)) as Hup.
    all: destruct (fst (span is_upper (raw_number raw))) as [|c r];
      [intros E; vm_compute in E; discriminate E|].
    all: destruct (airline_map_get airline_map (c :: r)) as [name|] eqn:Eg;
      [|intros E; vm_compute in E; discriminate E].
    all: intros ->.
    all: apply airline_map_get_Some in Eg as (k & v & Hin & Hk & Hv).
    all: pose proof airline_map_names as Hall; rewrite Forall_forall in Hall.
    all: apply list_elem_of_In, Hall in Hin as [_ Hg].
    all: simpl in Hg; rewrite (Hg Hv) in Hk; rewrite <- Hk in Hup.
    all: discriminate Hup.
  - intros rest Hnum. unfold airline_name_of. rewrite Hnum.
    destruct (raw_airline raw) as [[[|c0 s0]|]|]; try contradiction.
    all: simpl; destruct rest as [|x rest']; try reflexivity.
    all: unfold is_upper at 1; simpl; reflexivity.
Qed.

Lemma parse_flight_info_no_digit_code_witness :
  (<["destination_airport_code" := VStr (py "GRU")]>
  (<["origin_airport_code" := VStr (py "GIG")]>
  (<["destination_timezone" := VStr (py "America/Sao_Paulo")]>
  (<["origin_timezone" := VStr (py "America/Sao_Paulo")]>
  (<["destination_airport" := VStr (py "Guarulhos")]>
  (<["origin_airport" := VStr (py "Galeao")]>
  (<["airline_name" := VStr (py "Airline (G)")]>
  (<["scheduled_arrival" := VStr (py "20241023 1535")]>
  (<["scheduled_departure" := VStr (py "20241023 1430")]>
  (<["flight_number" := VStr (py "G31234")]> (∅ : row)))))))))))
    !! "airline_name"%string <> Some (VStr (py "GOL")).
Proof.
  refine (proj1 (parse_flight_info_no_digit_code
            [mkraw (py "G31234") (py "20241023") (py "1430") (py "20241023")
               (py "1535") None (py "Galeao") (py "Guarulhos")
               (py "America/Sao_Paulo") (py "America/Sao_Paulo")
               (py "GIG") (py "GRU")] 0 _ _ eq_refl _ _)).
  - intros c s. discriminate.
  - compute_done.
Defined.

(** ** Deduplication, again *)

Lemma keep_first_id l : forall earlier,
  List.NoDup (List.map raw_departure_time l) ->
  (forall x, In x l ->
     ~ In (raw_departure_time x) (List.map raw_departure_time earlier)) ->
  keep_first_per_time earlier l = l.
Proof.
  induction l as [|x r IH]; intros earlier Hnd Hfresh; simpl; [reflexivity|].
  simpl in Hnd. apply List.NoDup_cons_iff in Hnd as [Hx Hnd].
  destruct (existsb _ earlier) eqn:E.
  - apply existsb_time_In in E. destruct (Hfresh x); [now left | exact E].
  - simpl. f_equal. apply IH; [exact Hnd|].
    intros y Hy. rewrite map_app, in_app_iff. simpl.
    intros [H|[H|[]]].
    + apply (Hfresh y); [now right | exact H].
    + apply Hx. rewrite H. now apply in_map.
Qed.

(** Deduplicating twice changes nothing more, and the first record of
    the input is always the first record kept. *)
Theorem drop_ununique_flights_idempotent (flight_info : response) :
  drop_ununique_flights (RespList (drop_ununique_flights flight_info))
  = drop_ununique_flights flight_info /\
  hd_error (drop_ununique_flights flight_info)
  = hd_error (response_values flight_info).
Proof.
  split.
  - rewrite (drop_ununique_flights_keep_first (RespList _)).
    rewrite drop_ununique_flights_keep_first. simpl.
    apply keep_first_id; [apply keep_first_NoDup | intros x _ []].
  - rewrite drop_ununique_flights_keep_first.
    destruct (response_values flight_info); reflexivity.
Qed.

Lemma drop_ununique_flights_nonempty flight_info :
  response_values flight_info <> [] -> drop_ununique_flights flight_info <> [].
Proof.
  rewrite drop_ununique_flights_keep_first.
  destruct (response_values flight_info); [contradiction | discriminate].
Qed.

(** ** Looking a flight up *)

Lemma map_exn_map {A B C} (f : B -> exn + C) (g : A -> B) l :
  map_exn f (List.map g l) = map_exn (fun a => f (g a)) l.
Proof.
  induction l as [|a l IH]; simpl; [reflexivity|]. now rewrite IH.
Qed.

Lemma map_exn_ret {A B} (g : A -> B) l :
  map_exn (fun a => ret (g a)) l = inr (List.map g l).
Proof.
  induction l as [|a l IH]; simpl; [reflexivity|]. now rewrite IH.
Qed.

(** The list comprehension over the positions of the list never
    fails: every position it asks for is there. *)
Lemma parse_all_eq l : parse_all l = inr (List.map canonical l).
Proof.
  unfold parse_all.
  enough (G : forall p,
             map_exn (parse_flight_info (p ++ l)) (seq (length p) (length l))
             = inr (List.map canonical l)) by exact (G []).
  induction l as [|x l IH]; intros p; simpl; [reflexivity|].
  rewrite parse_flight_info_eq, list_lookup_middle by reflexivity.
  simpl.
  replace (p ++ x :: l) with ((p ++ [x]) ++ l) by now rewrite <- app_assoc.
  replace (S (length p)) with (length (p ++ [x]))
    by (rewrite length_app; simpl; lia).
  now rewrite IH.
Qed.

Section GetFlight.
Variable up : N -> pystr.
Variable ud : N -> option Z.
Variable tz : pystr -> option tzinfo.
Variable by_date : pystr -> pystr -> exn + response.
Variable history : pystr -> exn + response.

(** What [get_flight] makes of one record of the dated query, and of
    one record of the history for the requested date [date]. *)
Definition exact_row (raw : raw_record) : exn + row :=
  try! r <- parse_flight_info [raw] 0 in
  try! r <- update_row_timezones ud tz (<["is_guess" := VBool false]> r) in
  nice_row ud r.

Definition guess_row (date : pystr) (raw : raw_record) : exn + row :=
  try! r <- parse_flight_info [raw] 0 in
  try! r <- move_flight_date ud (<["is_guess" := VBool true]> r) date in
  try! r <- update_row_timezones ud tz r in
  nice_row ud r.

(** The frame [get_flight] builds from the records of the dated query,
    and from the records kept of the history. *)
Definition exact_frame (l : list raw_record) : exn + list row :=
  try! df <- parse_all l in
  try! df <- update_df_timezones ud tz (set_is_guess false df) in
  parse_nice_datetime ud df.

Definition guess_frame (d : pystr) (l : list raw_record) : exn + list row :=
  try! df <- parse_all l in
  try! df <- map_exn (fun r => move_flight_date ud r d)
               (set_is_guess true df) in
  try! df <- update_df_timezones ud tz df in
  parse_nice_datetime ud df.

(** The cases of [get_flight]. The two branches for one record and for
    several build the same frame. *)
Lemma get_flight_cases flight_number date :
  get_flight up ud tz by_date history flight_number date
  = let n := parse_flight_number up flight_number in
    match parse_date ud date with
    | inl e => (inl e, [])
    | inr d =>
        match by_date n d with
        | inl e => (inl e, [CallForDate n d])
        | inr flight_info =>
            match response_values flight_info with
            | [] =>
                ( match history n with
                  | inl _ => inl (ValueError (not_found_message n))
                  | inr hist =>
                      match response_values hist with
                      | [] => inl (ValueError (not_found_message n))
                      | _ :: _ => guess_frame d (drop_ununique_flights hist)
                      end
                  end,
                  [CallForDate n d; CallHistory n] )
            | _ :: _ =>
                (exact_frame (response_values flight_info),
                 [CallForDate n d])
            end
        end
    end.
Proof.
  unfold get_flight, find_flights_with_date, find_flight_no_date.
  cbv zeta. destruct (parse_date ud date) as [e|d]; [reflexivity|].
  destruct (by_date _ d) as [e|flight_info]; [reflexivity|].
  destruct (response_values flight_info) as [|raw l].
  - destruct (history _) as [e|hist]; [reflexivity|]. cbn [bind_exn].
    destruct (response_values hist); reflexivity.
  - f_equal. destruct l as [|x l']; [|reflexivity].
    cbn [length Nat.ltb Nat.leb]. unfold exact_frame.
    rewrite parse_all_eq, parse_flight_info_eq. reflexivity.
Qed.

Lemma exact_rows l rows :
  exact_frame l = inr rows <-> map_exn exact_row l = inr rows.
Proof.
  unfold exact_frame. rewrite parse_all_eq. cbn [bind_exn].
  unfold update_df_timezones, set_is_guess. rewrite map_map, map_exn_map.
  rewrite (map_exn_ext exact_row
             (fun a => try! b <- update_row_timezones ud tz
                                   (<["is_guess" := VBool false]> (canonical a)) in
                       nice_row ud b))
    by (intros a _; unfold exact_row; now rewrite parse_flight_info_eq).
  split.
  - intros H. apply bind_inr in H as (df & E1 & E2%parse_nice_datetime_rows).
    apply (proj1 (map_exn_fuse _ _ _ _)). eauto.
  - intros H. apply (proj2 (map_exn_fuse _ _ _ _)) in H as (df & E1 & E2).
    rewrite E1. cbn [bind_exn]. now apply parse_nice_datetime_rows.
Qed.

Lemma guess_rows d l rows :
  guess_frame d l = inr rows <-> map_exn (guess_row d) l = inr rows.
Proof.
  unfold guess_frame. rewrite parse_all_eq. cbn [bind_exn].
  unfold update_df_timezones, set_is_guess. rewrite map_map, map_exn_map.
  rewrite (map_exn_ext (guess_row d)
             (fun a => try! b <- move_flight_date ud
                                   (<["is_guess" := VBool true]> (canonical a)) d in
                       try! c <- update_row_timezones ud tz b in
                       nice_row ud c))
    by (intros a _; unfold guess_row; now rewrite parse_flight_info_eq).
  split.
  - intros H. apply bind_inr in H as (df1 & E1 & H).
    apply bind_inr in H as (df2 & E2 & E3%parse_nice_datetime_rows).
    apply (proj1 (map_exn_fuse _ _ _ _)). exists df1. split; [exact E1|].
    apply (proj1 (map_exn_fuse _ _ _ _)). eauto.
  - intros H. apply (proj2 (map_exn_fuse _ _ _ _)) in H as (df1 & E1 & H).
    apply (proj2 (map_exn_fuse _ _ _ _)) in H as (df2 & E2 & E3).
    rewrite E1. cbn [bind_exn]. rewrite E2. cbn [bind_exn].
    now apply parse_nice_datetime_rows.
Qed.

Lemma pair_inr_eq {A B} (x : exn + A) (c c' : B) (a : A) :
  c = c' -> ((x, c) = (inr a, c') <-> x = inr a).
Proof. intros ->. split; [now intros [= ->] | now intros ->]. Qed.

(** When the dated query returns records, [get_flight] asks the
    provider nothing else and handles each record on its own: it
    returns rows exactly when every record of the answer passes
    [exact_row], and the rows are then the results, in the order of
    the answer. One record or several, a list or a dict: no
    difference, and no deduplication. *)
Theorem get_flight_exact flight_number date d flight_info rows :
  parse_date ud date = inr d ->
  by_date (parse_flight_number up flight_number) d = inr flight_info ->
  response_values flight_info <> [] ->
  get_flight up ud tz by_date history flight_number date
  = (inr rows, [CallForDate (parse_flight_number up flight_number) d])
  <-> Forall2 (fun raw r => exact_row raw = inr r)
        (response_values flight_info) rows.
Proof.
  intros Hd Hfi Hne. rewrite get_flight_cases. cbv zeta. rewrite Hd, Hfi.
  rewrite <- map_exn_inr, <- exact_rows.
  destruct (response_values flight_info) as [|raw l] eqn:El; [contradiction|].
  now apply pair_inr_eq.
Qed.

(** When the dated query returns nothing and the history has records,
    [get_flight] has asked the provider twice, deduplicates the history
    and handles each record kept on its own: it returns rows exactly
    when every such record passes [guess_row] for the requested date,
    and the rows are then the results, in order. *)
Theorem get_flight_guess flight_number date d flight_info hist rows :
  parse_date ud date = inr d ->
  by_date (parse_flight_number up flight_number) d = inr flight_info ->
  response_values flight_info = [] ->
  history (parse_flight_number up flight_number) = inr hist ->
  response_values hist <> [] ->
  get_flight up ud tz by_date history flight_number date
  = (inr rows, [CallForDate (parse_flight_number up flight_number) d;
                CallHistory (parse_flight_number up flight_number)])
  <-> Forall2 (fun raw r => guess_row d raw = inr r)
        (drop_ununique_flights hist) rows.
Proof.
  intros Hd Hfi Hempty Hh Hne. rewrite get_flight_cases. cbv zeta.
  rewrite Hd, Hfi, Hempty, Hh.
  destruct (response_values hist) as [|x l] eqn:El; [contradiction|].
  rewrite <- map_exn_inr, <- guess_rows. now apply pair_inr_eq.
Qed.

(** When the dated query returns nothing and the history query raises
    (whatever it raises) or returns nothing either, [get_flight] raises
    the [ValueError] that names the normalised flight number; the
    provider has been asked twice, once for each query. *)
Theorem get_flight_not_found flight_number date d flight_info :
  parse_date ud date = inr d ->
  by_date (parse_flight_number up flight_number) d = inr flight_info ->
  response_values flight_info = [] ->
  (forall hist, history (parse_flight_number up flight_number) = inr hist ->
                response_values hist = []) ->
  get_flight up ud tz by_date history flight_number date
  = (inl (ValueError
            (not_found_message (parse_flight_number up flight_number))),
     [CallForDate (parse_flight_number up flight_number) d;
      CallHistory (parse_flight_number up flight_number)]).
Proof.
  intros Hd Hfi Hempty Hh. rewrite get_flight_cases. cbv zeta.
  rewrite Hd, Hfi, Hempty.
  destruct (history _) as [e|hist]; [reflexivity|].
  now rewrite (Hh hist eq_refl).
Qed.

(** Before any record is handled: a date that ["%Y-%m-%d"] does not
    read makes [get_flight] raise the error of [strptime] without a
    call to the provider; an exception of the dated query goes through
    unchanged, and the history is not asked. *)
Theorem get_flight_early_failure flight_number date :
  (forall e, parse_date ud date = inl e ->
     get_flight up ud tz by_date history flight_number date
     = (inl (StrptimeError date), [])) /\
  (forall d e,
     parse_date ud date = inr d ->
     by_date (parse_flight_number up flight_number) d = inl e ->
     get_flight up ud tz by_date history flight_number date
     = (inl e, [CallForDate (parse_flight_number up flight_number) d])).
Proof.
  split.
  - intros e He. rewrite get_flight_cases. cbv zeta. rewrite He.
    do 2 f_equal.
    unfold parse_date in He. apply bind_inl in He as [He|(x & _ & He)];
      [|discriminate He].
    now apply strptime_inl in He.
  - intros d e Hd He. rewrite get_flight_cases. cbv zeta.
    now rewrite Hd, He.
Qed.
End GetFlight.

(** The row of the record of the tests, with its two schedule columns
    and its two display columns. *)
Definition mock_row (is_guess : bool) (departure arrival : string)
    (nice_departure nice_arrival : string) : row :=
  <["nice_arrival_date" := VStr (py nice_arrival)]>
  (<["nice_departure_date" := VStr (py nice_departure)]>
  (<["scheduled_arrival" := VStr (py arrival)]>
  (<["scheduled_departure" := VStr (py departure)]>
  (<["is_guess" := VBool is_guess]> (canonical mock_flight_data))))).

(** The provider of a test: the answers of its two queries. *)
Definition mock_by_date (answer : exn + response)
  : pystr -> pystr -> exn + response := fun _ _ => answer.
Definition mock_history (answer : exn + response)
  : pystr -> exn + response := fun _ => answer.

Lemma get_flight_exact_witness :
  get_flight sharp_s_upper no_unicode_decimal sample_tz_database
    (mock_by_date (inr (RespList [mock_flight_data])))
    (mock_history (inl (ProviderFailure (py "unreachable"))))
    (py "sq 327") (py "2024-10-23")
  = (inr [mock_row false "20241023 2230" "20241023 2315"
            "2024-10-23 22:30" "2024-10-23 23:15"],
     [CallForDate (py "SQ327") (py "20241023")]).
Proof.
  apply (proj2 (get_flight_exact sharp_s_upper no_unicode_decimal
                  sample_tz_database _ _ (py "sq 327") (py "2024-10-23")
                  (py "20241023") (RespList [mock_flight_data]) _
                  eq_refl eq_refl ltac:(discriminate))).
  constructor; [compute_done | constructor].
Defined.

Lemma get_flight_guess_witness :
  get_flight sharp_s_upper no_unicode_decimal sample_tz_database
    (mock_by_date (inr (RespList [])))
    (mock_history (inr (RespList [mock_flight_data; mock_flight_data])))
    (py "SQ327") (py "2024-10-25")
  = (inr [mock_row true "20241025 2230" "20241025 2315"
            "2024-10-25 22:30" "2024-10-25 23:15"],
     [CallForDate (py "SQ327") (py "20241025");
      CallHistory (py "SQ327")]).
Proof.
  apply (proj2 (get_flight_guess sharp_s_upper no_unicode_decimal
                  sample_tz_database _ _ (py "SQ327") (py "2024-10-25")
                  (py "20241025") (RespList [])
                  (RespList [mock_flight_data; mock_flight_data]) _
                  eq_refl eq_refl eq_refl eq_refl ltac:(discriminate))).
  constructor; [compute_done | constructor].
Defined.

Lemma get_flight_not_found_witness :
  get_flight sharp_s_upper no_unicode_decimal sample_tz_database
    (mock_by_date (inr (RespList [])))
    (mock_history (inl (ProviderFailure (py "unreachable"))))
    (py "INVALID") (py "2024-10-23")
  = (inl (ValueError
            (py "No flight information found for flight number INVALID.")),
     [CallForDate (py "INVALID") (py "20241023");
      CallHistory (py "INVALID")]).
Proof.
  apply (get_flight_not_found sharp_s_upper no_unicode_decimal
           sample_tz_database _ _ (py "INVALID") (py "2024-10-23")
           (py "20241023") (RespList []) eq_refl eq_refl eq_refl).
  intros hist H. discriminate H.
Defined.

Lemma get_flight_early_failure_witness :
  get_flight sharp_s_upper no_unicode_decimal sample_tz_database
    (mock_by_date (inr (RespList [mock_flight_data])))
    (mock_history (inr (RespList [mock_flight_data])))
    (py "SQ327") (py "23.10.2024")
  = (inl (StrptimeError (py "23.10.2024")), []) /\
  get_flight sharp_s_upper no_unicode_decimal sample_tz_database
    (mock_by_date (inl (ProviderFailure (py "unreachable"))))
    (mock_history (inr (RespList [mock_flight_data])))
    (py "SQ327") (py "2024-10-23")
  = (inl (ProviderFailure (py "unreachable")),
     [CallForDate (py "SQ327") (py "20241023")]).
Proof.
  split.
  - apply (proj1 (get_flight_early_failure sharp_s_upper no_unicode_decimal
                    sample_tz_database _ _ (py "SQ327") (py "23.10.2024"))
             (StrptimeError (py "23.10.2024"))).
    reflexivity.
  - apply (proj2 (get_flight_early_failure sharp_s_upper no_unicode_decimal
                    sample_tz_database _ _ (py "SQ327") (py "2024-10-23"))
             (py "20241023") (ProviderFailure (py "unreachable"))
             eq_refl eq_refl).
Defined.

(** ** The rows [get_flight] returns *)

(** The columns of the frame [get_flight] returns. *)
Definition columns : gset string :=
  list_to_set
    ["flight_number"; "scheduled_departure"; "scheduled_arrival";
     "airline_name"; "origin_airport"; "destination_airport";
     "origin_timezone"; "destination_timezone"; "origin_airport_code";
     "destination_airport_code"; "is_guess"; "nice_departure_date";
     "nice_arrival_date"]%string.

Lemma Forall2_right {A B} (R : A -> B -> Prop) (Q : B -> Prop) l k :
  Forall2 R l k -> (forall a b, R a b -> Q b) -> Forall Q k.
Proof.
  intros H HQ. induction H as [|a b l k Hab _ IH]; constructor; eauto.
Qed.

Section Rows.
Variable up : N -> pystr.
Variable ud : N -> option Z.
Variable tz : pystr -> option tzinfo.
Variable by_date : pystr -> pystr -> exn + response.
Variable history : pystr -> exn + response.

(** A display column shows the time of its schedule column. *)
Definition shown (r : row) (col nice : string) : Prop :=
  exists s t, r !! col = Some (VStr s) /\
              strptime ud s fmt_compact = inr t /\
              r !! nice = Some (VStr (strftime t fmt_dashed)).

Definition row_ok (guess : bool) (r : row) : Prop :=
  dom r = columns /\
  r !! "is_guess" = Some (VBool guess) /\
  shown r "scheduled_departure" "nice_departure_date" /\
  shown r "scheduled_arrival" "nice_arrival_date".

Lemma update_row_timezones_shape (r r' : row) :
  update_row_timezones ud tz r = inr r' ->
  exists dep arr,
    r' = <["scheduled_arrival" := VStr arr]>
           (<["scheduled_departure" := VStr dep]> r).
Proof.
  unfold update_row_timezones. intros H.
  do 10 (apply bind_inr in H; destruct H as (? & ? & H)).
  injection H as <-. eauto.
Qed.

Lemma move_flight_date_shape (r r' : row) d :
  move_flight_date ud r d = inr r' ->
  exists dep arr,
    r' = <["scheduled_arrival" := VStr arr]>
           (<["scheduled_departure" := VStr dep]> r).
Proof.
  unfold move_flight_date. intros H.
  do 5 (apply bind_inr in H; destruct H as (? & ? & H)).
  apply bind_inr in H as ([dep arr] & Eda & H).
  injection H as <-. eauto.
Qed.

Lemma nice_row_shape (r r' : row) :
  nice_row ud r = inr r' ->
  exists s t s' t',
    r !! "scheduled_departure" = Some (VStr s) /\
    strptime ud s fmt_compact = inr t /\
    r !! "scheduled_arrival" = Some (VStr s') /\
    strptime ud s' fmt_compact = inr t' /\
    r' = <["nice_arrival_date" := VStr (strftime t' fmt_dashed)]>
           (<["nice_departure_date" := VStr (strftime t fmt_dashed)]> r).
Proof.
  unfold nice_row. intros H.
  apply bind_inr in H as (d & (s & t & E1 & E2 & ->)%nice_cell_inr & H).
  apply bind_inr in H as (a & (s' & t' & E3 & E4 & ->)%nice_cell_inr & H).
  injection H as <-. exists s, t, s', t'. auto.
Qed.

Lemma nice_row_ok guess (r r' : row) :
  nice_row ud r = inr r' ->
  dom r = columns ∖ {["nice_departure_date"; "nice_arrival_date"]} ->
  r !! "is_guess" = Some (VBool guess) ->
  row_ok guess r'.
Proof.
  intros (s & t & s' & t' & E1 & E2 & E3 & E4 & ->)%nice_row_shape Hdom Hg.
  unfold row_ok, shown. repeat split.
  - rewrite !dom_insert_L, Hdom. unfold columns. set_solver.
  - now rewrite !lookup_insert_ne by discriminate.
  - exists s, t. rewrite !lookup_insert_ne by discriminate.
    rewrite lookup_insert_eq. auto.
  - exists s', t'. rewrite !lookup_insert_ne by discriminate.
    rewrite lookup_insert_eq. auto.
Qed.

Lemma dom_canonical_guess guess raw :
  dom (<["is_guess" := VBool guess]> (canonical raw))
  = columns ∖ {["nice_departure_date"; "nice_arrival_date"]}.
Proof.
  unfold canonical, columns. rewrite !dom_insert_L, dom_empty_L.
  set_solver.
Qed.

Lemma dom_schedule (r : row) dep arr :
  is_Some (r !! "scheduled_departure") -> is_Some (r !! "scheduled_arrival") ->
  dom (<["scheduled_arrival" := arr]> (<["scheduled_departure" := dep]> r))
  = dom r.
Proof.
  intros Hd%elem_of_dom Ha%elem_of_dom. rewrite !dom_insert_L.
  apply set_eq. intros k. rewrite !elem_of_union, !elem_of_singleton.
  split; [intros [->|[->|H]]; assumption | auto].
Qed.

Lemma parse_flight_info_one raw :
  parse_flight_info [raw] 0 = inr (canonical raw).
Proof. now rewrite parse_flight_info_eq. Qed.

Lemma exact_row_ok raw r : exact_row ud tz raw = inr r -> row_ok false r.
Proof.
  unfold exact_row. rewrite parse_flight_info_one. cbn [bind_exn]. intros H.
  apply bind_inr in H as (r1 & (dep & arr & ->)%update_row_timezones_shape & H).
  eapply nice_row_ok; [exact H| |reflexivity].
  rewrite dom_schedule; [apply dom_canonical_guess| |];
    (eexists; reflexivity).
Qed.

Lemma guess_row_ok d raw r : guess_row ud tz d raw = inr r -> row_ok true r.
Proof.
  unfold guess_row. rewrite parse_flight_info_one. cbn [bind_exn]. intros H.
  apply bind_inr in H as (r1 & (dep & arr & ->)%move_flight_date_shape & H).
  apply bind_inr in H as (r2 & (dep' & arr' & ->)%update_row_timezones_shape & H).
  eapply nice_row_ok; [exact H| |reflexivity].
  rewrite !dom_schedule; [apply dom_canonical_guess | | | |];
    (eexists; reflexivity).
Qed.

(** Every frame [get_flight] returns has a row, and all its rows carry
    the same thirteen columns and the same flag: [is_guess] is false
    when the rows come from the dated query alone, true when the history
    was asked. In every row a display column shows the time of its
    schedule column. *)
Theorem get_flight_rows flight_number date rows calls :
  get_flight up ud tz by_date history flight_number date = (inr rows, calls) ->
  rows <> [] /\
  exists (guess : bool) d,
    parse_date ud date = inr d /\
    calls = CallForDate (parse_flight_number up flight_number) d
            :: (if guess
                then [CallHistory (parse_flight_number up flight_number)]
                else []) /\
    Forall (row_ok guess) rows.
Proof.
  rewrite get_flight_cases. cbv zeta.
  destruct (parse_date ud date) as [e|d]; [discriminate|].
  destruct (by_date _ d) as [e|flight_info]; [discriminate|].
  destruct (response_values flight_info) as [|raw l] eqn:El.
  - destruct (history _) as [e|hist]; [discriminate|].
    pose proof (drop_ununique_flights_nonempty hist) as Hne.
    destruct (response_values hist) as [|x l]; [discriminate|].
    intros [= H%guess_rows%map_exn_inr <-]. split.
    + intros ->. inversion H as [Hd|]. apply Hne; [discriminate|].
      now symmetry.
    + exists true, d. repeat split.
      eapply Forall2_right; [exact H|]. apply guess_row_ok.
  - intros [= H%exact_rows%map_exn_inr <-]. split.
    + intros ->. inversion H.
    + exists false, d. repeat split.
      eapply Forall2_right; [exact H|]. apply exact_row_ok.
Qed.
End Rows.

Lemma get_flight_rows_witness :
  [mock_row true "20241025 2230" "20241025 2315"
     "2024-10-25 22:30" "2024-10-25 23:15"] <> [] /\
  exists (guess : bool) d,
    parse_date no_unicode_decimal (py "2024-10-25") = inr d /\
    [CallForDate (py "SQ327") (py "20241025"); CallHistory (py "SQ327")]
    = CallForDate (parse_flight_number sharp_s_upper (py "SQ327")) d
      :: (if guess
          then [CallHistory (parse_flight_number sharp_s_upper (py "SQ327"))]
          else []) /\
    Forall (row_ok no_unicode_decimal guess)
      [mock_row true "20241025 2230" "20241025 2315"
         "2024-10-25 22:30" "2024-10-25 23:15"].
Proof.
  apply (get_flight_rows sharp_s_upper no_unicode_decimal sample_tz_database
           (mock_by_date (inr (RespList [])))
           (mock_history (inr (RespList [mock_flight_data])))
           (py "SQ327") (py "2024-10-25")).
  compute_done.
Defined.

(** ** A guessed flight departs on the requested date, in UTC *)

Lemma move_flight_date_departure ud (flight_info : row) (date : pystr)
    (r : row) :
  move_flight_date ud flight_info date = inr r ->
  exists dep_s dep target,
    flight_info !! "scheduled_departure" = Some (VStr dep_s) /\
    strptime ud dep_s fmt_compact = inr dep /\
    strptime ud date fmt_compact_date = inr target /\
    r !! "scheduled_departure"
    = Some (VStr (strftime (mkdatetime (dt_date target) (dt_time dep))
                           fmt_compact)).
Proof.
  unfold move_flight_date. intros H.
  apply bind_inr in H as (dep_s & E1%get_str_inr & H).
  apply bind_inr in H as (dep & E2 & H).
  apply bind_inr in H as (arr_s & _ & H).
  apply bind_inr in H as (arr & _ & H).
  apply bind_inr in H as (target & E5 & H).
  apply bind_inr in H as ([d a] & E & H). injection H as <-.
  exists dep_s, dep, target. repeat split; try assumption.
  rewrite lookup_insert_ne by discriminate. rewrite lookup_insert_eq.
  assert (d = mkdatetime (dt_date target) (dt_time dep)) as ->;
    [|reflexivity].
  destruct (negb _); [|now injection E as <- _].
  apply bind_inr in E as (d' & Ed & E).
  apply bind_inr in E as (a' & _ & E). injection E as <- _.
  unfold add_days in Ed. destruct (_ && _); [|discriminate].
  injection Ed as <-. f_equal.
  replace (toordinal (dt_date dep)
           + (toordinal (dt_date target) - toordinal (dt_date dep)))
    with (toordinal (dt_date target)) by lia.
  apply fromordinal_toordinal. exact (strptime_valid_date _ _ _ _ E5).
Qed.

Section GuessDeparture.
Variable up : N -> pystr.
Variable ud : N -> option Z.
Variable tz : pystr -> option tzinfo.
Variable by_date : pystr -> pystr -> exn + response.
Variable history : pystr -> exn + response.
Hypothesis ud_digit : forall c v, ud c = Some v -> 0 <= v <= 9.

Lemma guess_row_departure x raw r :
  valid_date (dt_date x) = true -> 1000 <= year (dt_date x) ->
  guess_row ud tz (strftime x fmt_compact_date) raw = inr r ->
  exists dep_utc origin_tz dep,
    strptime ud (raw_departure_date raw ++ py " " ++ raw_departure_time raw)
      fmt_compact = inr dep_utc /\
    tz (raw_origin_timezone raw) = Some origin_tz /\
    utc_astimezone (mkdatetime (dt_date x) (dt_time dep_utc)) origin_tz
    = inr dep /\
    r !! "scheduled_departure" = Some (VStr (strftime dep fmt_compact)) /\
    r !! "is_guess" = Some (VBool true).
Proof.
  intros Hv Hy. unfold guess_row. rewrite parse_flight_info_one.
  cbn [bind_exn]. intros H.
  apply bind_inr in H as (r1 & E1 & H).
  apply bind_inr in H as (r2 & E2 & H).
  pose proof (move_flight_date_shape _ _ _ _ E1) as (d1 & a1 & Hr1).
  apply move_flight_date_departure in E1
    as (dep_s & dep0 & target & L1 & P1 & P3 & L2).
  rewrite (strptime_strftime_compact_date ud x Hv Hy) in P3.
  injection P3 as <-. cbn [dt_date] in L2.
  assert (dep_s = raw_departure_date raw ++ py " " ++ raw_departure_time raw)
    as -> by (change (Some (VStr (raw_departure_date raw ++ py " "
                                    ++ raw_departure_time raw))
                      = Some (VStr dep_s)) in L1; congruence).
  apply update_row_timezones_inr in E2
    as (_ & o & d & origin_tz & destination_tz & dep_s' & arr_s' & dep_utc
        & arr_utc & dep & arr & O1 & O2 & _ & _ & O5 & O6 & _ & _ & O9 & _
        & ->).
  assert (dep_s' = strftime (mkdatetime (dt_date x) (dt_time dep0))
                     fmt_compact) as -> by congruence.
  rewrite strptime_strftime_compact in O6.
  - injection O6 as <-.
    assert (o = raw_origin_timezone raw) as ->.
    { rewrite Hr1 in O1.
      change (Some (VStr (raw_origin_timezone raw)) = Some (VStr o)) in O1.
      congruence. }
    apply nice_row_shape in H as (s & t & s' & t' & _ & _ & _ & _ & ->).
    exists dep0, origin_tz, dep. repeat split; try assumption.
    + rewrite !lookup_insert_ne by discriminate. now rewrite lookup_insert_eq.
    + rewrite !lookup_insert_ne by discriminate. rewrite Hr1. reflexivity.
  - pose proof (strptime_valid ud ud_digit _ _ _ P1) as Hd.
    unfold valid_datetime in *. cbn [dt_date dt_time].
    apply andb_true_iff in Hd as [_ Ht]. now rewrite Hv, Ht.
  - exact Hy.
Qed.

(** When the dated query returns nothing and [get_flight] returns rows
    made from the history, every row is for the requested date in UTC:
    its departure is the requested date at the UTC time of day of its
    record, shown on the clock of the origin zone (so the date shown can
    be the day before or the day after the one requested). Stated for a
    requested date from the year 1000 on. *)
Theorem get_flight_guess_departure flight_number date x flight_info hist
    rows calls :
  strptime ud date fmt_dashed_date = inr x ->
  1000 <= year (dt_date x) ->
  by_date (parse_flight_number up flight_number)
    (strftime x fmt_compact_date) = inr flight_info ->
  response_values flight_info = [] ->
  history (parse_flight_number up flight_number) = inr hist ->
  get_flight up ud tz by_date history flight_number date = (inr rows, calls) ->
  Forall2 (fun raw r =>
    exists dep_utc origin_tz dep,
      strptime ud (raw_departure_date raw ++ py " " ++ raw_departure_time raw)
        fmt_compact = inr dep_utc /\
      tz (raw_origin_timezone raw) = Some origin_tz /\
      utc_astimezone (mkdatetime (dt_date x) (dt_time dep_utc)) origin_tz
      = inr dep /\
      r !! "scheduled_departure" = Some (VStr (strftime dep fmt_compact)) /\
      r !! "is_guess" = Some (VBool true))
    (drop_ununique_flights hist) rows.
Proof.
  intros Hx Hy Hfi Hempty Hh. rewrite get_flight_cases. cbv zeta.
  unfold parse_date. rewrite Hx. cbn [bind_exn ret].
  rewrite Hfi, Hempty, Hh.
  destruct (response_values hist); [discriminate|].
  intros [= H%guess_rows%map_exn_inr _].
  eapply Forall2_impl; [exact H|]. intros raw r' Hr.
  apply (guess_row_departure x raw r'); try assumption.
  exact (strptime_valid_date _ _ _ _ Hx).
Qed.
End GuessDeparture.

(** A flight that leaves Singapore at 23:30 UTC, asked for 2024-10-25:
    the row shows the departure on 2024-10-26, 07:30 local time. *)
Lemma get_flight_guess_departure_witness :
  Forall2 (fun raw r =>
    exists dep_utc origin_tz dep,
      strptime no_unicode_decimal
        (raw_departure_date raw ++ py " " ++ raw_departure_time raw)
        fmt_compact = inr dep_utc /\
      sample_tz_database (raw_origin_timezone raw) = Some origin_tz /\
      utc_astimezone (mkdatetime (mkdate 2024 10 25) (dt_time dep_utc))
        origin_tz = inr dep /\
      r !! "scheduled_departure" = Some (VStr (strftime dep fmt_compact)) /\
      r !! "is_guess" = Some (VBool true))
    (drop_ununique_flights
       (RespList [with_departure_time (py "2330") mock_flight_data]))
    [ <["nice_arrival_date" := VStr (py "2024-10-25 23:15")]>
      (<["nice_departure_date" := VStr (py "2024-10-26 07:30")]>
      (<["scheduled_arrival" := VStr (py "20241025 2315")]>
      (<["scheduled_departure" := VStr (py "20241026 0730")]>
      (<["is_guess" := VBool true]> (canonical mock_flight_data))))) ].
Proof.
  apply (get_flight_guess_departure sharp_s_upper no_unicode_decimal
           sample_tz_database
           (mock_by_date (inr (RespList [])))
           (mock_history
              (inr (RespList [with_departure_time (py "2330")
                                mock_flight_data])))
           ltac:(discriminate)
           (py "SQ327") (py "2024-10-25")
           (mkdatetime (mkdate 2024 10 25) (mktime 0 0)) (RespList [])
           (RespList [with_departure_time (py "2330") mock_flight_data])
           _ [CallForDate (py "SQ327") (py "20241025");
              CallHistory (py "SQ327")]).
  - reflexivity.
  - simpl. lia.
  - reflexivity.
  - reflexivity.
  - reflexivity.
  - compute_done.
Defined.

(** ** How [get_flight] can fail *)

(** The exceptions of the steps that turn records into rows: a schedule
    text that [strptime] does not read, a zone the timezone database
    does not know, a date that leaves the years 1 to 9999. *)
Definition row_failure (e : exn) : Prop :=
  match e with
  | StrptimeError _ | UnknownTimeZoneError _ | OverflowError => True
  | _ => False
  end.

Definition has_str (r : row) (k : string) : Prop :=
  exists s, r !! k = Some (VStr s).

(** A row with the four columns the steps read. *)
Definition keyed (r : row) : Prop :=
  has_str r "origin_timezone" /\ has_str r "destination_timezone" /\
  has_str r "scheduled_departure" /\ has_str r "scheduled_arrival".

Lemma get_str_has (r : row) k : has_str r k -> exists s, get_str r k = inr s.
Proof. intros [s Hs]. exists s. unfold get_str. now rewrite Hs. Qed.

Lemma keyed_canonical guess raw :
  keyed (<["is_guess" := VBool guess]> (canonical raw)).
Proof. repeat split; eexists; reflexivity. Qed.

Lemma keyed_schedule (r : row) dep arr :
  keyed r ->
  keyed (<["scheduled_arrival" := VStr arr]>
           (<["scheduled_departure" := VStr dep]> r)).
Proof.
  intros ([o Ho] & [d Hd] & _ & _). repeat split.
  - exists o. now rewrite !lookup_insert_ne by discriminate.
  - exists d. now rewrite !lookup_insert_ne by discriminate.
  - exists dep. rewrite lookup_insert_ne by discriminate.
    now rewrite lookup_insert_eq.
  - exists arr. now rewrite lookup_insert_eq.
Qed.

Section Failures.
Variable up : N -> pystr.
Variable ud : N -> option Z.
Variable tz : pystr -> option tzinfo.
Variable by_date : pystr -> pystr -> exn + response.
Variable history : pystr -> exn + response.

Lemma strptime_failure s fmt e : strptime ud s fmt = inl e -> row_failure e.
Proof. intros ->%strptime_inl. exact I. Qed.

Lemma timezone_failure name e : timezone tz name = inl e -> row_failure e.
Proof.
  unfold timezone. destruct (tz name); [discriminate|]. intros [= <-]. exact I.
Qed.

Lemma add_days_failure x k e : add_days x k = inl e -> row_failure e.
Proof.
  unfold add_days. destruct (_ && _); [discriminate|]. intros [= <-]. exact I.
Qed.

Lemma utc_astimezone_failure x z e :
  utc_astimezone x z = inl e -> row_failure e.
Proof.
  unfold utc_astimezone, of_minutes.
  destruct (_ && _); [discriminate|]. intros [= <-]. exact I.
Qed.

Ltac step_failure H :=
  apply bind_inl in H as [H|(? & ? & H)];
  [ first [ now apply strptime_failure in H
          | now apply timezone_failure in H
          | now apply add_days_failure in H
          | now apply utc_astimezone_failure in H
          | congruence ] | ].

Lemma move_flight_date_failure (r : row) d e :
  keyed r -> move_flight_date ud r d = inl e -> row_failure e.
Proof.
  intros (_ & _ & [dep Hdep]%get_str_has & [arr Harr]%get_str_has) H.
  unfold move_flight_date in H. rewrite Hdep, Harr in H.
  step_failure H. step_failure H. step_failure H. step_failure H.
  step_failure H.
  apply bind_inl in H as [H|([? ?] & ? & H)]; [|discriminate H].
  destruct (negb _); [|discriminate H].
  step_failure H. step_failure H. discriminate H.
Qed.

Lemma update_row_timezones_failure (r : row) e :
  keyed r -> update_row_timezones ud tz r = inl e -> row_failure e.
Proof.
  intros ([o Ho]%get_str_has & [d Hd]%get_str_has & [dep Hdep]%get_str_has
          & [arr Harr]%get_str_has) H.
  unfold update_row_timezones in H. rewrite Ho, Hd, Hdep, Harr in H.
  do 10 step_failure H. discriminate H.
Qed.

Lemma nice_cell_failure (r : row) col e :
  has_str r col -> nice_cell ud col r = inl e -> row_failure e.
Proof.
  intros [s Hs]%get_str_has H. unfold nice_cell in H. rewrite Hs in H.
  do 2 step_failure H. discriminate H.
Qed.

Lemma keyed_forall {A} (f : A -> exn + row) l l' :
  map_exn f l = inr l' ->
  (forall a b, In a l -> f a = inr b -> keyed b) -> Forall keyed l'.
Proof.
  intros H%map_exn_inr Hk. induction H as [|a b l l' Hab _ IH];
    constructor.
  - apply (Hk a b); [now left | exact Hab].
  - apply IH. intros x y Hx. apply Hk. now right.
Qed.

Lemma set_column_In col vals (df : list row) r :
  In r (set_column col vals df) ->
  exists r0 v, In r0 df /\ r = <[col := v]> r0.
Proof.
  unfold set_column. intros [[r0 v] [<- Hin]]%in_map_iff.
  apply in_combine_l in Hin. eauto.
Qed.

Lemma parse_nice_datetime_failure (df : list row) e :
  Forall keyed df -> parse_nice_datetime ud df = inl e -> row_failure e.
Proof.
  intros Hk H. rewrite Forall_forall in Hk. unfold parse_nice_datetime in H.
  apply bind_inl in H as [H|(deps & _ & H)].
  - apply map_exn_inl in H as (r & Hr & H).
    apply (nice_cell_failure r "scheduled_departure"); [|exact H].
    now apply Hk, list_elem_of_In.
  - apply bind_inl in H as [H|(? & _ & H)]; [|discriminate H].
    apply map_exn_inl in H as (r & Hr & H).
    apply set_column_In in Hr as (r0 & v & Hr0 & ->).
    apply (nice_cell_failure (<["nice_departure_date" := v]> r0)
             "scheduled_arrival"); [|exact H].
    destruct (Hk r0) as (_ & _ & _ & [s Hs]); [now apply list_elem_of_In|].
    exists s. now rewrite lookup_insert_ne by discriminate.
Qed.

Lemma exact_frame_failure l e :
  exact_frame ud tz l = inl e -> row_failure e.
Proof.
  unfold exact_frame. rewrite parse_all_eq. cbn [bind_exn].
  unfold update_df_timezones, set_is_guess. rewrite map_map. intros H.
  apply bind_inl in H as [H|(df & Hdf & H)].
  - apply map_exn_inl in H as (r & [raw [<- _]]%in_map_iff & H).
    eapply update_row_timezones_failure; [|exact H]. apply keyed_canonical.
  - eapply parse_nice_datetime_failure; [|exact H].
    eapply keyed_forall; [exact Hdf|].
    intros r r' [raw [<- _]]%in_map_iff Hr.
    apply update_row_timezones_shape in Hr as (dep & arr & ->).
    apply keyed_schedule, keyed_canonical.
Qed.

Lemma guess_frame_failure d l e :
  guess_frame ud tz d l = inl e -> row_failure e.
Proof.
  unfold guess_frame. rewrite parse_all_eq. cbn [bind_exn].
  unfold update_df_timezones, set_is_guess. rewrite map_map. intros H.
  apply bind_inl in H as [H|(df1 & Hdf1 & H)].
  - apply map_exn_inl in H as (r & [raw [<- _]]%in_map_iff & H).
    eapply move_flight_date_failure; [|exact H]. apply keyed_canonical.
  - assert (K1 : Forall keyed df1).
    { eapply keyed_forall; [exact Hdf1|].
      intros r r' [raw [<- _]]%in_map_iff Hr.
      apply move_flight_date_shape in Hr as (dep & arr & ->).
      apply keyed_schedule, keyed_canonical. }
    apply bind_inl in H as [H|(df2 & Hdf2 & H)].
    + apply map_exn_inl in H as (r & Hr & H).
      eapply update_row_timezones_failure; [|exact H].
      rewrite Forall_forall in K1. now apply K1, list_elem_of_In.
    + eapply parse_nice_datetime_failure; [|exact H].
      eapply keyed_forall; [exact Hdf2|].
      intros r r' Hin Hr.
      apply update_row_timezones_shape in Hr as (dep & arr & ->).
      apply keyed_schedule.
      rewrite Forall_forall in K1. now apply K1, list_elem_of_In.
Qed.

(** The failures of [get_flight], all of them. It raises the error of
    [strptime] on the date it is given, before any call; or what the
    dated query raises; or, after both queries, the [ValueError] that
    names the normalised flight number, when the history raises or is
    empty; or, while it builds the rows, one of three exceptions: a
    schedule text of the provider that [strptime] does not read, a zone
    the timezone database does not know, a date outside the years 1 to
    9999. On records that have the entries the code reads it never
    raises the [KeyError] of a missing column, an [IndexError] or a
    [TypeError] of its own. *)
Theorem get_flight_failures flight_number date e calls :
  get_flight up ud tz by_date history flight_number date = (inl e, calls) ->
  (calls = [] /\ e = StrptimeError date) \/
  (exists d, parse_date ud date = inr d /\
     let n := parse_flight_number up flight_number in
     (calls = [CallForDate n d] /\ by_date n d = inl e) \/
     (calls = [CallForDate n d; CallHistory n] /\
      e = ValueError (not_found_message n) /\
      forall hist, history n = inr hist -> response_values hist = []) \/
     (calls <> [] /\ row_failure e)).
Proof.
  rewrite get_flight_cases. cbv zeta.
  destruct (parse_date ud date) as [e'|d] eqn:Ed.
  - intros [= <- <-]. left. split; [reflexivity|].
    unfold parse_date in Ed. apply bind_inl in Ed as [Ed|(x & _ & Ed)];
      [|discriminate Ed].
    now apply strptime_inl in Ed.
  - intros H. right. exists d. split; [reflexivity|]. cbv zeta.
    destruct (by_date _ d) as [e'|flight_info] eqn:Eb.
    + injection H as <- <-. left. auto.
    + right. destruct (response_values flight_info) as [|raw l].
      * destruct (history _) as [e'|hist] eqn:Eh.
        -- injection H as <- <-. left. repeat split. discriminate.
        -- destruct (response_values hist) as [|x l'] eqn:El.
           ++ injection H as <- <-. left. repeat split.
              intros hist' [= <-]. exact El.
           ++ injection H as H <-. right. split; [discriminate|].
              now apply guess_frame_failure in H.
      * injection H as H <-. right. split; [discriminate|].
        now apply exact_frame_failure in H.
Qed.
End Failures.

Lemma get_flight_failures_witness :
  ([CallForDate (py "SQ327") (py "20241023")] = [] /\
   UnknownTimeZoneError (py "Mars/Olympus") = StrptimeError (py "2024-10-23"))
  \/
  (exists d, parse_date no_unicode_decimal (py "2024-10-23") = inr d /\
     let n := parse_flight_number sharp_s_upper (py "SQ327") in
     ([CallForDate (py "SQ327") (py "20241023")] = [CallForDate n d] /\
      mock_by_date
        (inr (RespList
                [mkraw (py "SQ327") (py "20241023") (py "1430")
                   (py "20241024") (py "0615") None (py "Changi")
                   (py "Olympus") (py "Asia/Singapore") (py "Mars/Olympus")
                   (py "SIN") (py "OLY")])) n d
      = inl (UnknownTimeZoneError (py "Mars/Olympus"))) \/
     ([CallForDate (py "SQ327") (py "20241023")]
      = [CallForDate n d; CallHistory n] /\
      UnknownTimeZoneError (py "Mars/Olympus")
      = ValueError (not_found_message n) /\
      forall hist,
        mock_history (inr (RespList [])) n = inr hist ->
        response_values hist = []) \/
     ([CallForDate (py "SQ327") (py "20241023")] <> [] /\
      row_failure (UnknownTimeZoneError (py "Mars/Olympus")))).
Proof.
  apply (get_flight_failures sharp_s_upper no_unicode_decimal
           sample_tz_database _ (mock_history (inr (RespList [])))
           (py "SQ327") (py "2024-10-23")).
  compute_done.
Defined.

(** ** Calendar files *)

(** The columns of a record that the two builders read. *)
Definition event_columns : list string :=
  ["airline_name"; "origin_airport_code"; "destination_airport_code";
   "flight_number"; "origin_timezone"; "destination_timezone";
   "scheduled_departure"; "scheduled_arrival"; "origin_airport"]%string.

Lemma get_fmt_insert_ne (r : row) k k' v :
  k' <> k -> get_fmt (<[k' := v]> r) k = get_fmt r k.
Proof. intros H. unfold get_fmt. now rewrite lookup_insert_ne. Qed.

Lemma get_str_insert_ne (r : row) k k' v :
  k' <> k -> get_str (<[k' := v]> r) k = get_str r k.
Proof. intros H. unfold get_str. now rewrite lookup_insert_ne. Qed.

Lemma get_str_insert (r : row) k s : get_str (<[k := VStr s]> r) k = inr s.
Proof. unfold get_str. now rewrite lookup_insert_eq. Qed.

Definition crlf : list N := [carriage_return; newline].

(** The octets every calendar file starts and ends with. *)
Definition calendar_head : list N :=
  py "BEGIN:VCALENDAR" ++ crlf ++ py "VERSION:2.0" ++ crlf
    ++ py "PRODID:-//eluceo/ical//2.0/EN" ++ crlf
    ++ py "CALSCALE:GREGORIAN" ++ crlf ++ py "METHOD:REQUEST" ++ crlf
    ++ py "BEGIN:VEVENT" ++ crlf.

Definition calendar_tail : list N :=
  py "STATUS:CONFIRMED" ++ crlf ++ py "END:VEVENT" ++ crlf
    ++ py "END:VCALENDAR" ++ crlf.

Section Calendar.
Variable ud : N -> option Z.
Variable tz : pystr -> option tzinfo.
Variable now : datetime * Z.

Lemma build_calendar_insert_ne fmt (data : row) k v :
  ~ In k event_columns ->
  build_calendar ud tz now fmt (<[k := v]> data)
  = build_calendar ud tz now fmt data.
Proof.
  intros Hk. unfold build_calendar.
  assert (Hne : forall k', In k' event_columns -> k <> k')
    by (intros k' Hin ->; contradiction).
  rewrite !get_fmt_insert_ne, !get_str_insert_ne
    by (apply Hne; simpl; tauto).
  reflexivity.
Qed.

(** The two builders read nine columns of the record and nothing else:
    a column outside [event_columns] can be set, changed or added
    without any effect on the file. The name of the destination airport
    is such a column, and so are [is_guess] and the two display
    columns: a guessed flight gives the same file as a confirmed one. *)
Theorem make_ical_event_unused_column (data : row) k v :
  ~ In k event_columns ->
  make_ical_event ud tz now (<[k := v]> data)
  = make_ical_event ud tz now data /\
  make_ics_from_manual_data ud tz now (<[k := v]> data)
  = make_ics_from_manual_data ud tz now data.
Proof.
  intros Hk. unfold make_ical_event, make_ics_from_manual_data.
  now rewrite !build_calendar_insert_ne.
Qed.

Lemma build_calendar_schedule (data : row) dep arr :
  valid_datetime dep = true -> 1000 <= year (dt_date dep) ->
  valid_datetime arr = true -> 1000 <= year (dt_date arr) ->
  build_calendar ud tz now fmt_dashed
    (<["scheduled_arrival" := VStr (strftime arr fmt_dashed)]>
       (<["scheduled_departure" := VStr (strftime dep fmt_dashed)]> data))
  = build_calendar ud tz now fmt_compact
      (<["scheduled_arrival" := VStr (strftime arr fmt_compact)]>
         (<["scheduled_departure" := VStr (strftime dep fmt_compact)]> data)).
Proof.
  intros Hd Hyd Ha Hya. unfold build_calendar.
  rewrite !get_fmt_insert_ne by discriminate.
  rewrite !(get_str_insert_ne _ "origin_timezone") by discriminate.
  rewrite !(get_str_insert_ne _ "destination_timezone") by discriminate.
  rewrite !(get_str_insert_ne _ "scheduled_departure" "scheduled_arrival")
    by discriminate.
  rewrite !get_str_insert.
  repeat match goal with
         | |- bind_exn ?c _ = bind_exn ?c _ =>
             destruct c; [reflexivity|]; cbn [bind_exn]
         end.
  rewrite (strptime_strftime_dashed ud dep Hd Hyd).
  rewrite (strptime_strftime_compact ud dep Hd Hyd). cbn [bind_exn].
  rewrite (strptime_strftime_dashed ud arr Ha Hya).
  rewrite (strptime_strftime_compact ud arr Ha Hya). cbn [bind_exn].
  reflexivity.
Qed.

(** The builder of the manual route and the builder of the lookup route
    give the same file for the same flight: they differ in the format of
    the two schedule columns only, ["%Y-%m-%d %H:%M"] for the first and
    ["%Y%m%d %H%M"] for the second. Stated for times from the year 1000
    on. *)
Theorem make_ics_from_manual_data_agrees (data : row) dep arr :
  valid_datetime dep = true -> 1000 <= year (dt_date dep) ->
  valid_datetime arr = true -> 1000 <= year (dt_date arr) ->
  make_ics_from_manual_data ud tz now
    (<["scheduled_arrival" := VStr (strftime arr fmt_dashed)]>
       (<["scheduled_departure" := VStr (strftime dep fmt_dashed)]> data))
  = make_ical_event ud tz now
      (<["scheduled_arrival" := VStr (strftime arr fmt_compact)]>
         (<["scheduled_departure" := VStr (strftime dep fmt_compact)]> data)).
Proof.
  intros Hd Hyd Ha Hya. unfold make_ical_event, make_ics_from_manual_data.
  now rewrite build_calendar_schedule.
Qed.

Lemma encode_inr s bytes : encode s = inr bytes -> bytes = utf8 s.
Proof.
  unfold encode. destruct (forallb encodable s); [|discriminate].
  now intros [= <-].
Qed.

Lemma utf8_app a b : utf8 (a ++ b) = utf8 a ++ utf8 b.
Proof. unfold utf8. apply flat_map_app. Qed.

Lemma to_ical_envelope fmt (data : row) cal bytes :
  build_calendar ud tz now fmt data = inr cal ->
  to_ical cal = inr bytes ->
  exists body, bytes = calendar_head ++ body ++ calendar_tail.
Proof.
  unfold build_calendar. intros H.
  do 13 (apply bind_inr in H; destruct H as (? & ? & H)).
  injection H as <-. unfold to_ical. intros ->%encode_inr.
  match goal with
  | |- context [flat_map ?g (content_lines ?c)] =>
      set (lines := content_lines c); set (fold := g)
  end.
  match goal with
  | _ := content_lines
           (mkcomponent _ _ _
              [(_, _, add_prop _ ?status
                        (add_prop _ ?stamp
                           (add_prop _ ?description
                              (add_prop _ ?location
                                 (add_prop _ ?dtend
                                    (add_prop _ ?dtstart
                                       (add_prop _ ?summary []))))))) ]) |- _ =>
      assert (E : lines
                  = [py "BEGIN:VCALENDAR"; py "VERSION:2.0";
                     py "PRODID:-//eluceo/ical//2.0/EN";
                     py "CALSCALE:GREGORIAN"; py "METHOD:REQUEST";
                     py "BEGIN:VEVENT"]
                    ++ [content_line "SUMMARY" summary;
                        content_line "DTSTART" dtstart;
                        content_line "DTEND" dtend;
                        content_line "DTSTAMP" stamp;
                        content_line "DESCRIPTION" description;
                        content_line "LOCATION" location]
                    ++ [py "STATUS:CONFIRMED"; py "END:VEVENT";
                        py "END:VCALENDAR"]) by reflexivity
  end.
  rewrite E. rewrite !flat_map_app, !utf8_app.
  eexists. f_equal.
Qed.

(** Every file the two builders return opens one calendar, version
    2.0, with the fixed product identifier, the Gregorian scale and the
    method REQUEST, opens one event in it, and ends with the status
    CONFIRMED and the two closing lines. *)
Theorem make_ical_event_envelope (data : row) bytes :
  make_ical_event ud tz now data = inr bytes \/
  make_ics_from_manual_data ud tz now data = inr bytes ->
  exists body, bytes = calendar_head ++ body ++ calendar_tail.
Proof.
  unfold make_ical_event, make_ics_from_manual_data.
  intros [H|H]; apply bind_inr in H as (cal & Hc & Hb);
    exact (to_ical_envelope _ _ _ _ Hc Hb).
Qed.

(** [make_ics_from_selected_df_index] builds the event of the row at
    the position given; a negative position counts from the end of the
    frame, so [index - len(df)] selects the row of [index]; a position
    outside the frame raises [IndexError] and builds nothing. *)
Theorem make_ics_from_selected_df_index_spec (df : list row) index :
  let n := Z.of_nat (length df) in
  (forall r, df !! Z.to_nat index = Some r -> 0 <= index ->
     make_ics_from_selected_df_index ud tz now df index
     = make_ical_event ud tz now r /\
     make_ics_from_selected_df_index ud tz now df (index - n)
     = make_ical_event ud tz now r) /\
  (index < - n \/ n <= index ->
   make_ics_from_selected_df_index ud tz now df index = inl IndexError).
Proof.
  intros n. unfold make_ics_from_selected_df_index, iloc. fold n. split.
  - intros r Hr Hi.
    assert (Hlt : index < n).
    { apply lookup_lt_Some in Hr. unfold n. lia. }
    replace (index <? 0) with false by (symmetry; apply Z.ltb_ge; lia).
    replace (index - n <? 0) with true by (symmetry; apply Z.ltb_lt; lia).
    replace (n + (index - n)) with index by lia.
    replace ((0 <=? index) && (index <? n)) with true
      by (symmetry; rewrite andb_true_iff, Z.leb_le, Z.ltb_lt; lia).
    rewrite Hr. split; reflexivity.
  - intros Hout.
    assert (E : (let i := if index <? 0 then n + index else index in
                 (0 <=? i) && (i <? n)) = false).
    { cbv zeta. destruct (Z.ltb_spec index 0);
        apply andb_false_iff; rewrite Z.leb_gt, Z.ltb_ge; lia. }
    cbv zeta in E. rewrite E. reflexivity.
Qed.
End Calendar.

Lemma make_ical_event_unused_column_witness :
  make_ical_event no_unicode_decimal sample_tz_database sample_now
    (<["destination_airport" := VStr (py "Oakland")]>
       (mock_row true "20241025 2230" "20241025 2315"
          "2024-10-25 22:30" "2024-10-25 23:15"))
  = make_ical_event no_unicode_decimal sample_tz_database sample_now
      (mock_row true "20241025 2230" "20241025 2315"
         "2024-10-25 22:30" "2024-10-25 23:15") /\
  make_ics_from_manual_data no_unicode_decimal sample_tz_database sample_now
    (<["destination_airport" := VStr (py "Oakland")]>
       (mock_row true "20241025 2230" "20241025 2315"
          "2024-10-25 22:30" "2024-10-25 23:15"))
  = make_ics_from_manual_data no_unicode_decimal sample_tz_database sample_now
      (mock_row true "20241025 2230" "20241025 2315"
         "2024-10-25 22:30" "2024-10-25 23:15").
Proof.
  apply make_ical_event_unused_column. simpl.
  intros H. repeat destruct H as [H|H]; try discriminate H. exact H.
Defined.

Lemma make_ics_from_manual_data_agrees_witness :
  make_ics_from_manual_data no_unicode_decimal sample_tz_database sample_now
    (<["scheduled_arrival" := VStr (py "2024-10-23 23:15")]>
       (<["scheduled_departure" := VStr (py "2024-10-23 22:30")]>
          (canonical mock_flight_data)))
  = make_ical_event no_unicode_decimal sample_tz_database sample_now
      (<["scheduled_arrival" := VStr (py "20241023 2315")]>
         (<["scheduled_departure" := VStr (py "20241023 2230")]>
            (canonical mock_flight_data))).
Proof.
  apply (make_ics_from_manual_data_agrees no_unicode_decimal
           sample_tz_database sample_now (canonical mock_flight_data)
           (mkdatetime (mkdate 2024 10 23) (mktime 22 30))
           (mkdatetime (mkdate 2024 10 23) (mktime 23 15)));
    first [reflexivity | simpl; lia].
Defined.

(** The file of the record of the tests, evaluated. *)
Definition mock_ics : exn + list N :=
  Eval vm_compute in
    make_ical_event no_unicode_decimal sample_tz_database sample_now
      (canonical mock_flight_data).

Definition mock_ics_bytes : list N :=
  match mock_ics with inr bytes => bytes | inl _ => [] end.

Lemma make_ical_event_envelope_witness :
  exists body, mock_ics_bytes = calendar_head ++ body ++ calendar_tail.
Proof.
  apply (make_ical_event_envelope no_unicode_decimal sample_tz_database
           sample_now (canonical mock_flight_data)).
  left. vm_compute. reflexivity.
Defined.

Lemma make_ics_from_selected_df_index_spec_witness :
  make_ics_from_selected_df_index no_unicode_decimal sample_tz_database
    sample_now
    [canonical mock_flight_data;
     canonical (with_departure_time (py "1630") mock_flight_data)] 1
  = make_ical_event no_unicode_decimal sample_tz_database sample_now
      (canonical (with_departure_time (py "1630") mock_flight_data)) /\
  make_ics_from_selected_df_index no_unicode_decimal sample_tz_database
    sample_now
    [canonical mock_flight_data;
     canonical (with_departure_time (py "1630") mock_flight_data)] (1 - 2)
  = make_ical_event no_unicode_decimal sample_tz_database sample_now
      (canonical (with_departure_time (py "1630") mock_flight_data)).
Proof.
  apply (proj1 (make_ics_from_selected_df_index_spec no_unicode_decimal
                  sample_tz_database sample_now
                  [canonical mock_flight_data;
                   canonical (with_departure_time (py "1630")
                                mock_flight_data)] 1));
    [reflexivity | lia].
Defined.

(** ** The manual-entry route *)

Definition present (m : gmap string pystr) (k : string) : Prop :=
  exists c s, m !! k = Some (c :: s).

Lemma keep_fields_lookup (form : gmap string pystr) (l : list string) k :
  fold_right
    (fun k (m : gmap string pystr) =>
       match form !! k with Some v => <[k := v]> m | None => m end)
    ∅ l !! k
  = if bool_decide (k ∈ l) then form !! k else None.
Proof.
  induction l as [|a l IH]; cbn [fold_right].
  - rewrite lookup_empty.
    now rewrite bool_decide_eq_false_2 by apply not_elem_of_nil.
  - destruct (decide (a = k)) as [->|Hne].
    + rewrite (bool_decide_eq_true_2 (k ∈ k :: l)) by apply list_elem_of_here.
      destruct (form !! k) as [v|] eqn:Ek.
      * now rewrite lookup_insert_eq.
      * rewrite IH. now destruct (bool_decide (k ∈ l)).
    + assert (E : bool_decide (k ∈ a :: l) = bool_decide (k ∈ l)).
      { apply bool_decide_ext. rewrite elem_of_cons. split; [|tauto].
        intros [E'|H]; [congruence | exact H]. }
      rewrite E. destruct (form !! a) as [v|]; [|exact IH].
      now rewrite lookup_insert_ne.
Qed.

Lemma manual_flight_data_required form k :
  In k required_fields -> manual_flight_data form !! k = form !! k.
Proof.
  intros H%list_elem_of_In. unfold manual_flight_data.
  rewrite keep_fields_lookup. now rewrite bool_decide_eq_true_2.
Qed.

Lemma first_missing_None m fields :
  first_missing m fields = None <-> forall k, In k fields -> present m k.
Proof.
  induction fields as [|a l IH]; simpl.
  - split; [intros _ k [] | reflexivity].
  - destruct (m !! a) as [[|c s]|] eqn:Ea.
    + split; [discriminate|]. intros H.
      destruct (H a) as (c & s & E); [now left | congruence].
    + rewrite IH. split.
      * intros H k [<-|Hk]; [exists c, s; exact Ea | now apply H].
      * intros H k Hk. apply H. now right.
    + split; [discriminate|]. intros H.
      destruct (H a) as (c & s & E); [now left | congruence].
Qed.

Lemma first_missing_Some m fields field :
  first_missing m fields = Some field <->
  exists pre post, fields = pre ++ field :: post /\
                   (forall k, In k pre -> present m k) /\ ~ present m field.
Proof.
  revert field. induction fields as [|a l IH]; intros field; simpl.
  - split; [discriminate|]. intros (pre & post & E & _).
    now destruct pre.
  - assert (Hcase : present m a \/ ~ present m a).
    { destruct (m !! a) as [[|c s]|] eqn:Ea.
      - right. intros (c & s & E). congruence.
      - left. exists c, s. exact Ea.
      - right. intros (c & s & E). congruence. }
    destruct Hcase as [Hp|Hn].
    + destruct Hp as (c & s & Ea). rewrite Ea. rewrite IH. split.
      * intros (pre & post & -> & Hpre & Hf).
        exists (a :: pre), post. repeat split; [|exact Hf].
        intros k [<-|Hk]; [exists c, s; exact Ea | now apply Hpre].
      * intros (pre & post & E & Hpre & Hf).
        destruct pre as [|b pre]; simpl in E; injection E as <- ->.
        -- destruct Hf. exists c, s. exact Ea.
        -- exists pre, post. repeat split; [|exact Hf].
           intros k Hk. apply Hpre. now right.
    + assert (E : match m !! a with
                  | Some (_ :: _) => first_missing m l
                  | _ => Some a
                  end = Some a).
      { destruct (m !! a) as [[|c s]|] eqn:Ea; try reflexivity.
        destruct Hn. exists c, s. exact Ea. }
      rewrite E. split.
      * intros [= <-]. exists [], l. repeat split; [intros k []|exact Hn].
      * intros (pre & post & E' & Hpre & Hf).
        destruct pre as [|b pre]; simpl in E'; injection E' as <- ->.
        -- reflexivity.
        -- destruct Hn. apply Hpre. now left.
Qed.

(** What [re.match(r"^[A-Z]{3}$", code)] accepts: three capital letters,
    or three capital letters and a final newline. *)
Definition airport_code_ok (code : pystr) : Prop :=
  exists a b c,
    is_upper a = true /\ is_upper b = true /\ is_upper c = true /\
    (code = [a; b; c] \/ code = [a; b; c; newline]).

Lemma match_airport_code_spec code :
  match_airport_code code = true <-> airport_code_ok code.
Proof.
  unfold match_airport_code, airport_code_ok. split.
  - destruct code as [|a [|b [|c [|n [|x r]]]]]; try discriminate.
    + intros [[Ha Hb]%andb_true_iff Hc]%andb_true_iff.
      exists a, b, c. auto.
    + intros [[[Ha Hb]%andb_true_iff Hc]%andb_true_iff Hn%N.eqb_eq]%andb_true_iff.
      subst n. exists a, b, c. auto.
  - intros (a & b & c & Ha & Hb & Hc & [->| ->]); rewrite Ha, Hb, Hc;
      reflexivity.
Qed.

(** [d[k]] after the step that replaces ["T"] by a space. *)
Definition normalized (v : pystr) : pystr :=
  if existsb (N.eqb 84) v then replace (py "T") (py " ") v else v.

Definition origin_code_message : pystr :=
  py "Origin airport code must be 3 uppercase letters".
Definition destination_code_message : pystr :=
  py "Destination airport code must be 3 uppercase letters".
Definition datetime_message : pystr :=
  py "Invalid datetime format. Use: yyyy-mm-dd hh:mm".

Section ManualEntry.
Variable ud : N -> option Z.
Variable tz : pystr -> option tzinfo.
Variable now : datetime * Z.

Lemma present_manual form k :
  In k required_fields ->
  present (manual_flight_data form) k <-> present form k.
Proof.
  intros H. unfold present. now rewrite manual_flight_data_required.
Qed.

Lemma entry_Some (m : gmap string pystr) k v :
  m !! k = Some v -> entry m k = inr v.
Proof. unfold entry. now intros ->. Qed.

Lemma normalize_T_eq k (m : gmap string pystr) v :
  m !! k = Some v -> normalize_T k m = inr (<[k := normalized v]> m).
Proof.
  intros H. unfold normalize_T, normalized. rewrite (entry_Some _ _ _ H).
  cbn [bind_exn]. destruct (existsb _ v); [reflexivity|].
  unfold ret. now rewrite insert_id.
Qed.

(** The checks of the route on a form that has its ten fields. *)
Lemma validate_manual_entry_eq form o d dv av :
  (forall k, In k required_fields -> present form k) ->
  form !! "origin_airport_code" = Some o ->
  form !! "destination_airport_code" = Some d ->
  form !! "scheduled_departure" = Some dv ->
  form !! "scheduled_arrival" = Some av ->
  validate_manual_entry ud form
  = if negb (match_airport_code o) then inl (ValueError origin_code_message)
    else if negb (match_airport_code d)
    then inl (ValueError destination_code_message)
    else match strptime ud (normalized dv) fmt_dashed,
               strptime ud (normalized av) fmt_dashed with
         | inr _, inr _ =>
             inr (<["scheduled_arrival" := normalized av]>
                    (<["scheduled_departure" := normalized dv]>
                       (manual_flight_data form)))
         | _, _ => inl (ValueError datetime_message)
         end.
Proof.
  clear tz now. intros Hall Ho Hd Hdv Hav. unfold validate_manual_entry.
  assert (Hnone : first_missing (manual_flight_data form) required_fields
                  = None).
  { apply first_missing_None. intros k Hk. apply present_manual; auto. }
  rewrite Hnone.
  rewrite <- (manual_flight_data_required form) in Ho, Hd, Hdv, Hav
    by (simpl; tauto).
  rewrite (entry_Some _ _ _ Ho). cbn [bind_exn].
  destruct (match_airport_code o); [|reflexivity]. cbn [negb].
  rewrite (entry_Some _ _ _ Hd). cbn [bind_exn].
  destruct (match_airport_code d); [|reflexivity]. cbn [negb].
  rewrite (normalize_T_eq _ _ _ Hdv). cbn [bind_exn].
  rewrite (normalize_T_eq "scheduled_arrival" _ av)
    by now rewrite lookup_insert_ne.
  cbn [bind_exn].
  rewrite (entry_Some _ "scheduled_departure" (normalized dv))
    by (rewrite lookup_insert_ne by discriminate; apply lookup_insert_eq).
  cbn [bind_exn].
  destruct (strptime ud (normalized dv) fmt_dashed) as [e|x] eqn:E1.
  { apply strptime_inl in E1 as ->. reflexivity. }
  cbn [bind_exn].
  rewrite (entry_Some _ "scheduled_arrival" (normalized av))
    by apply lookup_insert_eq.
  cbn [bind_exn].
  destruct (strptime ud (normalized av) fmt_dashed) as [e|y] eqn:E2.
  { apply strptime_inl in E2 as ->. reflexivity. }
  reflexivity.
Qed.

(** A form without one of the ten fields, or with an empty one, is
    answered with the message that names the first such field in the
    order of the list, whatever the other fields hold; no file is
    built. *)
Theorem create_manual_event_missing_field form pre field post :
  required_fields = pre ++ field :: post ->
  (forall k, In k pre -> present form k) ->
  ~ present form field ->
  create_manual_event ud tz now form
  = RenderManualEntry
      (ValueError (py "Missing required field: " ++ py field)).
Proof.
  intros Hreq Hpre Hfield. unfold create_manual_event, validate_manual_entry.
  assert (E : first_missing (manual_flight_data form) required_fields
              = Some field).
  { apply first_missing_Some. exists pre, post. split; [exact Hreq|]. split.
    - intros k Hk. apply present_manual; [|now apply Hpre].
      rewrite Hreq. apply in_or_app. now left.
    - intros H. apply Hfield. refine (proj1 (present_manual form field _) H).
      rewrite Hreq. apply in_or_app. right. now left. }
  rewrite E. reflexivity.
Qed.

(** On a form with its ten fields the airport codes are checked next,
    the origin first: a code passes when it is three capital letters, or
    three capital letters and a final newline; a code that does not
    pass is answered with the message of its field. *)
Theorem create_manual_event_airport_codes form o d :
  (forall k, In k required_fields -> present form k) ->
  form !! "origin_airport_code" = Some o ->
  form !! "destination_airport_code" = Some d ->
  (~ airport_code_ok o ->
   create_manual_event ud tz now form
   = RenderManualEntry (ValueError origin_code_message)) /\
  (airport_code_ok o -> ~ airport_code_ok d ->
   create_manual_event ud tz now form
   = RenderManualEntry (ValueError destination_code_message)).
Proof.
  intros Hall Ho Hd.
  destruct (Hall "scheduled_departure") as (c1 & s1 & Hdv); [simpl; tauto|].
  destruct (Hall "scheduled_arrival") as (c2 & s2 & Hav); [simpl; tauto|].
  unfold create_manual_event.
  rewrite (validate_manual_entry_eq form o d _ _ Hall Ho Hd Hdv Hav).
  rewrite <- !match_airport_code_spec. split.
  - intros H. destruct (match_airport_code o); [now destruct H|]. reflexivity.
  - intros -> H. destruct (match_airport_code d); [now destruct H|].
    reflexivity.
Qed.




End ManualEntry.










Section ManualAccept.
Variable ud : N -> option Z.
Variable tz : pystr -> option tzinfo.
Variable now : datetime * Z.

End ManualAccept.

(** The form of the test of the manual builder, as a browser sends it:
    the departure with a ["T"], the arrival with a space. *)
Definition manual_form : gmap string pystr :=
  list_to_map
    [("flight_number"%string, py "UA123");
     ("airline_name"%string, py "United Airlines");
     ("origin_airport"%string, py "San Francisco International Airport");
     ("origin_airport_code"%string, py "SFO");
     ("destination_airport"%string, py "Los Angeles International Airport");
     ("destination_airport_code"%string, py "LAX");
     ("scheduled_departure"%string, py "2024-10-23T14:30");
     ("scheduled_arrival"%string, py "2024-10-23 16:45");
     ("origin_timezone"%string, py "America/Los_Angeles");
     ("destination_timezone"%string, py "America/Los_Angeles")].

Lemma present_check (form : gmap string pystr) (fields : list string) :
  forallb (fun k => match form !! k with Some (_ :: _) => true | _ => false end)
          fields = true ->
  forall k, In k fields -> present form k.
Proof.
  rewrite forallb_forall. intros H k Hk. specialize (H k Hk).
  unfold present. destruct (form !! k) as [[|c s]|]; try discriminate. eauto.
Qed.

Lemma create_manual_event_missing_field_witness :
  create_manual_event no_unicode_decimal sample_tz_database sample_now
    (<["airline_name" := []]> manual_form)
  = RenderManualEntry
      (ValueError (py "Missing required field: airline_name")).
Proof.
  apply (create_manual_event_missing_field no_unicode_decimal
           sample_tz_database sample_now _ ["flight_number"%string]
           "airline_name"
           ["origin_airport"; "origin_airport_code"; "destination_airport";
            "destination_airport_code"; "scheduled_departure";
            "scheduled_arrival"; "origin_timezone";
            "destination_timezone"]%string eq_refl).
  - apply present_check. vm_compute. reflexivity.
  - intros (c & s & H). vm_compute in H. discriminate H.
Defined.

Lemma create_manual_event_airport_codes_witness :
  create_manual_event no_unicode_decimal sample_tz_database sample_now
    (<["origin_airport_code" := py "sin"]> manual_form)
  = RenderManualEntry (ValueError origin_code_message).
Proof.
  refine (proj1 (create_manual_event_airport_codes no_unicode_decimal
                   sample_tz_database sample_now
                   (<["origin_airport_code" := py "sin"]> manual_form)
                   (py "sin") (py "LAX") _ _ _) _).
  - apply present_check. vm_compute. reflexivity.
  - vm_compute. reflexivity.
  - vm_compute. reflexivity.
  - intros H%match_airport_code_spec. discriminate H.
Defined.



(** ** The list of time zones *)

Lemma str_lt_irrefl a : str_lt a a = false.
Proof.
  induction a as [|x a IH]; [reflexivity|]. simpl. now rewrite N.eqb_refl.
Qed.

Lemma str_lt_asym a : forall b, str_lt a b = true -> str_lt b a = false.
Proof.
  induction a as [|x a IH]; intros [|y b]; simpl; try reflexivity;
    try discriminate.
  rewrite (N.eqb_sym y x). destruct (N.eqb_spec x y) as [->|Hne].
  - apply IH.
  - intros H%N.ltb_lt. apply N.ltb_ge. lia.
Qed.

Lemma str_lt_cotrans a : forall b c,
  str_lt a c = true -> str_lt a b = true \/ str_lt b c = true.
Proof.
  induction a as [|x a IH]; intros b c.
  - destruct c as [|z c]; [discriminate|]. intros _.
    destruct b as [|y b]; [now right | now left].
  - destruct c as [|z c]; [discriminate|]. simpl.
    destruct b as [|y b]; [intros _; now right|]. simpl.
    destruct (N.eqb_spec x z) as [->|Hxz].
    + intros H. destruct (N.eqb_spec z y) as [->|Hzy].
      * rewrite N.eqb_refl. now apply IH.
      * rewrite (proj2 (N.eqb_neq y z)) by congruence.
        destruct (N.ltb_spec z y); [now left|]. right. apply N.ltb_lt. lia.
    + intros H%N.ltb_lt. destruct (N.eqb_spec x y) as [->|Hxy].
      * right. rewrite (proj2 (N.eqb_neq y z)) by assumption.
        now apply N.ltb_lt.
      * destruct (N.ltb_spec x y); [now left|]. right.
        destruct (N.eqb_spec y z) as [->|Hyz]; [lia|]. apply N.ltb_lt. lia.
Qed.

Lemma str_lt_total a : forall b,
  str_lt a b = false -> str_lt b a = false -> a = b.
Proof.
  induction a as [|x a IH]; intros [|y b]; simpl; try reflexivity;
    try discriminate.
  rewrite (N.eqb_sym y x). destruct (N.eqb_spec x y) as [->|Hne].
  - intros H1 H2. f_equal. now apply IH.
  - intros H1%N.ltb_ge H2%N.ltb_ge. lia.
Qed.

(** A key with an offset: the keys the sort meets. *)
Definition good (k : sort_key) : Prop := exists x, fst k = Some x.

(** [a <= b] on keys: [b < a] is false. *)
Definition key_le (a b : sort_key) : Prop := key_lt b a = inr false.

Lemma key_lt_good a b : good a -> good b -> exists r, key_lt a b = inr r.
Proof.
  intros [x Hx] [y Hy]. unfold key_lt. rewrite Hx, Hy.
  destruct (x =? y); eauto.
Qed.

Lemma key_lt_le a b : good a -> good b -> key_lt a b = inr true -> key_le a b.
Proof.
  intros [x Hx] [y Hy]. unfold key_le, key_lt. rewrite Hx, Hy.
  rewrite (Z.eqb_sym y x). destruct (Z.eqb_spec x y) as [->|Hne].
  - intros [= H]. unfold ret. f_equal. now apply str_lt_asym.
  - intros [= H%Z.ltb_lt]. unfold ret. f_equal. apply Z.ltb_ge. lia.
Qed.

Lemma key_le_trans a b c :
  good a -> good b -> good c -> key_le a b -> key_le b c -> key_le a c.
Proof.
  intros [x Hx] [y Hy] [z Hz]. unfold key_le, key_lt. rewrite Hx, Hy, Hz.
  destruct (Z.eqb_spec y x) as [->|Hyx].
  - intros [= H1]. destruct (Z.eqb_spec z x) as [->|Hzx].
    + intros [= H2]. unfold ret. f_equal.
      destruct (str_lt (snd c) (snd a)) eqn:E; [|reflexivity].
      destruct (str_lt_cotrans _ (snd b) _ E); congruence.
    + intros [= H2]. unfold ret. f_equal. exact H2.
  - intros [= H1%Z.ltb_ge]. destruct (Z.eqb_spec z y) as [->|Hzy].
    + intros _. rewrite (proj2 (Z.eqb_neq y x)) by assumption.
      unfold ret. f_equal. apply Z.ltb_ge. lia.
    + intros [= H2%Z.ltb_ge]. destruct (Z.eqb_spec z x) as [->|Hzx]; [lia|].
      unfold ret. f_equal. apply Z.ltb_ge. lia.
Qed.

(** Two keys, each at most the other, are the same key. *)
Lemma key_le_antisym a b :
  good a -> good b -> key_le a b -> key_le b a -> a = b.
Proof.
  intros [x Hx] [y Hy]. unfold key_le, key_lt. rewrite Hx, Hy.
  rewrite (Z.eqb_sym y x). destruct (Z.eqb_spec x y) as [->|Hne].
  - intros [= H1] [= H2]. destruct a as [oa na], b as [ob nb]. simpl in *.
    subst. f_equal. now apply str_lt_total.
  - intros [= H1%Z.ltb_ge] [= H2%Z.ltb_ge]. lia.
Qed.

Section Sorting.
Context {A : Type}.

Definition keys_good (l : list (sort_key * A)) : Prop :=
  Forall (fun x => good (fst x)) l.

Definition sorted_keys (l : list (sort_key * A)) : Prop :=
  StronglySorted (fun a b => key_le (fst a) (fst b)) l.

Lemma insert_by_key_spec (x : sort_key * A) l :
  good (fst x) -> keys_good l -> sorted_keys l ->
  exists l', insert_by_key x l = inr l' /\ l' ≡ₚ x :: l /\ sorted_keys l'.
Proof.
  intros Hx. induction l as [|y r IH]; intros Hg Hs; simpl.
  - exists [x]. repeat split; [reflexivity|]. repeat constructor.
  - apply Forall_cons in Hg as [Hy Hg].
    apply StronglySorted_inv in Hs as [Hs Hall].
    destruct (key_lt_good _ _ Hy Hx) as [b Hb]. rewrite Hb. cbn [bind_exn].
    destruct b.
    + destruct (IH Hg Hs) as (r' & -> & Hp & Hs'). cbn [bind_exn].
      exists (y :: r'). repeat split.
      * rewrite Hp. apply Permutation_swap.
      * constructor; [exact Hs'|]. rewrite Hp. constructor; [|exact Hall].
        apply key_lt_le; assumption.
    + exists (x :: y :: r). repeat split; [reflexivity|].
      constructor; [now constructor|]. constructor; [exact Hb|].
      rewrite Forall_forall in Hall, Hg. apply Forall_forall. intros z Hz.
      apply (key_le_trans _ (fst y)); auto.
Qed.

Lemma sort_by_key_spec (l : list (sort_key * A)) :
  keys_good l ->
  exists l', sort_by_key l = inr l' /\ l' ≡ₚ l /\ sorted_keys l'.
Proof.
  induction l as [|x r IH]; intros Hg; simpl.
  - exists []. repeat split; [reflexivity | constructor].
  - apply Forall_cons in Hg as [Hx Hg].
    destruct (IH Hg) as (s & -> & Hp & Hs). cbn [bind_exn].
    destruct (insert_by_key_spec x s Hx) as (l' & E & Hp' & Hs');
      [unfold keys_good; now rewrite Hp | exact Hs|].
    exists l'. repeat split; [exact E | | exact Hs'].
    rewrite Hp'. now constructor.
Qed.
End Sorting.

Lemma dict_set_In k v d x : In x (dict_set k v d) -> x = (k, v) \/ In x d.
Proof.
  induction d as [|[k' v'] r IH]; simpl.
  - intros [<-|[]]. now left.
  - destruct (pystr_eqb k' k) eqn:E.
    + apply pystr_eqb_eq in E as ->. intros [<-|H]; auto.
    + intros [<-|H]; [auto|]. destruct (IH H); auto.
Qed.

Lemma dict_set_In_new k v d : In (k, v) (dict_set k v d).
Proof.
  induction d as [|[k' v'] r IH]; simpl; [now left|].
  destruct (pystr_eqb k' k) eqn:E.
  - apply pystr_eqb_eq in E as ->. now left.
  - now right.
Qed.

Lemma dict_set_In_old k v d x :
  In x d -> fst x <> k -> In x (dict_set k v d).
Proof.
  induction d as [|[k' v'] r IH]; simpl; [tauto|].
  intros [<-|H] Hne.
  - destruct (pystr_eqb k' k) eqn:E.
    + apply pystr_eqb_eq in E. contradiction.
    + now left.
  - destruct (pystr_eqb k' k); right; auto.
Qed.

Lemma dict_set_keys k v d :
  List.map fst (dict_set k v d)
  = if bool_decide (k ∈ List.map fst d) then List.map fst d
    else List.map fst d ++ [k].
Proof.
  induction d as [|[k' v'] r IH]; cbn [dict_set List.map fst].
  - now rewrite bool_decide_eq_false_2 by apply not_elem_of_nil.
  - destruct (pystr_eqb k' k) eqn:E.
    + apply pystr_eqb_eq in E as ->.
      now rewrite bool_decide_eq_true_2 by apply list_elem_of_here.
    + assert (Hne : k <> k').
      { intros ->. assert (pystr_eqb k' k' = true) by now apply pystr_eqb_eq.
        congruence. }
      cbn [List.map fst]. rewrite IH.
      assert (Ed : bool_decide (k ∈ k' :: List.map fst r)
                   = bool_decide (k ∈ List.map fst r)).
      { apply bool_decide_ext. rewrite elem_of_cons. tauto. }
      rewrite Ed. now destruct (bool_decide (k ∈ List.map fst r)).
Qed.

Lemma dict_set_NoDup k v d :
  List.NoDup (List.map fst d) -> List.NoDup (List.map fst (dict_set k v d)).
Proof.
  intros H. rewrite dict_set_keys.
  destruct (bool_decide (k ∈ List.map fst d)) eqn:E; [exact H|].
  apply bool_decide_eq_false in E.
  apply NoDup_ListNoDup, NoDup_app. apply NoDup_ListNoDup in H.
  split; [exact H|]. split.
  - intros x Hx ->%list_elem_of_singleton. contradiction.
  - apply NoDup_singleton.
Qed.

Section TimezoneList.
Variable all_timezones : list pystr.
Variable utcoffset_now : pystr -> exn + option Z.

(** An entry of the dict: the name of a zone that has an offset, and
    the label of that offset. *)
Definition listed (x : pystr * pystr) : Prop :=
  exists s, utcoffset_now (fst x) = inr (Some s) /\
            snd x = offset_label (fst x) s.

Definition dict_ok (d : list (pystr * pystr)) : Prop :=
  List.NoDup (List.map fst d) /\ Forall listed d.

Lemma timezones_step_spec d n :
  dict_ok d ->
  dict_ok (timezones_step utcoffset_now d n) /\
  forall x, In x (timezones_step utcoffset_now d n)
            <-> In x d \/ (fst x = n /\ listed x).
Proof.
  intros [Hnd Hall]. unfold timezones_step.
  destruct (utcoffset_now n) as [e|[s|]] eqn:En.
  - split; [now split|]. intros x. split; [auto|].
    intros [H|[<- (s & Hs & _)]]; [exact H | congruence].
  - split; [split|].
    + now apply dict_set_NoDup.
    + apply Forall_forall. intros x [->|Hx]%list_elem_of_In%dict_set_In.
      * exists s. auto.
      * rewrite Forall_forall in Hall. now apply Hall, list_elem_of_In.
    + intros x. split.
      * intros [->|Hx]%dict_set_In; [|now left]. right. split; [reflexivity|].
        exists s. auto.
      * intros [Hx|[<- (s' & Hs' & Hl)]].
        -- destruct (decide (fst x = n)) as [<-|Hne];
             [|now apply dict_set_In_old].
           rewrite Forall_forall in Hall.
           destruct (Hall x) as (s' & Hs' & Hl); [now apply list_elem_of_In|].
           assert (s' = s) as -> by congruence.
           destruct x as [k v]. simpl in *. subst v. apply dict_set_In_new.
        -- assert (s' = s) as -> by congruence.
           destruct x as [k v]. simpl in *. subst v. apply dict_set_In_new.
  - split; [now split|]. intros x. split; [auto|].
    intros [H|[<- (s & Hs & _)]]; [exact H | congruence].
Qed.

Lemma timezones_dict_spec l : forall d,
  dict_ok d ->
  dict_ok (fold_left (timezones_step utcoffset_now) l d) /\
  forall x, In x (fold_left (timezones_step utcoffset_now) l d)
            <-> In x d \/ (In (fst x) l /\ listed x).
Proof.
  induction l as [|n l IH]; intros d Hd; simpl.
  - split; [exact Hd|]. intros x. tauto.
  - destruct (timezones_step_spec d n Hd) as [Hd' Hin].
    destruct (IH _ Hd') as [Hok Hin']. split; [exact Hok|].
    intros x. rewrite Hin', Hin. split.
    + intros [[H|[H1 H2]]|[H1 H2]]; auto.
    + intros [H|[[H1|H1] H2]]; auto.
Qed.

(** An item of the list that is sorted: an entry of the dict under its
    key. *)
Definition coherent (item : sort_key * (pystr * pystr)) : Prop :=
  exists s, fst item = (Some s, fst (snd item)) /\
            utcoffset_now (fst (snd item)) = inr (Some s).

Lemma keyed_spec d :
  Forall listed d ->
  exists keyed,
    map_exn (fun x => try! offset <- utcoffset_now (fst x) in
                      ret ((offset, fst x), x)) d = inr keyed /\
    List.map snd keyed = d /\ Forall coherent keyed.
Proof.
  induction 1 as [|x d (s & Hs & _) _ (keyed & E & Hm & Hc)]; simpl.
  - exists []. repeat split. constructor.
  - rewrite Hs. cbn [bind_exn ret]. rewrite E. cbn [bind_exn ret].
    exists (((Some s, fst x), x) :: keyed). repeat split.
    + simpl. now rewrite Hm.
    + constructor; [|exact Hc]. exists s. auto.
Qed.

Lemma coherent_good item : coherent item -> good (fst item).
Proof. intros (s & -> & _). now exists s. Qed.

(** The run of [get_timezones_with_offsets]: the sorted items. *)
Lemma get_timezones_with_offsets_run :
  exists sorted,
    get_timezones_with_offsets all_timezones utcoffset_now
    = inr (List.map snd sorted) /\
    List.map snd sorted
      ≡ₚ fold_left (timezones_step utcoffset_now) all_timezones [] /\
    sorted_keys sorted /\ Forall coherent sorted.
Proof.
  unfold get_timezones_with_offsets.
  destruct (timezones_dict_spec all_timezones [])
    as [[Hnd Hall] _]; [split; constructor|].
  destruct (keyed_spec _ Hall) as (keyed & -> & Hm & Hc). cbn [bind_exn].
  destruct (sort_by_key_spec keyed) as (sorted & -> & Hp & Hs).
  { eapply Forall_impl; [exact Hc|]. apply coherent_good. }
  cbn [bind_exn ret]. exists sorted. repeat split.
  - rewrite <- Hm. now apply Permutation_map.
  - exact Hs.
  - now rewrite Hp.
Qed.

Lemma sorted_strict sorted :
  sorted_keys sorted -> Forall coherent sorted ->
  List.NoDup (List.map fst (List.map snd sorted)) ->
  StronglySorted
    (fun a b : pystr * pystr =>
       exists x y,
         utcoffset_now (fst a) = inr (Some x) /\
         utcoffset_now (fst b) = inr (Some y) /\
         (x < y \/ (x = y /\ str_lt (fst a) (fst b) = true)))
    (List.map snd sorted).
Proof.
  induction sorted as [|a r IH]; intros Hs Hc Hnd; simpl; [constructor|].
  apply StronglySorted_inv in Hs as [Hs Hle].
  apply Forall_cons in Hc as [Ha Hc].
  simpl in Hnd. apply List.NoDup_cons_iff in Hnd as [Hna Hnd].
  constructor; [now apply IH|].
  apply Forall_forall. intros b' [b [<- Hb]]%list_elem_of_In%in_map_iff.
  rewrite Forall_forall in Hle, Hc.
  specialize (Hle b (proj2 (list_elem_of_In _ _) Hb)).
  destruct (Hc b (proj2 (list_elem_of_In _ _) Hb)) as (y & Kb & Ub).
  destruct Ha as (x & Ka & Ua).
  exists x, y. repeat split; [exact Ua | exact Ub|].
  unfold key_le, key_lt in Hle. rewrite Ka, Kb in Hle. cbn [fst snd] in Hle.
  destruct (Z.eqb_spec y x) as [Heq|Hne].
  - right. split; [now symmetry|]. injection Hle as Hle.
    destruct (str_lt (fst (snd a)) (fst (snd b))) eqn:E; [reflexivity|].
    exfalso. apply Hna. rewrite (str_lt_total _ _ E Hle).
    apply in_map, in_map, Hb.
  - left. injection Hle as Hle%Z.ltb_ge. lia.
Qed.

(** [get_timezones_with_offsets] never raises, whatever the timezone
    database does: a zone whose lookup or offset raises, or whose
    offset is [None], is left out, and every other zone of
    [all_timezones] is listed once, with the label of its offset. *)
Theorem get_timezones_with_offsets_spec :
  exists l,
    get_timezones_with_offsets all_timezones utcoffset_now = inr l /\
    List.NoDup (List.map fst l) /\
    forall name label,
      In (name, label) l
      <-> In name all_timezones /\
          exists s, utcoffset_now name = inr (Some s) /\
                    label = offset_label name s.
Proof.
  destruct get_timezones_with_offsets_run as (sorted & E & Hp & _ & _).
  destruct (timezones_dict_spec all_timezones [])
    as [[Hnd _] Hin]; [split; constructor|].
  exists (List.map snd sorted). split; [exact E|]. split.
  - eapply Permutation_NoDup; [|exact Hnd].
    symmetry. now apply Permutation_map.
  - intros name label. split.
    + intros H. eapply Permutation_in in H; [|exact Hp].
      apply Hin in H as [[]|[H1 (s & Hs & Hl)]]. eauto.
    + intros [H1 (s & Hs & Hl)].
      eapply Permutation_in; [symmetry; exact Hp|].
      apply Hin. right. split; [exact H1|]. exists s. auto.
Qed.

(** The list [get_timezones_with_offsets] returns is in the order of the
    offsets, and of the names where offsets are equal: of two entries,
    the earlier has the smaller offset, or the same offset and the
    smaller name. *)
Theorem get_timezones_with_offsets_sorted l :
  get_timezones_with_offsets all_timezones utcoffset_now = inr l ->
  StronglySorted
    (fun a b : pystr * pystr =>
       exists x y,
         utcoffset_now (fst a) = inr (Some x) /\
         utcoffset_now (fst b) = inr (Some y) /\
         (x < y \/ (x = y /\ str_lt (fst a) (fst b) = true))) l.
Proof.
  destruct get_timezones_with_offsets_run as (sorted & -> & Hp & Hs & Hc).
  intros [= <-]. apply sorted_strict; [exact Hs | exact Hc|].
  destruct (timezones_dict_spec all_timezones [])
    as [[Hnd _] _]; [split; constructor|].
  eapply Permutation_NoDup; [|exact Hnd].
  symmetry. now apply Permutation_map.
Qed.
End TimezoneList.

Lemma format_d_two v :
  0 <= v <= 98 ->
  format_d true 3 (- v - 1) = 45%N :: two_digits (v + 1) /\
  format_d true 3 v = 43%N :: two_digits v /\
  format_d false 2 v = two_digits v.
Proof.
  intros Hv. unfold format_d.
  replace (- v - 1 <? 0) with true by (symmetry; apply Z.ltb_lt; lia).
  replace (v <? 0) with false by (symmetry; apply Z.ltb_ge; lia).
  replace (Z.abs (- v - 1)) with (v + 1) by lia.
  replace (Z.abs v) with v by lia.
  assert (G : forall w, 0 <= w <= 99 ->
                        repeat 48%N (2 - length (decimal w)) ++ decimal w
                        = two_digits w).
  { intros w Hw. destruct (Z_lt_le_dec w 10).
    - rewrite decimal_small by lia. unfold two_digits.
      rewrite Z.div_small, Z.mod_small by lia. reflexivity.
    - rewrite decimal_two by lia. reflexivity. }
  cbn [length Nat.sub app]. rewrite !G by lia. repeat split.
Qed.

(** The label of a zone. For an offset east of Greenwich, or of whole
    hours, it shows the hours and minutes of the offset. For an offset
    west of Greenwich that is not of whole hours it shows one hour more
    and the minutes that are missing to it, since [divmod] rounds down:
    3 hours 30 minutes west is labelled ["UTC-04:30"]. *)
Theorem offset_label_spec tz_name h m :
  0 <= h < 99 -> 0 <= m < 60 ->
  offset_label tz_name (h * 3600 + m * 60)
  = tz_name ++ py " (UTC+" ++ two_digits h ++ py ":" ++ two_digits m
      ++ py ")" /\
  (0 < m ->
   offset_label tz_name (- (h * 3600 + m * 60))
   = tz_name ++ py " (UTC-" ++ two_digits (h + 1) ++ py ":"
       ++ two_digits (60 - m) ++ py ")") /\
  offset_label tz_name (- ((h + 1) * 3600))
  = tz_name ++ py " (UTC-" ++ two_digits (h + 1) ++ py ":00)".
Proof.
  intros Hh Hm. unfold offset_label. repeat split.
  - replace ((h * 3600 + m * 60) / 3600) with h
      by (Z.div_mod_to_equations; lia).
    replace ((h * 3600 + m * 60) mod 3600 / 60) with m
      by (Z.div_mod_to_equations; lia).
    destruct (format_d_two h) as (_ & -> & _); [lia|].
    destruct (format_d_two m) as (_ & _ & ->); [lia|].
    destruct (Z.eqb_spec m 0) as [->|Hne]; reflexivity.
  - intros Hpos.
    replace (- (h * 3600 + m * 60) / 3600) with (- h - 1)
      by (Z.div_mod_to_equations; lia).
    replace (- (h * 3600 + m * 60) mod 3600 / 60) with (60 - m)
      by (Z.div_mod_to_equations; lia).
    destruct (format_d_two h) as (-> & _ & _); [lia|].
    destruct (format_d_two (60 - m)) as (_ & _ & ->); [lia|].
    destruct (Z.eqb_spec (60 - m) 0) as [E|Hne]; [lia|]. reflexivity.
  - replace (- ((h + 1) * 3600) / 3600) with (- h - 1)
      by (Z.div_mod_to_equations; lia).
    replace (- ((h + 1) * 3600) mod 3600 / 60) with 0
      by (Z.div_mod_to_equations; lia).
    destruct (format_d_two h) as (-> & _ & _); [lia|]. reflexivity.
Qed.

(** A timezone database with five names, one of them unknown. *)
Definition sample_all_timezones : list pystr :=
  [py "Asia/Singapore"; py "Mars/Olympus"; py "America/St_Johns"; py "UTC";
   py "Asia/Kolkata"].

Definition sample_utcoffset_now (name : pystr) : exn + option Z :=
  if pystr_eqb name (py "Asia/Singapore") then inr (Some 28800)
  else if pystr_eqb name (py "America/St_Johns") then inr (Some (-12600))
  else if pystr_eqb name (py "UTC") then inr (Some 0)
  else if pystr_eqb name (py "Asia/Kolkata") then inr (Some 19800)
  else inl (UnknownTimeZoneError name).

Lemma get_timezones_with_offsets_sorted_witness :
  StronglySorted
    (fun a b : pystr * pystr =>
       exists x y,
         sample_utcoffset_now (fst a) = inr (Some x) /\
         sample_utcoffset_now (fst b) = inr (Some y) /\
         (x < y \/ (x = y /\ str_lt (fst a) (fst b) = true)))
    [(py "America/St_Johns", py "America/St_Johns (UTC-04:30)");
     (py "UTC", py "UTC (UTC+00:00)");
     (py "Asia/Kolkata", py "Asia/Kolkata (UTC+05:30)");
     (py "Asia/Singapore", py "Asia/Singapore (UTC+08:00)")].
Proof.
  apply (get_timezones_with_offsets_sorted sample_all_timezones
           sample_utcoffset_now).
  compute_done.
Defined.

Lemma offset_label_spec_witness :
  offset_label (py "America/St_Johns") (- (3 * 3600 + 30 * 60))
  = py "America/St_Johns (UTC-04:30)".
Proof.
  refine (proj1 (proj2 (offset_label_spec (py "America/St_Johns") 3 30 _ _))
            _); lia.
Defined.

(** ** What the rows carry over from the provider *)

(** The columns of a row that are entries of its provider record. *)
Definition carries (raw : raw_record) (r : row) : Prop :=
  r !! "flight_number" = Some (VStr (raw_number raw)) /\
  r !! "airline_name" = Some (VStr (airline_name_of raw)) /\
  r !! "origin_airport" = Some (VStr (raw_origin_name raw)) /\
  r !! "destination_airport" = Some (VStr (raw_destination_name raw)) /\
  r !! "origin_timezone" = Some (VStr (raw_origin_timezone raw)) /\
  r !! "destination_timezone" = Some (VStr (raw_destination_timezone raw)) /\
  r !! "origin_airport_code" = Some (VStr (raw_origin_iata raw)) /\
  r !! "destination_airport_code" = Some (VStr (raw_destination_iata raw)).

Section Carried.
Variable up : N -> pystr.
Variable ud : N -> option Z.
Variable tz : pystr -> option tzinfo.
Variable by_date : pystr -> pystr -> exn + response.
Variable history : pystr -> exn + response.

Lemma carries_canonical raw guess :
  carries raw (<["is_guess" := VBool guess]> (canonical raw)).
Proof. repeat split. Qed.

Lemma carries_schedule raw (r : row) dep arr :
  carries raw r ->
  carries raw (<["scheduled_arrival" := arr]>
                 (<["scheduled_departure" := dep]> r)).
Proof.
  unfold carries. intros H. rewrite !lookup_insert_ne by discriminate.
  exact H.
Qed.

Lemma carries_nice raw (r : row) dep arr :
  carries raw r ->
  carries raw (<["nice_arrival_date" := arr]>
                 (<["nice_departure_date" := dep]> r)).
Proof.
  unfold carries. intros H. rewrite !lookup_insert_ne by discriminate.
  exact H.
Qed.

Lemma exact_row_carries raw r : exact_row ud tz raw = inr r -> carries raw r.
Proof.
  unfold exact_row. rewrite parse_flight_info_one. cbn [bind_exn]. intros H.
  apply bind_inr in H as (r1 & (dep & arr & ->)%update_row_timezones_shape & H).
  apply nice_row_shape in H as (s & t & s' & t' & _ & _ & _ & _ & ->).
  apply carries_nice, carries_schedule, carries_canonical.
Qed.

Lemma guess_row_carries d raw r :
  guess_row ud tz d raw = inr r -> carries raw r.
Proof.
  unfold guess_row. rewrite parse_flight_info_one. cbn [bind_exn]. intros H.
  apply bind_inr in H as (r1 & (dep & arr & ->)%move_flight_date_shape & H).
  apply bind_inr in H as (r2 & (dep' & arr' & ->)%update_row_timezones_shape & H).
  apply nice_row_shape in H as (s & t & s' & t' & _ & _ & _ & _ & ->).
  apply carries_nice, carries_schedule, carries_schedule, carries_canonical.
Qed.

(** The rows [get_flight] returns stand, one for one and in order, for
    the records of the dated answer or, when that is empty, for the
    records kept of the history; and a row carries the flight number of
    its record (not the one the user typed), the airline name worked
    out from the record, and the record's airports, zones and codes. *)
Theorem get_flight_carries flight_number date rows calls :
  get_flight up ud tz by_date history flight_number date = (inr rows, calls) ->
  exists d flight_info records,
    parse_date ud date = inr d /\
    by_date (parse_flight_number up flight_number) d = inr flight_info /\
    (records = response_values flight_info /\ records <> [] \/
     response_values flight_info = [] /\
     exists hist,
       history (parse_flight_number up flight_number) = inr hist /\
       records = drop_ununique_flights hist) /\
    Forall2 carries records rows.
Proof.
  rewrite get_flight_cases. cbv zeta.
  destruct (parse_date ud date) as [e|d]; [discriminate|].
  destruct (by_date _ d) as [e|flight_info] eqn:Eb; [discriminate|].
  destruct (response_values flight_info) as [|raw l] eqn:El.
  - destruct (history _) as [e|hist] eqn:Eh; [discriminate|].
    destruct (response_values hist) as [|x l]; [discriminate|].
    intros [= H%guess_rows%map_exn_inr _].
    exists d, flight_info, (drop_ununique_flights hist).
    split; [reflexivity|]. split; [exact Eb|]. split; [right; eauto|].
    eapply Forall2_impl; [exact H|]. apply guess_row_carries.
  - intros [= H%exact_rows%map_exn_inr _].
    exists d, flight_info, (raw :: l).
    split; [reflexivity|]. split; [exact Eb|].
    split; [left; split; [now symmetry | discriminate]|].
    eapply Forall2_impl; [exact H|]. apply exact_row_carries.
Qed.
End Carried.

Lemma get_flight_carries_witness :
  exists d flight_info records,
    parse_date no_unicode_decimal (py "2024-10-23") = inr d /\
    mock_by_date (inr (RespList [mock_flight_data]))
      (parse_flight_number sharp_s_upper (py "sq 327")) d = inr flight_info /\
    (records = response_values flight_info /\ records <> [] \/
     response_values flight_info = [] /\
     exists hist,
       mock_history (inl (ProviderFailure (py "unreachable")))
         (parse_flight_number sharp_s_upper (py "sq 327")) = inr hist /\
       records = drop_ununique_flights hist) /\
    Forall2 carries records
      [mock_row false "20241023 2230" "20241023 2315"
         "2024-10-23 22:30" "2024-10-23 23:15"].
Proof.
  apply (get_flight_carries sharp_s_upper no_unicode_decimal
           sample_tz_database _ _ (py "sq 327") (py "2024-10-23") _
           [CallForDate (py "SQ327") (py "20241023")]).
  compute_done.
Defined.

(** ** The times of the event *)





(** The text of a date and time in a content line, and its line. *)
Definition stamp (x : datetime) (sec : Z) : pystr :=
  four_digits (year (dt_date x)) ++ two_digits (month (dt_date x))
    ++ two_digits (day (dt_date x)) ++ py "T"
    ++ two_digits (hour (dt_time x)) ++ two_digits (minute (dt_time x))
    ++ two_digits sec.




Section EventTimes.
Variable ud : N -> option Z.
Variable tz : pystr -> option tzinfo.
Variable now : datetime * Z.
Hypothesis ud_digit : forall c v, ud c = Some v -> 0 <= v <= 9.


End EventTimes.

